(** * Catalog reconciliation, batch encoding, job admission and duplicate
      resolution of the Shopify bulk scripts

    Shallow embedding of
    - [nz-bulk-upload-adidas-women/bulk-upload-shopify-women.py]
    - [duplicate-delete/find_duplicate_skus.py]
    - [duplicate-delete/delete_duplicate_products.py]

    Python dictionaries used as keyed stores are [gmap string _], Python
    sets are [gset string], lists are [list].  Every remote call is
    recorded in a chronological trace of events; what the remote answers
    is given by an oracle that may depend on the whole history, so the
    theorems hold for every behaviour of the remote system. *)

From stdpp Require Import gmap strings list fin_maps sets pretty.
From Stdlib Require Import ZArith String Ascii Lia Sorted.

Set Warnings "-clear-no-such-hyp".

Open Scope string_scope.
Open Scope Z_scope.
Open Scope list_scope.

(* ===================================================================== *)
(** ** Python helpers *)
(* ===================================================================== *)

(** Truth value of a Python string: only [''] is falsy. *)
Definition truthy (s : string) : bool := negb (String.eqb s "").

(** Truth value of a value that is either [None] or a string. *)
Definition truthy_opt (o : option string) : bool :=
  match o with
  | Some s => truthy s
  | None => false
  end.

(** [s.split(c)[0]] for a one-character separator: the part of [s] before
    the first occurrence of [c]. *)
Fixpoint split_head (c : ascii) (s : string) : string :=
  match s with
  | EmptyString => EmptyString
  | String a rest => if Ascii.eqb a c then EmptyString else String a (split_head c rest)
  end.

(** [s.replace(pat, "")]: every non-overlapping occurrence of [pat], found
    from the left, is removed.  [skip] counts the characters of the
    occurrence being removed that are still to be dropped. *)
Fixpoint remove_all (pat : string) (skip : nat) (s : string) : string :=
  match s with
  | EmptyString => EmptyString
  | String a rest =>
      match skip with
      | S k => remove_all pat k rest
      | O =>
          if truthy pat && String.prefix pat s
          then remove_all pat (Nat.pred (String.length pat)) rest
          else String a (remove_all pat O rest)
      end
  end.

(** [enumerate(l, 1)]. *)
Fixpoint enumerate_from {A : Type} (start : nat) (l : list A) : list (nat * A) :=
  match l with
  | [] => []
  | x :: rest => (start, x) :: enumerate_from (S start) rest
  end.

(** A JSON document, as [json.dumps] receives it; objects keep the order in
    which the dictionary was built. *)
#[warnings="-register-all"] Inductive json : Type :=
| JNull
| JBool (b : bool)
| JInt (n : Z)
| JStr (s : string)
| JList (items : list json)
| JObj (fields : list (string * json)).

(** [key in obj] for a JSON object. *)
Definition has_key (key : string) (j : json) : bool :=
  match j with
  | JObj fields => existsb (fun kv => String.eqb (fst kv) key) fields
  | _ => false
  end.

(** [obj[key]] for a JSON object ([None] stands for [KeyError]). *)
Definition get_key (key : string) (j : json) : option json :=
  match j with
  | JObj fields =>
      match List.find (fun kv => String.eqb (fst kv) key) fields with
      | Some kv => Some (snd kv)
      | None => None
      end
  | _ => None
  end.

(* ===================================================================== *)
(** ** The remote catalog as an oracle over the history of calls *)
(* ===================================================================== *)

(** Why [delete_product] reports a failure. *)
Inductive DeleteError : Type :=
| RequestError                        (* str(e) of a RequestException *)
| GraphqlErrors                       (* result["errors"] *)
| UserErrors (errors : list string).  (* data["userErrors"] *)

(** An entry of ["successful_deletions"] or ["failed_deletions"] in the
    deletion log; [attempt_error] is present in the failed ones only. *)
Record Attempt : Type := {
  attempt_id : string;
  attempt_title : string;
  attempt_reason : string;
  attempt_error : option DeleteError;
  attempt_at : string
}.

(** [deletion_log] of [delete_products_from_file]. *)
Record DeletionLog : Type := {
  log_started_at : string;
  log_total_products : nat;
  log_successful_deletions : list Attempt;
  log_failed_deletions : list Attempt;
  log_completed_at : option string
}.

(** What the scripts do to the outside world, in the order they do it.
    Sleeps are recorded in milliseconds ([time.sleep(0.1)] is [EvSleep 100]). *)
Inductive Event : Type :=
| EvLookup (sku : string)            (* POST GetProductBySKU, query tag:sku\:{sku} *)
| EvDelete (product_id : string)     (* POST productDelete *)
| EvStatus                            (* POST getCurrentBulkOperation *)
| EvSleep (milliseconds : Z)         (* time.sleep *)
| EvSubmit (staged_upload_path : string) (* POST bulkOperationRunMutation *)
| EvWriteLog (log : DeletionLog).    (* json.dump(deletion_log) to log_file *)

(** Result of [requests.post(...)] followed by [response.json()]: either call
    may raise, otherwise a decoded body is at hand. *)
Inductive Post (A : Type) : Type :=
| RequestException             (* requests.exceptions.RequestException *)
| OtherException               (* any other Exception *)
| Json (body : A).

Arguments RequestException {A}.
Arguments OtherException {A}.
Arguments Json {A} body.

(** A GraphQL body: either it has an ["errors"] key or its ["data"] is read. *)
Inductive Graphql (A : Type) : Type :=
| Errors
| Data (data : A).

Arguments Errors {A}.
Arguments Data {A} data.

(** [data["data"]["productDelete"]]. *)
Record ProductDelete : Type := {
  userErrors : list string;
  deletedProductId : option string
}.

(** [data["data"]["currentBulkOperation"]] when it is not [null]. *)
Record BulkOperation : Type := {
  id : string;
  status : string;
  createdAt : option string;
  objectCount : option string
}.

(** [data["data"]["bulkOperationRunMutation"]]. *)
Record BulkOperationRunMutation : Type := {
  run_userErrors : list string;
  bulkOperation : option BulkOperation
}.

(** The remote system: what it answers to each kind of request, given
    everything that happened before the request. *)
Record Remote : Type := {
  lookup_reply : list Event -> string -> Post (Graphql (list string));
  delete_reply : list Event -> string -> Post (Graphql ProductDelete);
  status_reply : list Event -> Post (Graphql (option BulkOperation));
  submit_reply : list Event -> string -> Post (Graphql BulkOperationRunMutation)
}.

(* ===================================================================== *)
(** ** bulk-upload-shopify-women.py: lookup and delete *)
(* ===================================================================== *)

(** [get_shopify_product_id(sku)]: the id of the first product carrying the
    tag [sku:<sku>], or [None] when the request fails, the body reports
    errors, or no product matches. *)
Definition get_shopify_product_id (R : Remote) (sku : string) (tr : list Event)
  : option string * list Event :=
  let tr' := tr ++ [EvLookup sku] in
  match lookup_reply R tr sku with
  | RequestException => (None, tr')
  | OtherException => (None, tr')
  | Json Errors => (None, tr')
  | Json (Data products) =>
      match products with
      | node_id :: _ => (Some node_id, tr')
      | [] => (None, tr')
      end
  end.

(** The counters printed in the deletion summary. *)
Record DeletionSummary : Type := {
  successfully_deleted : nat;
  failed_deletions : nat
}.

(** Outcome of one [productDelete] call, as the [if]/[elif] chain reads it. *)
Definition delete_succeeded (reply : Post (Graphql ProductDelete)) : bool :=
  match reply with
  | RequestException => false
  | OtherException => false
  | Json Errors => false
  | Json (Data d) =>
      match userErrors d with
      | _ :: _ => false
      | [] => truthy_opt (deletedProductId d)
      end
  end.

(** The [for sku in skus_to_delete] loop. *)
Fixpoint delete_loop (R : Remote) (skus : list string) (acc : DeletionSummary)
    (tr : list Event) : DeletionSummary * list Event :=
  match skus with
  | [] => (acc, tr)
  | sku :: rest =>
      let '(product_id, tr1) := get_shopify_product_id R sku tr in
      match product_id with
      | Some pid =>
          if truthy pid then
            let reply := delete_reply R tr1 pid in
            let tr2 := tr1 ++ [EvDelete pid] in
            if delete_succeeded reply
            then delete_loop R rest
                   {| successfully_deleted := S (successfully_deleted acc);
                      failed_deletions := failed_deletions acc |} tr2
            else delete_loop R rest
                   {| successfully_deleted := successfully_deleted acc;
                      failed_deletions := S (failed_deletions acc) |} tr2
          else delete_loop R rest
                 {| successfully_deleted := successfully_deleted acc;
                    failed_deletions := S (failed_deletions acc) |} tr1
      | None =>
          delete_loop R rest
            {| successfully_deleted := successfully_deleted acc;
               failed_deletions := S (failed_deletions acc) |} tr1
      end
  end.

(** [delete_products_from_shopify(skus_to_delete)].  [skus] is the set in
    the order the [for] loop visits it.  An empty set returns at once; the
    single [time.sleep(0.1)] sits after the loop. *)
Definition delete_products_from_shopify (R : Remote) (skus : list string)
    (tr : list Event) : DeletionSummary * list Event :=
  match skus with
  | [] => ({| successfully_deleted := 0%nat; failed_deletions := 0%nat |}, tr)
  | _ :: _ =>
      let '(summary, tr') :=
        delete_loop R skus {| successfully_deleted := 0%nat; failed_deletions := 0%nat |} tr in
      (summary, tr' ++ [EvSleep 100])
  end.

(* ===================================================================== *)
(** ** bulk-upload-shopify-women.py: the batch encoder *)
(* ===================================================================== *)

(** A variant of a scraped product, with the keys the encoder reads. *)
Record Variant : Type := {
  variant_name : string;     (* variant["name"] *)
  upc : string;              (* variant["upc"] *)
  quantity : Z               (* variant["quantity"] *)
}.

(** [product_upload_data], the record the scraper appends to
    [all_product_data].  Prices are strings: [str(math.ceil(...))] or ['']. *)
Record Product : Type := {
  sku : string;
  name : string;
  price : string;
  variants : list Variant;
  images : list string;
  description : string;
  previousPrice : string;
  originalCost : string;
  gender : string;
  productType : string;
  brand : string
}.

(** Python's [float] as far as the encoder uses it: conversion of a string
    (which may raise, [None]), the value [float(0)], and the comparison [>].
    The two laws are facts of Python: [float('')] raises [ValueError], and
    [0.0 > 0.0] is [False]. *)
Class PyFloat : Type := {
  float : Type;
  float_of_str : string -> option float;
  float_zero : float;
  float_gt : float -> float -> bool;
  float_of_empty : float_of_str "" = None;
  float_zero_not_positive : float_gt float_zero float_zero = false
}.

Section Encoder.

Context {PF : PyFloat}.

(** [float(x or 0)] for a string [x]: the empty string is falsy, so it is
    replaced by the integer [0] before the conversion. *)
Definition float_or_zero (x : string) : option float :=
  if truthy x then float_of_str x else Some float_zero.

(** The [try]/[except] block that computes [is_discounted]. *)
Definition is_discounted (product : Product) : bool :=
  match float_or_zero (price product) with
  | None => false
  | Some price_val =>
      match float_or_zero (previousPrice product) with
      | None => false
      | Some prev_val =>
          float_gt prev_val float_zero
          && float_gt price_val float_zero
          && float_gt prev_val price_val
      end
  end.

(** [base_tags] after the optional [append("discounted")]; the update branch
    and the create branch build it with the same statements. *)
Definition base_tags (product : Product) : list string :=
  [ "uploaded_by_script";
    "nz-prod";
    "sku:" +:+ sku product;
    "new";
    gender product;
    productType product;
    brand product ]
  ++ (if is_discounted product then ["discounted"] else []).

Definition product_options (product : Product) : json :=
  JList
    [ JObj
        [ ("name", JStr "Size");
          ("values",
           JList (List.map (fun variant => JObj [("name", JStr (variant_name variant))])
                    (variants product))) ] ].

Definition compare_at_price (product : Product) : string :=
  if String.eqb (previousPrice product) "" then "0" else previousPrice product.

Definition inventory_item (product : Product) : json :=
  JObj [ ("tracked", JBool true); ("cost", JStr (originalCost product)) ].

Definition option_values (variant : Variant) : json :=
  JList [ JObj [ ("optionName", JStr "Size"); ("name", JStr (variant_name variant)) ] ].

Definition inventory_quantities (variant : Variant) : json :=
  JList
    [ JObj
        [ ("quantity", JInt (quantity variant));
          ("locationId", JStr "gid://shopify/Location/78755004615");
          ("name", JStr "available") ] ].

(** One element of ["variants"] in an update line. *)
Definition update_variant (product : Product) (variant : Variant) : json :=
  JObj
    [ ("price", JStr (price product));
      ("sku", JStr (split_head "_" (sku product)));
      ("barcode", JStr (upc variant));
      ("compareAtPrice", JStr (compare_at_price product));
      ("inventoryItem", inventory_item product);
      ("optionValues", option_values variant);
      ("inventoryQuantities", inventory_quantities variant) ].

(** One element of ["variants"] in a create line. *)
Definition create_variant (product : Product) (variant : Variant) : json :=
  JObj
    [ ("price", JStr (price product));
      ("sku", JStr (split_head "_" (sku product)));
      ("barcode", JStr (upc variant));
      ("compareAtPrice", JStr (compare_at_price product));
      ("inventoryItem", inventory_item product);
      ("inventoryQuantities", inventory_quantities variant);
      ("optionValues", option_values variant) ].

Definition update_file (product : Product) (entry : nat * string) : json :=
  JObj
    [ ("alt", JStr (name product +:+ " image"));
      ("originalSource", JStr (split_head "?" (snd entry)));
      ("filename", JStr (name product +:+ "-LUZActive-Image-" +:+ pretty (fst entry))) ].

Definition create_file (product : Product) (entry : nat * string) : json :=
  JObj
    [ ("alt", JStr (name product +:+ " image"));
      ("originalSource", JStr (split_head "?" (snd entry)));
      ("filename", JStr (name product +:+ " - LUZActive - Image " +:+ pretty (fst entry))) ].

(** The [line] of the update branch: a [productSet] input that carries the
    remote id. *)
Definition update_line (product : Product) (shopify_id : string) : json :=
  JObj
    [ ("input",
       JObj
         [ ("id", JStr shopify_id);
           ("tags", JList (List.map JStr (base_tags product)));
           ("productOptions", product_options product);
           ("variants", JList (List.map (update_variant product) (variants product)));
           ("files",
            JList (List.map (update_file product) (enumerate_from 1 (images product)))) ]) ].

(** The [line] written for a create: a [productSet] input without an id. *)
Definition create_line (product : Product) : json :=
  JObj
    [ ("input",
       JObj
         [ ("title", JStr (name product));
           ("status", JStr "DRAFT");
           ("productType", JStr (productType product));
           ("tags", JList (List.map JStr (base_tags product)));
           ("vendor", JStr (brand product));
           ("descriptionHtml", JStr ("<p>" +:+ description product +:+ "</p>"));
           ("productOptions", product_options product);
           ("variants", JList (List.map (create_variant product) (variants product)));
           ("files",
            JList (List.map (create_file product) (enumerate_from 1 (images product)))) ]) ].

(** [processed_skus.json]: external identifier to last-seen metadata. *)
Record Processed : Type := {
  processed_name : string;   (* "name" *)
  processed_at : string      (* "processed_at" *)
}.

(** What the first loop of [generate_product_jsonl] decides for a product.
    An update keeps the product and the remote id its line is built from. *)
Inductive Decision : Type :=
| Update (product : Product) (shopify_id : string)
| Create (product : Product).

(** Body of [for product in product_list]. *)
Definition classify (R : Remote) (processed_skus : gmap string Processed)
    (product : Product) (tr : list Event) : Decision * list Event :=
  let parent_sku := sku product in
  match processed_skus !! parent_sku with
  | Some _ =>
      let '(shopify_id, tr') := get_shopify_product_id R parent_sku tr in
      match shopify_id with
      | Some sid => if truthy sid then (Update product sid, tr') else (Create product, tr')
      | None => (Create product, tr')
      end
  | None => (Create product, tr)
  end.

(** The first loop: [updates] and [creates], each in the order of
    [product_list]. *)
Fixpoint classify_all (R : Remote) (processed_skus : gmap string Processed)
    (product_list : list Product) (tr : list Event)
  : list (Product * string) * list Product * list Event :=
  match product_list with
  | [] => ([], [], tr)
  | product :: rest =>
      let '(decision, tr1) := classify R processed_skus product tr in
      let '(updates, creates, tr2) := classify_all R processed_skus rest tr1 in
      match decision with
      | Update p sid => ((p, sid) :: updates, creates, tr2)
      | Create p => (updates, p :: creates, tr2)
      end
  end.

(** The second part: [products.jsonl], one JSON document per written line
    ([json.dumps] never emits a line break), updates first. *)
Definition write_jsonl (updates : list (Product * string)) (creates : list Product)
  : list json :=
  List.map (fun u => update_line (fst u) (snd u)) updates
  ++ List.map create_line creates.

Record Generated : Type := {
  updates : list (Product * string);
  creates : list Product;
  products_jsonl : list json
}.

(** [generate_product_jsonl(product_list, processed_skus)]. *)
Definition generate_product_jsonl (R : Remote) (product_list : list Product)
    (processed_skus : gmap string Processed) (tr : list Event)
  : Generated * list Event :=
  let '(updates, creates, tr') := classify_all R processed_skus product_list tr in
  ({| updates := updates;
      creates := creates;
      products_jsonl := write_jsonl updates creates |}, tr').

End Encoder.

(* ===================================================================== *)
(** ** bulk-upload-shopify-women.py: the job admission gate *)
(* ===================================================================== *)

(** [check_bulk_operation_status()]: the current bulk operation, or [None]
    when there is none, and also when the query itself fails. *)
Definition check_bulk_operation_status (R : Remote) (tr : list Event)
  : option BulkOperation * list Event :=
  let tr' := tr ++ [EvStatus] in
  match status_reply R tr with
  | RequestException => (None, tr')
  | OtherException => (None, tr')
  | Json Errors => (None, tr')
  | Json (Data bulk_operation) => (bulk_operation, tr')
  end.

(** [x in [..]] for strings. *)
Definition in_list (x : string) (l : list string) : bool :=
  existsb (String.eqb x) l.

(** [wait_for_bulk_operation_completion(check_interval)].  The source loops
    with [while True]; [fuel] bounds the number of iterations the model
    unfolds, and [None] means the bound was reached while still waiting. *)
Fixpoint wait_for_bulk_operation_completion (fuel : nat) (R : Remote)
    (check_interval : Z) (tr : list Event) : option (list Event) :=
  match fuel with
  | O => None
  | S fuel' =>
      let '(status_info, tr1) := check_bulk_operation_status R tr in
      match status_info with
      | None => Some tr1
      | Some info =>
          let current_status := status info in
          if in_list current_status ["COMPLETED"; "FAILED"; "CANCELED"] then Some tr1
          else if in_list current_status ["RUNNING"; "CREATED"] then
            wait_for_bulk_operation_completion fuel' R check_interval
              (tr1 ++ [EvSleep (check_interval * 1000)])
          else
            wait_for_bulk_operation_completion fuel' R check_interval
              (tr1 ++ [EvSleep (check_interval * 1000)])
      end
  end.

(** [run_bulk_product_set_with_queue(staged_upload_path)]: wait with the
    default interval of 120 seconds, then post the bulk mutation once.  The
    value is [None] when the post raises, otherwise the decoded body. *)
Definition run_bulk_product_set_with_queue (fuel : nat) (R : Remote)
    (staged_upload_path : string) (tr : list Event)
  : option (option (Graphql BulkOperationRunMutation) * list Event) :=
  match wait_for_bulk_operation_completion fuel R 120 tr with
  | None => None
  | Some tr1 =>
      let tr2 := tr1 ++ [EvSubmit staged_upload_path] in
      match submit_reply R tr1 staged_upload_path with
      | RequestException => Some (None, tr2)
      | OtherException => Some (None, tr2)
      | Json data => Some (Some data, tr2)
      end
  end.

(* ===================================================================== *)
(** ** bulk-upload-shopify-women.py: scrape and reconciliation *)
(* ===================================================================== *)

(** What the body of [for item in data['items']] gets from the product
    page: one of the [continue] paths that log the product as skipped, or
    the assembled [product_upload_data].  A page that gets past the price
    checks is taken to hold a [dataObject], so that [product_data] is a
    dictionary. *)
Inductive ProductPage : Type :=
| Skipped (reason : string)
| Scraped (product : Product).

(** An entry of a listing page: [item.get("plu")] and what fetching its
    product page gives.  The record appended for the item takes its [sku]
    from the product page, not from [plu]. *)
Record Item : Type := {
  plu : option string;
  page : ProductPage
}.

(** One paginated listing request: it raises, it has no ['items'], or it
    lists items. *)
Inductive PageFetch : Type :=
| PageRaised
| PageWithoutItems
| PageItems (items : list Item).

(** One entry of [URLS]: skipped before pagination, or its pages. *)
Inductive UrlFetch : Type :=
| UrlSkipped
| UrlPages (pages : list PageFetch).

(** The accumulators of the scrape. *)
Record Scrape : Type := {
  all_product_data : list Product;
  current_jd_skus : gset string;
  failed_skus : gset (option string)
}.

Definition scrape_start : Scrape :=
  {| all_product_data := []; current_jd_skus := ∅; failed_skus := ∅ |}.

(** [item.get("plu") in current_jd_skus]. *)
Definition plu_seen (item : Item) (current : gset string) : bool :=
  match plu item with
  | Some p => bool_decide (p ∈ current)
  | None => false
  end.

(** [if item.get("plu"): current_jd_skus.add(item.get("plu"))]. *)
Definition track_plu (item : Item) (current : gset string) : gset string :=
  match plu item with
  | Some p => if truthy p then {[ p ]} ∪ current else current
  | None => current
  end.

(** Body of [for item in data['items']]. *)
Definition scrape_item (st : Scrape) (item : Item) : Scrape :=
  if plu_seen item (current_jd_skus st) then st
  else
    let current := track_plu item (current_jd_skus st) in
    match page item with
    | Skipped _ =>
        {| all_product_data := all_product_data st;
           current_jd_skus := current;
           failed_skus := {[ plu item ]} ∪ failed_skus st |}
    | Scraped product =>
        {| all_product_data := all_product_data st ++ [product];
           current_jd_skus := current;
           failed_skus := failed_skus st |}
    end.

(** A run either reaches the end of a phase, leaves through
    [sys.exit(code)], or is ended by an exception nothing catches. *)
Inductive outcome (A : Type) : Type :=
| Done (a : A)
| SysExit (code : Z)
| Uncaught.

Arguments Done {A} a.
Arguments SysExit {A} code.
Arguments Uncaught {A}.

(** [for page in range(1, totalPages + 1)]. *)
Fixpoint scrape_pages (st : Scrape) (pages : list PageFetch) : outcome Scrape :=
  match pages with
  | [] => Done st
  | PageRaised :: _ => SysExit 1
  | PageWithoutItems :: rest => scrape_pages st rest
  | PageItems items :: rest => scrape_pages (fold_left scrape_item items st) rest
  end.

(** [for url in urls]. *)
Fixpoint scrape_urls (st : Scrape) (urls : list UrlFetch) : outcome Scrape :=
  match urls with
  | [] => Done st
  | UrlSkipped :: rest => scrape_urls st rest
  | UrlPages pages :: rest =>
      match scrape_pages st pages with
      | Done st' => scrape_urls st' rest
      | SysExit code => SysExit code
      | Uncaught => Uncaught
      end
  end.

(** What [open("processed_skus.json")] and [json.load] give. *)
Inductive StoreFile : Type :=
| FileNotFound
| JSONDecodeError
| Stored (data : gmap string Processed).

(** [load_processed_skus()]. *)
Definition load_processed_skus (file : StoreFile) : gmap string Processed :=
  match file with
  | Stored data => data
  | FileNotFound => ∅
  | JSONDecodeError => ∅
  end.

(** The loop that builds [latest_processed_skus];
    [json.dumps(None, default=str)] is the string [null]. *)
Definition latest_of (products : list Product) : gmap string Processed :=
  fold_left
    (fun latest product =>
       <[ sku product := {| processed_name := name product; processed_at := "null" |} ]> latest)
    products ∅.

(** Everything a run of [fetch_total_product_counts] computes up to
    [save_processed_skus]. *)
Record Run : Type := {
  loaded : gmap string Processed;       (* load_processed_skus() *)
  scraped : Scrape;
  skus_to_delete : gset string;
  deletion_summary : DeletionSummary;
  deletion_trace : list Event;          (* the trace when the deletions are done *)
  pruned : gmap string Processed;       (* processed_skus after the del loop *)
  generated : Generated;
  saved : gmap string Processed;        (* what save_processed_skus writes *)
  run_trace : list Event
}.

Section Reconciler.

Context {PF : PyFloat}.

(** [fetch_total_product_counts(urls)] from the load of the identity store to
    [save_processed_skus]; the staged upload that follows hands the file to
    [run_bulk_product_set_with_queue].  The set [skus_to_delete] is visited
    in the order [elements] lists it. *)
Definition fetch_total_product_counts (R : Remote) (file : StoreFile)
    (urls : list UrlFetch) : outcome Run :=
  let processed_skus := load_processed_skus file in
  match scrape_urls scrape_start urls with
  | SysExit code => SysExit code
  | Uncaught => Uncaught
  | Done st =>
      let previous_skus : gset string := dom processed_skus in
      let to_delete := previous_skus ∖ current_jd_skus st in
      let '(summary, tr1) :=
        match elements to_delete with
        | [] => ({| successfully_deleted := 0%nat; failed_deletions := 0%nat |}, [])
        | _ :: _ => delete_products_from_shopify R (elements to_delete) []
        end in
      let processed_skus' :=
        fold_left (fun store s => delete s store) (elements to_delete) processed_skus in
      let '(gen, tr2) :=
        generate_product_jsonl R (all_product_data st) processed_skus' tr1 in
      Done {| loaded := processed_skus;
              scraped := st;
              skus_to_delete := to_delete;
              deletion_summary := summary;
              deletion_trace := tr1;
              pruned := processed_skus';
              generated := gen;
              saved := latest_of (all_product_data st);
              run_trace := tr2 |}
  end.

End Reconciler.

(* ===================================================================== *)
(** ** find_duplicate_skus.py *)
(* ===================================================================== *)

(** [product_edge["node"]] of the fetched catalog. *)
Record Node : Type := {
  node_id : string;          (* "id" *)
  title : string;
  tags : list string;
  node_createdAt : string    (* "createdAt" *)
}.

(** A member of a group in [by_sku_tag]. *)
Record Member : Type := {
  member_id : string;        (* "id" *)
  member_title : string;     (* "title" *)
  created_at : string;
  sku_tag : string;
  member_tags : list string  (* "tags" *)
}.

(** The first tag that starts with [sku:], with every [sku:] removed from
    it ([tag.replace("sku:", "")]); [None] when no tag starts so. *)
Definition sku_from_tag (node_tags : list string) : option string :=
  match List.find (String.prefix "sku:") node_tags with
  | Some tag => Some (remove_all "sku:" 0 tag)
  | None => None
  end.

(** [by_sku_tag[key].append(member)] on an insertion-ordered dictionary. *)
Fixpoint append_member (key : string) (member : Member)
    (by_sku_tag : list (string * list Member)) : list (string * list Member) :=
  match by_sku_tag with
  | [] => [(key, [member])]
  | (k, members) :: rest =>
      if String.eqb k key then (k, members ++ [member]) :: rest
      else (k, members) :: append_member key member rest
  end.

(** What [find_duplicates] returns. *)
Record Duplicates : Type := {
  by_sku_tag : list (string * list Member);
  products_without_sku_tag : list Node
}.

(** Body of [for product_edge in products]. *)
Definition group_node (acc : Duplicates) (product : Node) : Duplicates :=
  match sku_from_tag (tags product) with
  | Some value =>
      if truthy value then
        {| by_sku_tag :=
             append_member value
               {| member_id := node_id product;
                  member_title := title product;
                  created_at := node_createdAt product;
                  sku_tag := value;
                  member_tags := tags product |}
               (by_sku_tag acc);
           products_without_sku_tag := products_without_sku_tag acc |}
      else
        {| by_sku_tag := by_sku_tag acc;
           products_without_sku_tag := products_without_sku_tag acc ++ [product] |}
  | None =>
      {| by_sku_tag := by_sku_tag acc;
         products_without_sku_tag := products_without_sku_tag acc ++ [product] |}
  end.

(** [find_duplicates(products)]. *)
Definition find_duplicates (products : list Node) : Duplicates :=
  let grouped :=
    fold_left group_node products {| by_sku_tag := []; products_without_sku_tag := [] |} in
  {| by_sku_tag :=
       List.filter (fun kv => (1 <? List.length (snd kv))%nat) (by_sku_tag grouped);
     products_without_sku_tag := products_without_sku_tag grouped |}.

(** Insertion of [x] in front of the first member created at the same time
    or later: members with equal keys keep their order. *)
Fixpoint insert_by_created_at (x : Member) (l : list Member) : list Member :=
  match l with
  | [] => [x]
  | y :: rest =>
      if String.leb (created_at x) (created_at y) then x :: y :: rest
      else y :: insert_by_created_at x rest
  end.

(** [sorted(products, key=lambda x: x["created_at"])]: a stable sort on
    the timestamp strings. *)
Fixpoint sorted_by_created_at (products : list Member) : list Member :=
  match products with
  | [] => []
  | x :: rest => insert_by_created_at x (sorted_by_created_at rest)
  end.

(** An entry of [products_to_delete.json]. *)
Record ToDelete : Type := {
  delete_id : string;          (* "id" *)
  delete_title : string;       (* "title" *)
  reason : string;
  delete_created_at : string   (* "created_at" *)
}.

(** The dictionary appended for [prod] in the group of [sku_value]. *)
Definition to_delete (sku_value : string) (prod : Member) : ToDelete :=
  {| delete_id := member_id prod;
     delete_title := member_title prod;
     reason := "Duplicate SKU tag: " +:+ sku_value;
     delete_created_at := created_at prod |}.

(** Body of [for sku, products in duplicates["by_sku_tag"].items()]:
    [sorted_products[:-1]] is everything but the last. *)
Definition group_deletions (group : string * list Member) : list ToDelete :=
  List.map (to_delete (fst group)) (removelast (sorted_by_created_at (snd group))).

(** [generate_delete_script(duplicates)]: the list written to
    [products_to_delete.json]. *)
Definition generate_delete_script (duplicates : Duplicates) : list ToDelete :=
  List.flat_map group_deletions (by_sku_tag duplicates).

(* ===================================================================== *)
(** ** delete_duplicate_products.py *)
(* ===================================================================== *)

(** What [delete_product] returns. *)
Inductive DeleteResult : Type :=
| DeleteSuccess (deleted_id : option string)
| DeleteFailure (error : DeleteError).

(** [delete_product(product_id)].  Only [RequestException] is caught. *)
Definition delete_product (R : Remote) (product_id : string) (tr : list Event)
  : outcome (DeleteResult * list Event) :=
  let tr' := tr ++ [EvDelete product_id] in
  match delete_reply R tr product_id with
  | RequestException => Done (DeleteFailure RequestError, tr')
  | OtherException => Uncaught
  | Json Errors => Done (DeleteFailure GraphqlErrors, tr')
  | Json (Data d) =>
      match userErrors d with
      | _ :: _ => Done (DeleteFailure (UserErrors (userErrors d)), tr')
      | [] => Done (DeleteSuccess (deletedProductId d), tr')
      end
  end.

(** An entry of the input file, with the keys the script reads. *)
Record Listed : Type := {
  listed_id : string;               (* product["id"] *)
  listed_title : string;            (* product["title"] *)
  listed_reason : option string     (* product.get("reason") *)
}.

(** What opening and decoding [input_file] gives. *)
Inductive InputFile : Type :=
| InputNotFound
| InputInvalidJson
| InputProducts (products : list Listed).

Section DeleteFromFile.

(** The remote catalog and the clock ([datetime.now().isoformat()]), both
    as functions of the history. *)
Variable R : Remote.
Variable now : list Event -> string.

(** [deletion_log["successful_deletions"].append(...)]. *)
Definition record_success (log : DeletionLog) (product : Listed) (at_time : string)
  : DeletionLog :=
  {| log_started_at := log_started_at log;
     log_total_products := log_total_products log;
     log_successful_deletions :=
       log_successful_deletions log
       ++ [ {| attempt_id := listed_id product;
               attempt_title := listed_title product;
               attempt_reason := default "N/A" (listed_reason product);
               attempt_error := None;
               attempt_at := at_time |} ];
     log_failed_deletions := log_failed_deletions log;
     log_completed_at := log_completed_at log |}.

(** [deletion_log["failed_deletions"].append(...)]. *)
Definition record_failure (log : DeletionLog) (product : Listed) (error : DeleteError)
    (at_time : string) : DeletionLog :=
  {| log_started_at := log_started_at log;
     log_total_products := log_total_products log;
     log_successful_deletions := log_successful_deletions log;
     log_failed_deletions :=
       log_failed_deletions log
       ++ [ {| attempt_id := listed_id product;
               attempt_title := listed_title product;
               attempt_reason := default "N/A" (listed_reason product);
               attempt_error := Some error;
               attempt_at := at_time |} ];
     log_completed_at := log_completed_at log |}.

(** [deletion_log["completed_at"] = datetime.now().isoformat()]. *)
Definition completed (log : DeletionLog) (at_time : string) : DeletionLog :=
  {| log_started_at := log_started_at log;
     log_total_products := log_total_products log;
     log_successful_deletions := log_successful_deletions log;
     log_failed_deletions := log_failed_deletions log;
     log_completed_at := Some at_time |}.

(** [for idx, product in enumerate(products, 1)]: delete, record the
    outcome, sleep 0.6 s unless this was the last product, and save the log
    after every 50th product. *)
Fixpoint delete_each (total_products : nat) (listed : list (nat * Listed))
    (log : DeletionLog) (tr : list Event) : outcome (DeletionLog * list Event) :=
  match listed with
  | [] => Done (log, tr)
  | (idx, product) :: rest =>
      match delete_product R (listed_id product) tr with
      | Uncaught => Uncaught
      | SysExit code => SysExit code
      | Done (result, tr1) =>
          let log1 :=
            match result with
            | DeleteSuccess _ => record_success log product (now tr1)
            | DeleteFailure error => record_failure log product error (now tr1)
            end in
          let tr2 := if (idx <? total_products)%nat then tr1 ++ [EvSleep 600] else tr1 in
          if (idx mod 50 =? 0)%nat then
            let log2 := completed log1 (now tr2) in
            delete_each total_products rest log2 (tr2 ++ [EvWriteLog log2])
          else delete_each total_products rest log1 tr2
      end
  end.

(** [delete_products_from_file()]: [confirmation] is what the operator types
    at the prompt. *)
Definition delete_products_from_file (file : InputFile) (confirmation : string)
    (tr : list Event) : outcome (list Event) :=
  match file with
  | InputNotFound => Done tr
  | InputInvalidJson => Done tr
  | InputProducts products =>
      let total_products := List.length products in
      if negb (String.eqb confirmation "DELETE") then Done tr
      else
        let deletion_log :=
          {| log_started_at := now tr;
             log_total_products := total_products;
             log_successful_deletions := [];
             log_failed_deletions := [];
             log_completed_at := None |} in
        match delete_each total_products (enumerate_from 1 products) deletion_log tr with
        | Uncaught => Uncaught
        | SysExit code => SysExit code
        | Done (log, tr1) => Done (tr1 ++ [EvWriteLog (completed log (now tr1))])
        end
  end.

End DeleteFromFile.

(* ===================================================================== *)
(** ** Observations on traces and on scrapes used in the statements *)
(* ===================================================================== *)

(** The SKUs looked up in a trace, in order. *)
Definition lookups (tr : list Event) : list string :=
  omap (fun e => match e with EvLookup s => Some s | _ => None end) tr.

(** The product ids whose deletion was requested in a trace, in order. *)
Definition deletes (tr : list Event) : list string :=
  omap (fun e => match e with EvDelete pid => Some pid | _ => None end) tr.

(** The deletion logs written in a trace, in order. *)
Definition written_logs (tr : list Event) : list DeletionLog :=
  omap (fun e => match e with EvWriteLog log => Some log | _ => None end) tr.

(** The bulk submissions issued in a trace, in order. *)
Definition submissions (tr : list Event) : list string :=
  omap (fun e => match e with EvSubmit path => Some path | _ => None end) tr.

(** The sleeps of a trace, in order. *)
Definition sleeps (tr : list Event) : list Z :=
  omap (fun e => match e with EvSleep ms => Some ms | _ => None end) tr.


(** The items of every listing page a scrape reads, in order. *)
Definition page_items (p : PageFetch) : list Item :=
  match p with
  | PageItems items => items
  | PageRaised => []
  | PageWithoutItems => []
  end.

Definition url_items (u : UrlFetch) : list Item :=
  match u with
  | UrlPages pages => List.flat_map page_items pages
  | UrlSkipped => []
  end.

Definition listed_items (urls : list UrlFetch) : list Item :=
  List.flat_map url_items urls.

(** The external identifier an item is listed under, if it has one. *)
Definition item_id (item : Item) : option string :=
  match plu item with
  | Some p => if truthy p then Some p else None
  | None => None
  end.

(** [currentIds]: the distinct external identifiers seen in a scrape. *)
Definition currentIds (urls : list UrlFetch) : gset string :=
  list_to_set (omap item_id (listed_items urls)).

(** The identifiers of a list of products, as a set. *)
Definition ids_of (products : list Product) : gset string :=
  list_to_set (List.map sku products).

(** The identifiers of the creates and of the updates of a run. *)
Definition create_ids (run : Run) : gset string :=
  ids_of (creates (generated run)).

Definition update_ids (run : Run) : gset string :=
  ids_of (List.map fst (updates (generated run))).

(** An item whose product page was scraped is consistent when the record
    carries the identifier the item is listed under. *)
Definition consistent (item : Item) : Prop :=
  match page item with
  | Scraped product => item_id item = Some (sku product)
  | Skipped _ => True
  end.

(** An item whose product page was scraped. *)
Definition scraped_ok (item : Item) : Prop :=
  match page item with
  | Scraped _ => True
  | Skipped _ => False
  end.

(** Both prices convert to numbers, both numbers are strictly positive, and
    the previous price is the greater one. *)
Definition reduced_price `{PF : PyFloat} (product : Product) : Prop :=
  exists price_val prev_val,
    float_of_str (price product) = Some price_val
    /\ float_of_str (previousPrice product) = Some prev_val
    /\ float_gt prev_val float_zero = true
    /\ float_gt price_val float_zero = true
    /\ float_gt prev_val price_val = true.

(** A line of the batch file is an update record when its ["input"] has
    an ["id"]. *)
Definition is_update_record (line : json) : bool :=
  match get_key "input" line with
  | Some input => has_key "id" input
  | None => false
  end.

(** The job statuses of the admission gate. *)
Definition terminal_status (s : string) : bool :=
  in_list s ["COMPLETED"; "FAILED"; "CANCELED"].

Definition active_status (s : string) : bool :=
  in_list s ["RUNNING"; "CREATED"].

(** The remote reports an active job. *)
Definition reports_active (reply : Post (Graphql (option BulkOperation))) : Prop :=
  exists op, reply = Json (Data (Some op)) /\ active_status (status op) = true.

(** The remote reports no current job, or a job in a terminal status. *)
Definition reports_free (reply : Post (Graphql (option BulkOperation))) : Prop :=
  reply = Json (Data None)
  \/ exists op, reply = Json (Data (Some op)) /\ terminal_status (status op) = true.

(** The remote reports a job in a status the gate has no branch for. *)
Definition reports_unknown (reply : Post (Graphql (option BulkOperation))) : Prop :=
  exists op,
    reply = Json (Data (Some op))
    /\ terminal_status (status op) = false
    /\ active_status (status op) = false.

(** The status query itself fails. *)
Definition query_failed (reply : Post (Graphql (option BulkOperation))) : Prop :=
  reply = RequestException \/ reply = OtherException \/ reply = Json Errors.

(** [n] sleep-poll cycles: a status query followed by a sleep, [n] times. *)
Fixpoint sleep_poll_cycles (n : nat) (check_interval : Z) : list Event :=
  match n with
  | O => []
  | S k => EvStatus :: EvSleep (check_interval * 1000) :: sleep_poll_cycles k check_interval
  end.

(** The identifying tag value of a catalog entity, if it has one. *)
Definition tag_value (node : Node) : option string :=
  match sku_from_tag (tags node) with
  | Some value => if truthy value then Some value else None
  | None => None
  end.

Definition member_of (value : string) (node : Node) : Member :=
  {| member_id := node_id node;
     member_title := title node;
     created_at := node_createdAt node;
     sku_tag := value;
     member_tags := tags node |}.

(** The entities of a catalog that share the tag value [value], in the
    order of the catalog. *)
Definition sharing (value : string) (products : list Node) : list Member :=
  omap (fun node =>
          match tag_value node with
          | Some v => if String.eqb v value then Some (member_of v node) else None
          | None => None
          end) products.

(** [by_sku_tag[key]] on an insertion-ordered dictionary, [[]] when the key
    is absent. *)
Definition group_of (key : string) (by_key : list (string * list Member)) : list Member :=
  match List.find (fun kv => String.eqb (fst kv) key) by_key with
  | Some kv => snd kv
  | None => []
  end.

(** The creation timestamp of [x] is not after that of [y]. *)
Definition not_after (x y : Member) : Prop :=
  String.leb (created_at x) (created_at y) = true.

(* ===================================================================== *)
(** ** Concrete remotes and inputs for the examples *)
(* ===================================================================== *)

(** Decimal digits of a non-negative integer literal. *)
Fixpoint digits_value (acc : Z) (s : string) : option Z :=
  match s with
  | EmptyString => Some acc
  | String a rest =>
      let n := Z.of_nat (nat_of_ascii a) in
      if (48 <=? n) && (n <=? 57) then digits_value (10 * acc + (n - 48)) rest else None
  end.

(** An integer literal with an optional minus sign. *)
Definition int_literal (s : string) : option Z :=
  match s with
  | EmptyString => None
  | String "-" EmptyString => None
  | String "-" rest => option_map Z.opp (digits_value 0 rest)
  | _ => digits_value 0 s
  end.

(** [float] on the price strings the scraper stores: [str(math.ceil(x))] is
    an integer literal, and it denotes an integer the float format holds
    exactly, so the conversion and the comparisons are those of the
    integers.  Other strings are outside this instance. *)
#[export] Instance integer_prices : PyFloat := {|
  float := Z;
  float_of_str := int_literal;
  float_zero := 0;
  float_gt := Z.gtb;
  float_of_empty := eq_refl;
  float_zero_not_positive := eq_refl
|}.

(** A remote catalog that knows the products tagged with the SKUs in
    [known], deletes whatever it is asked to, and has no bulk job. *)
Definition catalog_remote (known : list string) : Remote := {|
  lookup_reply := fun _ s =>
    if in_list s known then Json (Data ["gid://shopify/Product/" +:+ s])
    else Json (Data []);
  delete_reply := fun _ pid =>
    Json (Data {| userErrors := []; deletedProductId := Some pid |});
  status_reply := fun _ => Json (Data None);
  submit_reply := fun _ _ =>
    Json (Data {| run_userErrors := []; bulkOperation := None |})
|}.

(** The number of status queries in a trace. *)
Definition polls (tr : list Event) : nat :=
  List.length (List.filter (fun e => match e with EvStatus => true | _ => false end) tr).

Definition job (state : string) : BulkOperation :=
  {| id := "gid://shopify/BulkOperation/1";
     status := state;
     createdAt := None;
     objectCount := None |}.

(** A remote whose bulk job is [RUNNING] for the first [n] status queries
    and [COMPLETED] afterwards. *)
Definition busy_remote (n : nat) : Remote := {|
  lookup_reply := fun _ _ => Json (Data []);
  delete_reply := fun _ _ => Json Errors;
  status_reply := fun tr =>
    if (polls tr <? n)%nat then Json (Data (Some (job "RUNNING")))
    else Json (Data (Some (job "COMPLETED")));
  submit_reply := fun _ _ =>
    Json (Data {| run_userErrors := []; bulkOperation := Some (job "CREATED") |})
|}.

(** A remote whose bulk job never leaves [RUNNING]. *)
Definition stuck_remote : Remote := {|
  lookup_reply := fun _ _ => Json (Data []);
  delete_reply := fun _ _ => Json Errors;
  status_reply := fun _ => Json (Data (Some (job "RUNNING")));
  submit_reply := fun _ _ => Json Errors
|}.

(** A remote whose status query always fails at the transport level. *)
Definition unreachable_remote : Remote := {|
  lookup_reply := fun _ _ => RequestException;
  delete_reply := fun _ _ => RequestException;
  status_reply := fun _ => RequestException;
  submit_reply := fun _ _ => RequestException
|}.

(** A scraped record with one variant and one image. *)
Definition sample_product (s p prev : string) : Product :=
  {| sku := s;
     name := "Product " +:+ s;
     price := p;
     variants := [ {| variant_name := "8"; upc := "0001"; quantity := 1 |} ];
     images := [ "https://i8.amplience.net/i/jpl/" +:+ s +:+ "?w=700" ];
     description := "";
     previousPrice := prev;
     originalCost := "90";
     gender := "Women";
     productType := "Footwear";
     brand := "adidas" |}.

(** A listed item whose product page is scraped under the listed PLU. *)
Definition listed (s : string) : Item :=
  {| plu := Some s; page := Scraped (sample_product s "250" "") |}.

(** A listed item whose product page times out. *)
Definition timed_out (s : string) : Item :=
  {| plu := Some s; page := Skipped "Connection timeout" |}.

Definition stored (keys : list string) : StoreFile :=
  Stored (list_to_map
            (List.map (fun k => (k, {| processed_name := "Product " +:+ k;
                                       processed_at := "null" |})) keys)).

(** Identity store {A, B, C}; the scrape lists B, C, D. *)
Definition scrape_BCD : list UrlFetch :=
  [ UrlPages [ PageItems [ listed "B"; listed "C" ] ];
    UrlPages [ PageItems [ listed "D" ] ] ].

(** A scrape that lists A and B, where the product page of A times out. *)
Definition scrape_A_timed_out : list UrlFetch :=
  [ UrlPages [ PageItems [ timed_out "A"; listed "B" ] ] ].

(** A record whose brand is the string [discounted] and whose price was
    never reduced. *)
Definition branded_discounted : Product :=
  {| sku := "X1";
     name := "Top";
     price := "100";
     variants := [];
     images := [];
     description := "";
     previousPrice := "";
     originalCost := "60";
     gender := "Women";
     productType := "Clothing";
     brand := "discounted" |}.

(** The group of the duplicate-selection example: A and B share [sku:1]. *)
Definition catalog_AB : list Node :=
  [ {| node_id := "A"; title := "first"; tags := ["new"; "sku:1"];
       node_createdAt := "2023-01-01" |};
    {| node_id := "B"; title := "second"; tags := ["sku:1"];
       node_createdAt := "2023-06-01" |} ].

(** A clock that never advances. *)
Definition frozen_clock (tr : list Event) : string := "2024-01-01T00:00:00".

Definition two_listed : InputFile :=
  InputProducts
    [ {| listed_id := "gid://shopify/Product/1"; listed_title := "first";
         listed_reason := Some "Duplicate SKU tag: 1" |};
      {| listed_id := "gid://shopify/Product/2"; listed_title := "second";
         listed_reason := None |} ].

(* ===================================================================== *)
(** ** bulk-upload-shopify-women.py: images, staged upload, submission *)
(* ===================================================================== *)

(** ['?' in s] for a character. *)
Fixpoint contains_char (c : ascii) (s : string) : bool :=
  match s with
  | EmptyString => false
  | String a rest => Ascii.eqb a c || contains_char c rest
  end.

(** [scrape_images_from_html(html)]: [data_srcs] holds, for every [li] of the
    [owl-zoom] list in order, the [data-src] of its [img] ([None] when the
    [li] has no [img] or the [img] has no such attribute; [[]] when the
    page has no [owl-zoom] list). *)
Definition scrape_images_from_html (data_srcs : list (option string)) : list string :=
  List.map
    (fun image_url =>
       if contains_char "?" image_url then split_head "?" image_url else image_url)
    (List.filter truthy (omap (fun src => src) data_srcs)).

(** [not images or (len(images) == 1 and images[0] == '?v=1')]. *)
Definition unusable_images (images : list string) : bool :=
  match images with
  | [] => true
  | first :: _ => (List.length images =? 1)%nat && String.eqb first "?v=1"
  end.

(** [get_product_images(product_description, product_response_text)]:
    [description_images] is [product_description['image']], [None] when
    there is no description or it has no ['image']. *)
Definition get_product_images (description_images : option (list string))
    (data_srcs : list (option string)) : list string :=
  match description_images with
  | Some images =>
      if unusable_images images then scrape_images_from_html data_srcs else images
  | None => scrape_images_from_html data_srcs
  end.

(** A staged target, as [stagedUploadsCreate] returns it. *)
Record StagedTarget : Type := {
  url : string;
  parameters : list (string * string)   (* name, value *)
}.

(** [create_staged_upload()]: [stagedTargets[0]] of the reply; an empty
    list of targets raises [IndexError], which nothing catches. *)
Definition create_staged_upload (reply : Post (Graphql (list StagedTarget)))
  : outcome (option StagedTarget) :=
  match reply with
  | RequestException => Done None
  | OtherException => Done None
  | Json Errors => Done None
  | Json (Data stagedTargets) =>
      match stagedTargets with
      | staged_target :: _ => Done (Some staged_target)
      | [] => Uncaught
      end
  end.

(** The body of the upload response, as [ET.fromstring] and
    [root.find('Key').text] read it: not XML, XML without a [Key] element,
    or the text of the [Key] element ([None] for an empty element). *)
Inductive UploadBody : Type :=
| BodyUnparsable
| BodyWithoutKey
| BodyKey (text : option string).

(** What posting the file to the staged url gives. *)
Inductive Upload : Type :=
| UploadRaised
| UploadResponse (status_code : Z) (body : UploadBody).

(** [next((param["value"] for param in params if param["name"] == "key"), None)]. *)
Definition key_parameter (params : list (string * string)) : option string :=
  match List.find (fun param => String.eqb (fst param) "key") params with
  | Some param => Some (snd param)
  | None => None
  end.

(** [upload_to_staged_url(staged_upload)]. *)
Definition upload_to_staged_url (staged_upload : StagedTarget) (upload : Upload)
  : option string :=
  match upload with
  | UploadRaised => None
  | UploadResponse status_code body =>
      if existsb (Z.eqb status_code) [200; 201; 204] then
        match body with
        | BodyKey text => text
        | BodyUnparsable => key_parameter (parameters staged_upload)
        | BodyWithoutKey => key_parameter (parameters staged_upload)
        end
      else None
  end.

(** The end of [fetch_total_product_counts], after the summary: staged
    upload, upload of [products.jsonl], bulk submission.  [None] means that
    the wait for the bulk slot has not returned within [fuel] iterations.
    The trace records the bulk-operation calls; the two upload requests are
    the inputs [staged_reply] and [upload]. *)
Definition upload_and_submit (fuel : nat) (R : Remote) (all_products : list Product)
    (staged_reply : Post (Graphql (list StagedTarget))) (upload : Upload)
    (tr : list Event) : option (outcome (list Event)) :=
  match all_products with
  | [] => Some (Done tr)
  | _ :: _ =>
      match create_staged_upload staged_reply with
      | Uncaught => Some Uncaught
      | SysExit code => Some (SysExit code)
      | Done None => Some (Done tr)
      | Done (Some staged) =>
          if truthy_opt (upload_to_staged_url staged upload) then
            match
              run_bulk_product_set_with_queue fuel R
                (default "" (upload_to_staged_url staged upload)) tr
            with
            | Some (_, tr') => Some (Done tr')
            | None => None
            end
          else Some (Done tr)
      end
  end.

(* ===================================================================== *)
(** ** find_duplicate_skus.py: fetching the catalog *)
(* ===================================================================== *)

(** [data["data"]["products"]]: the nodes of the page and its [pageInfo]. *)
Record ProductsPage : Type := {
  page_nodes : list Node;
  hasNextPage : bool;
  endCursor : option string
}.

(** What [fetch_all_products] does to the outside world. *)
Inductive FinderEvent : Type :=
| EvProducts (cursor : option string)   (* POST GetAllProducts *)
| EvPause (milliseconds : Z).           (* time.sleep(0.5) *)

(** The catalog API: the reply to a page request, given the history. *)
Definition CatalogApi : Type :=
  list FinderEvent -> option string -> Post (Graphql ProductsPage).

(** The [while True] loop of [fetch_all_products]; [fuel] bounds the
    iterations the model unfolds. *)
Fixpoint fetch_pages (fuel : nat) (api : CatalogApi) (all_products : list Node)
    (cursor : option string) (tr : list FinderEvent)
  : option (list Node * list FinderEvent) :=
  match fuel with
  | O => None
  | S fuel' =>
      let tr1 := tr ++ [EvProducts cursor] in
      match api tr cursor with
      | RequestException => Some (all_products, tr1)
      | OtherException => Some (all_products, tr1)
      | Json Errors => Some (all_products, tr1)
      | Json (Data page) =>
          let all_products' := all_products ++ page_nodes page in
          if hasNextPage page
          then fetch_pages fuel' api all_products' (endCursor page) (tr1 ++ [EvPause 500])
          else Some (all_products', tr1)
      end
  end.

(** [fetch_all_products()]. *)
Definition fetch_all_products (fuel : nat) (api : CatalogApi)
  : option (list Node * list FinderEvent) :=
  fetch_pages fuel api [] None [].

(** What [main] of the finder writes: nothing when no product was fetched,
    otherwise [duplicate_products.json] and [products_to_delete.json]. *)
Definition finder_main (fuel : nat) (api : CatalogApi)
  : option (option (Duplicates * list ToDelete)) :=
  match fetch_all_products fuel api with
  | None => None
  | Some (products, _) =>
      match products with
      | [] => Some None
      | _ :: _ =>
          let duplicates := find_duplicates products in
          Some (Some (duplicates, generate_delete_script duplicates))
      end
  end.

(* ===================================================================== *)
(** ** Further observations used in the statements *)
(* ===================================================================== *)

(** The items of a JSON list. *)
Definition json_items (j : json) : list json :=
  match j with
  | JList items => items
  | _ => []
  end.

(** The string under [key] of a JSON object. *)
Definition json_string (key : string) (j : json) : option string :=
  match get_key key j with
  | Some (JStr s) => Some s
  | _ => None
  end.

(** [line["input"][key]] as a list. *)
Definition input_list (key : string) (line : json) : list json :=
  match get_key "input" line ≫= get_key key with
  | Some j => json_items j
  | None => []
  end.

(** The [originalSource] of every file of a line. *)
Definition file_sources (line : json) : list string :=
  omap (json_string "originalSource") (input_list "files" line).

(** The [sku] of every variant of a line. *)
Definition variant_skus (line : json) : list string :=
  omap (json_string "sku") (input_list "variants" line).

(** The status queries of a trace, counted. *)
Definition status_queries (tr : list Event) : nat :=
  List.length (List.filter (fun e => match e with EvStatus => true | _ => false end) tr).

(** An event of the wait loop: a status query or a sleep of the interval. *)
Definition wait_event (check_interval : Z) (e : Event) : Prop :=
  e = EvStatus \/ e = EvSleep (check_interval * 1000).

(** A catalog entity without identifying tag value. *)
Definition untagged (n : Node) : bool :=
  match tag_value n with
  | Some _ => false
  | None => true
  end.

(** What a catalog API that answers the successive page requests with the
    replies of [script] (and fails afterwards) lets the finder collect: the
    nodes of the pages up to the first page without a next page, or up to
    the first failure. *)
Fixpoint served (script : list (Post (Graphql ProductsPage))) : list Node :=
  match script with
  | Json (Data page) :: rest =>
      page_nodes page ++ (if hasNextPage page then served rest else [])
  | _ => []
  end.

(** The cursors of the page requests made against such an API. *)
Fixpoint cursors (script : list (Post (Graphql ProductsPage))) (cursor : option string)
  : list (option string) :=
  cursor ::
  match script with
  | Json (Data page) :: rest =>
      if hasNextPage page then cursors rest (endCursor page) else []
  | _ => []
  end.

(** The page requests of a finder trace, in order. *)
Definition page_requests (tr : list FinderEvent) : list (option string) :=
  omap (fun e => match e with EvProducts c => Some c | _ => None end) tr.

(** The pauses of a finder trace, in order. *)
Definition pauses (tr : list FinderEvent) : list Z :=
  omap (fun e => match e with EvPause ms => Some ms | _ => None end) tr.

(** A catalog API that serves the pages of [script] one after the other and
    fails once the script is exhausted. *)
Definition scripted_api (script : list (Post (Graphql ProductsPage))) : CatalogApi :=
  fun tr _ => nth (List.length (page_requests tr)) script RequestException.

Definition node (i t : string) (created : string) : Node :=
  {| node_id := i; title := "product " +:+ i; tags := ["new"; "sku:" +:+ t];
     node_createdAt := created |}.

Definition more (nodes : list Node) (cursor : string) : Post (Graphql ProductsPage) :=
  Json (Data {| page_nodes := nodes; hasNextPage := true; endCursor := Some cursor |}).

Definition final (nodes : list Node) : Post (Graphql ProductsPage) :=
  Json (Data {| page_nodes := nodes; hasNextPage := false; endCursor := None |}).

(** A remote that raises an exception other than a request error on every
    delete request. *)
Definition broken_remote : Remote := {|
  lookup_reply := fun _ s => Json (Data ["gid://shopify/Product/" +:+ s]);
  delete_reply := fun _ _ => OtherException;
  status_reply := fun _ => Json (Data None);
  submit_reply := fun _ _ => OtherException
|}.

(** A remote whose delete replies have neither errors nor a deleted id. *)
Definition silent_remote : Remote := {|
  lookup_reply := fun _ s => Json (Data ["gid://shopify/Product/" +:+ s]);
  delete_reply := fun _ _ => Json (Data {| userErrors := []; deletedProductId := None |});
  status_reply := fun _ => Json (Data None);
  submit_reply := fun _ _ => Json Errors
|}.

(** [k in processed_skus]. *)
Definition known (processed_skus : gmap string Processed) (k : string) : bool :=
  bool_decide (is_Some (processed_skus !! k)).



(** The store a run has saved, as the next run finds it. *)
Definition saved_file (run : Run) : StoreFile := Stored (saved run).

(** A scrape in which the listing repeats B. *)
Definition scrape_B_twice : list UrlFetch :=
  [ UrlPages [ PageItems [ listed "B"; listed "C" ]; PageItems [ listed "B" ] ] ].

(** A scrape that lists A and B, both scraped. *)
Definition scrape_AB : list UrlFetch :=
  [ UrlPages [ PageItems [ listed "A"; listed "B" ] ] ].

(** A scrape whose second listing page cannot be fetched. *)
Definition scrape_page_raises : list UrlFetch :=
  [ UrlPages [ PageItems [ listed "B" ]; PageRaised; PageItems [ listed "C" ] ] ].

Definition staged_sample : StagedTarget :=
  {| url := "https://shopify-staged-uploads.storage.googleapis.com/";
     parameters := [ ("Content-Type", "text/jsonl"); ("key", "tmp/1/bulk/products.jsonl") ] |}.

(* ===================================================================== *)
(** ** Traces of the lookup and delete calls *)
(* ===================================================================== *)

Lemma lookups_app (a b : list Event) : lookups (a ++ b) = lookups a ++ lookups b.
Proof. unfold lookups. apply omap_app. Qed.

Lemma deletes_app (a b : list Event) : deletes (a ++ b) = deletes a ++ deletes b.
Proof. unfold deletes. apply omap_app. Qed.

Lemma get_shopify_product_id_trace (R : Remote) (s : string) (tr : list Event) :
  snd (get_shopify_product_id R s tr) = tr ++ [EvLookup s].
Proof.
  unfold get_shopify_product_id.
  destruct (lookup_reply R tr s) as [ | | [ | [ | node_id others ] ] ]; reflexivity.
Qed.

Lemma snoc_cases {A : Type} (l : list A) :
  l = [] \/ exists x front, l = front ++ [x].
Proof.
  induction l as [ | x front _ ] using rev_ind.
  - left. reflexivity.
  - right. exists x, front. reflexivity.
Qed.




Section DeleteLoop.

Variable R : Remote.

(** The loop looks every SKU up, once and in order, whatever the remote
    answers. *)
Lemma delete_loop_lookups (skus : list string) : forall acc tr,
  lookups (snd (delete_loop R skus acc tr)) = lookups tr ++ skus.
Proof.
  induction skus as [ | s rest IH ]; intros acc tr; simpl.
  - symmetry. apply app_nil_r.
  - pose proof (get_shopify_product_id_trace R s tr) as Htrace.
    destruct (get_shopify_product_id R s tr) as [product_id tr1]. simpl in Htrace. subst tr1.
    destruct product_id as [ pid | ].
    + destruct (truthy pid).
      * destruct (delete_succeeded _); rewrite IH, !lookups_app; simpl;
          rewrite app_nil_r, <- app_assoc; reflexivity.
      * rewrite IH, lookups_app, <- app_assoc. reflexivity.
    + rewrite IH, lookups_app, <- app_assoc. reflexivity.
Qed.





Lemma delete_products_lookups (skus : list string) (tr : list Event) :
  lookups (snd (delete_products_from_shopify R skus tr)) = lookups tr ++ skus.
Proof.
  unfold delete_products_from_shopify. destruct skus as [ | s rest ].
  - simpl. symmetry. apply app_nil_r.
  - pose proof (delete_loop_lookups (s :: rest)
                  {| successfully_deleted := 0; failed_deletions := 0 |} tr) as Hloop.
    destruct (delete_loop R (s :: rest) _ tr) as [summary tr'].
    simpl in Hloop |- *. rewrite lookups_app, Hloop. simpl. apply app_nil_r.
Qed.



End DeleteLoop.

(* ===================================================================== *)
(** ** The scrape loop *)
(* ===================================================================== *)

(** A scrape that does not leave through [sys.exit] has fed every listed
    item, in order, to the body of the item loop. *)
Lemma scrape_pages_fold (pages : list PageFetch) : forall st st',
  scrape_pages st pages = Done st' ->
  st' = fold_left scrape_item (List.flat_map page_items pages) st.
Proof.
  induction pages as [ | p rest IH ]; intros st st' Hdone; simpl in *.
  - injection Hdone as <-. reflexivity.
  - destruct p as [ | | items ]; simpl.
    + discriminate Hdone.
    + apply IH. exact Hdone.
    + rewrite fold_left_app. apply IH. exact Hdone.
Qed.

Lemma scrape_urls_fold (urls : list UrlFetch) : forall st st',
  scrape_urls st urls = Done st' ->
  st' = fold_left scrape_item (listed_items urls) st.
Proof.
  unfold listed_items.
  induction urls as [ | u rest IH ]; intros st st' Hdone; simpl in *.
  - injection Hdone as <-. reflexivity.
  - destruct u as [ | pages ]; simpl.
    + apply IH. exact Hdone.
    + destruct (scrape_pages st pages) as [ mid | code | ] eqn:Hpages; try discriminate Hdone.
      rewrite fold_left_app. apply scrape_pages_fold in Hpages. subst mid.
      apply IH. exact Hdone.
Qed.

(** A scrape in which no listing page raises reaches the end. *)
Lemma scrape_pages_done (pages : list PageFetch) : forall st,
  Forall (fun p => p <> PageRaised) pages ->
  exists st', scrape_pages st pages = Done st'.
Proof.
  induction pages as [ | p rest IH ]; intros st Hok; simpl.
  - eexists. reflexivity.
  - inversion Hok as [ | ? ? Hp Hrest ]; subst.
    destruct p as [ | | items ]; [ congruence | apply IH; exact Hrest | apply IH; exact Hrest ].
Qed.

(** What the item loop does to [current_jd_skus]: it adds the identifier
    the item is listed under, if there is one. *)
Lemma scrape_item_current (st : Scrape) (item : Item) :
  current_jd_skus (scrape_item st item)
  = current_jd_skus st ∪ list_to_set (omap item_id [item]).
Proof.
  unfold scrape_item, plu_seen, track_plu, item_id. simpl.
  destruct (plu item) as [ p | ] eqn:Hplu; simpl.
  - destruct (bool_decide (p ∈ current_jd_skus st)) eqn:Hseen.
    + apply bool_decide_eq_true_1 in Hseen.
      destruct (truthy p); simpl; set_solver.
    + destruct (page item); simpl; destruct (truthy p); simpl; set_solver.
  - destruct (page item); simpl; set_solver.
Qed.

Lemma scrape_items_current (items : list Item) : forall st,
  current_jd_skus (fold_left scrape_item items st)
  = current_jd_skus st ∪ list_to_set (omap item_id items).
Proof.
  induction items as [ | item rest IH ]; intros st; simpl fold_left.
  - simpl. set_solver.
  - rewrite IH, scrape_item_current.
    change (item :: rest) with ([item] ++ rest).
    rewrite omap_app, list_to_set_app_L. set_solver.
Qed.

(** [current_jd_skus] at the end of the scrape is [currentIds]. *)
Lemma scrape_urls_current (urls : list UrlFetch) (st : Scrape) :
  scrape_urls scrape_start urls = Done st ->
  current_jd_skus st = currentIds urls.
Proof.
  intros Hdone. apply scrape_urls_fold in Hdone. subst st.
  rewrite scrape_items_current. unfold currentIds. simpl. set_solver.
Qed.

(** The [del] loop over [skus_to_delete]. *)
Lemma dom_delete_all (doomed : list string) : forall store : gmap string Processed,
  dom (fold_left (fun m s => delete s m) doomed store)
  = dom store ∖ (list_to_set doomed : gset string).
Proof.
  induction doomed as [ | s rest IH ]; intros store; simpl.
  - set_solver.
  - rewrite IH, dom_delete_L. set_solver.
Qed.




(* ===================================================================== *)
(** ** Deletion by absence *)
(* ===================================================================== *)


(** The fields of a finished run, in terms of its inputs. *)
Lemma run_fields `{PF : PyFloat} (R : Remote) (file : StoreFile)
    (urls : list UrlFetch) (run : Run) :
  fetch_total_product_counts R file urls = Done run ->
  scrape_urls scrape_start urls = Done (scraped run)
  /\ loaded run = load_processed_skus file
  /\ skus_to_delete run = dom (loaded run) ∖ current_jd_skus (scraped run)
  /\ (deletion_summary run, deletion_trace run)
     = delete_products_from_shopify R (elements (skus_to_delete run)) []
  /\ pruned run
     = fold_left (fun m s => delete s m) (elements (skus_to_delete run)) (loaded run)
  /\ (generated run, run_trace run)
     = generate_product_jsonl R (all_product_data (scraped run)) (pruned run)
         (deletion_trace run)
  /\ saved run = latest_of (all_product_data (scraped run)).
Proof.
  unfold fetch_total_product_counts. intros Hrun.
  destruct (scrape_urls scrape_start urls) as [ st | code | ]; try discriminate Hrun.
  set (to_delete := dom (load_processed_skus file) ∖ current_jd_skus st) in *.
  assert (Hdel : match elements to_delete with
                 | [] => ({| successfully_deleted := 0%nat; failed_deletions := 0%nat |}, [])
                 | _ :: _ => delete_products_from_shopify R (elements to_delete) []
                 end = delete_products_from_shopify R (elements to_delete) []).
  { destruct (elements to_delete); reflexivity. }
  rewrite Hdel in Hrun. clear Hdel.
  destruct (delete_products_from_shopify R (elements to_delete) []) as [summary tr1] eqn:Hdeleted.
  destruct (generate_product_jsonl R (all_product_data st) _ tr1) as [gen tr2] eqn:Hgen.
  injection Hrun as <-. simpl. rewrite Hdeleted, Hgen. repeat split; reflexivity.
Qed.



(* ===================================================================== *)
(** ** The scraped records and the rewritten identity store *)
(* ===================================================================== *)

Lemma ids_of_snoc (products : list Product) (p : Product) :
  ids_of (products ++ [p]) = ids_of products ∪ {[ sku p ]}.
Proof.
  unfold ids_of. rewrite List.map_app, list_to_set_app_L. simpl. set_solver.
Qed.


(** A consistent item that gets past the duplicate check and is scraped adds
    its own identifier to both accumulators. *)
Lemma consistent_scraped (item : Item) (product : Product) (current : gset string) :
  consistent item ->
  page item = Scraped product ->
  plu_seen item current = false ->
  track_plu item current = {[ sku product ]} ∪ current /\ sku product ∉ current.
Proof.
  unfold consistent, item_id, plu_seen, track_plu. intros Hcons Hpage Hseen.
  rewrite Hpage in Hcons.
  destruct (plu item) as [ p | ]; [ | discriminate Hcons ].
  destruct (truthy p); [ | discriminate Hcons ].
  injection Hcons as ->.
  apply bool_decide_eq_false_1 in Hseen. split; [ reflexivity | exact Hseen ].
Qed.

Lemma track_plu_grows (item : Item) (current : gset string) :
  current ⊆ track_plu item current.
Proof.
  unfold track_plu. destruct (plu item) as [ p | ]; [ destruct (truthy p) | ]; set_solver.
Qed.

(** With consistent items the scraped records have pairwise distinct
    identifiers, all of them in [current_jd_skus]. *)
Lemma scrape_item_distinct (st : Scrape) (item : Item) :
  consistent item ->
  NoDup (List.map sku (all_product_data st))
  /\ ids_of (all_product_data st) ⊆ current_jd_skus st ->
  NoDup (List.map sku (all_product_data (scrape_item st item)))
  /\ ids_of (all_product_data (scrape_item st item))
     ⊆ current_jd_skus (scrape_item st item).
Proof.
  intros Hcons [Hnodup Hsub]. unfold scrape_item.
  destruct (plu_seen item (current_jd_skus st)) eqn:Hseen; [ split; assumption | ].
  destruct (page item) as [ why | product ] eqn:Hpage; simpl.
  - split; [ exact Hnodup | ].
    pose proof (track_plu_grows item (current_jd_skus st)). set_solver.
  - destruct (consistent_scraped item product _ Hcons Hpage Hseen) as [-> Hfresh].
    split.
    + rewrite List.map_app. apply NoDup_app. split; [ exact Hnodup | ].
      split; [ | apply NoDup_singleton ].
      intros k Hk Hk'. apply list_elem_of_singleton in Hk'. subst k.
      apply Hfresh, Hsub. unfold ids_of. apply elem_of_list_to_set. exact Hk.
    + rewrite ids_of_snoc. set_solver.
Qed.

Lemma scrape_items_distinct (items : list Item) : forall st,
  Forall consistent items ->
  NoDup (List.map sku (all_product_data st))
  /\ ids_of (all_product_data st) ⊆ current_jd_skus st ->
  NoDup (List.map sku (all_product_data (fold_left scrape_item items st)))
  /\ ids_of (all_product_data (fold_left scrape_item items st))
     ⊆ current_jd_skus (fold_left scrape_item items st).
Proof.
  induction items as [ | item rest IH ]; intros st Hcons Hinv; simpl.
  - exact Hinv.
  - inversion Hcons as [ | ? ? Hitem Hrest ]; subst.
    apply IH; [ exact Hrest | apply scrape_item_distinct; assumption ].
Qed.

(** When moreover no product page is skipped, the identifiers of the scraped
    records are exactly [current_jd_skus]. *)
Lemma scrape_items_complete (items : list Item) : forall st,
  Forall consistent items ->
  Forall scraped_ok items ->
  ids_of (all_product_data st) = current_jd_skus st ->
  ids_of (all_product_data (fold_left scrape_item items st))
  = current_jd_skus (fold_left scrape_item items st).
Proof.
  induction items as [ | item rest IH ]; intros st Hcons Hok Hinv; simpl.
  - exact Hinv.
  - inversion Hcons as [ | ? ? Hitem Hrest ]; subst.
    inversion Hok as [ | ? ? Hitem_ok Hrest_ok ]; subst.
    apply IH; [ exact Hrest | exact Hrest_ok | ].
    unfold scrape_item.
    destruct (plu_seen item (current_jd_skus st)) eqn:Hseen; [ exact Hinv | ].
    unfold scraped_ok in Hitem_ok.
    destruct (page item) as [ why | product ] eqn:Hpage; [ contradiction | ]. simpl.
    destruct (consistent_scraped item product _ Hitem Hpage Hseen) as [-> _].
    rewrite ids_of_snoc, Hinv. set_solver.
Qed.

(** Every scraped record comes from a listed item whose page was scraped. *)
Lemma scrape_items_origin (items : list Item) : forall st p,
  p ∈ all_product_data (fold_left scrape_item items st) ->
  p ∈ all_product_data st \/ exists item, item ∈ items /\ page item = Scraped p.
Proof.
  induction items as [ | item rest IH ]; intros st p Hin; simpl in Hin.
  - left. exact Hin.
  - destruct (IH _ _ Hin) as [ Hstep | (it & Hit & Hpage) ].
    + unfold scrape_item in Hstep.
      destruct (plu_seen item (current_jd_skus st)); [ left; exact Hstep | ].
      destruct (page item) as [ why | product ] eqn:Hpage; simpl in Hstep.
      * left. exact Hstep.
      * apply elem_of_app in Hstep as [ Hold | Hnew ]; [ left; exact Hold | ].
        apply list_elem_of_singleton in Hnew. subst product.
        right. exists item. split; [ apply list_elem_of_here | exact Hpage ].
    + right. exists it. split; [ apply list_elem_of_further; exact Hit | exact Hpage ].
Qed.

(** The keys written by the loop that builds [latest_processed_skus]. *)
Lemma dom_latest_from (products : list Product) : forall start : gmap string Processed,
  dom (fold_left
         (fun latest product =>
            <[ sku product := {| processed_name := name product; processed_at := "null" |} ]>
              latest)
         products start)
  = dom start ∪ ids_of products.
Proof.
  induction products as [ | p rest IH ]; intros start; simpl.
  - unfold ids_of. simpl. set_solver.
  - rewrite IH, dom_insert_L. unfold ids_of. simpl. set_solver.
Qed.

(** The values written by that loop. *)
Lemma lookup_latest_from (products : list Product) :
  forall (start : gmap string Processed) k v,
  fold_left
    (fun latest product =>
       <[ sku product := {| processed_name := name product; processed_at := "null" |} ]>
         latest)
    products start !! k = Some v ->
  start !! k = Some v
  \/ exists p, p ∈ products /\ sku p = k
               /\ v = {| processed_name := name p; processed_at := "null" |}.
Proof.
  induction products as [ | p rest IH ]; intros start k v Hlook; simpl in Hlook.
  - left. exact Hlook.
  - destruct (IH _ _ _ Hlook) as [ Hstart | (q & Hq & Hsku & Hv) ].
    + destruct (decide (sku p = k)) as [ Heq | Hne ].
      * subst k. rewrite lookup_insert_eq in Hstart. injection Hstart as <-.
        right. exists p. split; [ apply list_elem_of_here | split; reflexivity ].
      * rewrite lookup_insert_ne in Hstart by exact Hne. left. exact Hstart.
    + right. exists q. split; [ apply list_elem_of_further; exact Hq | split; assumption ].
Qed.

(** C2.  Identity-store rewrite, as the code does it.  At the end of every
    run that reaches [save_processed_skus], the saved identity store has
    exactly the identifiers of the records in [all_product_data], the
    records of the listed items whose product page was scraped; each of them
    is mapped to fresh metadata, the name of such a record and the string
    [null] as [processed_at]; nothing of the loaded store is carried over.
    When every scraped record carries the identifier its item is listed
    under, these keys lie in [currentIds], and they are exactly [currentIds]
    when moreover no product page was skipped.  An identifier whose product
    page was skipped is in [currentIds] and is not saved (see the
    counterexample). *)
Theorem identity_store_rewrite `{PF : PyFloat} (R : Remote) (file : StoreFile)
    (urls : list UrlFetch) (run : Run) :
  fetch_total_product_counts R file urls = Done run ->
  dom (saved run) = ids_of (all_product_data (scraped run))
  /\ (forall k v,
         saved run !! k = Some v ->
         exists p item,
           p ∈ all_product_data (scraped run)
           /\ item ∈ listed_items urls /\ page item = Scraped p
           /\ sku p = k
           /\ v = {| processed_name := name p; processed_at := "null" |})
  /\ (Forall consistent (listed_items urls) -> dom (saved run) ⊆ currentIds urls)
  /\ (Forall consistent (listed_items urls) ->
      Forall scraped_ok (listed_items urls) ->
      dom (saved run) = currentIds urls).
Proof.
  intros Hrun.
  destruct (run_fields R file urls run Hrun) as (Hscrape & _ & _ & _ & _ & _ & Hsaved).
  pose proof (scrape_urls_current urls _ Hscrape) as Hcurrent.
  pose proof (scrape_urls_fold urls _ _ Hscrape) as Hfold.
  assert (Hdom : dom (saved run) = ids_of (all_product_data (scraped run))).
  { rewrite Hsaved. unfold latest_of. rewrite dom_latest_from, dom_empty_L. set_solver. }
  split; [ exact Hdom | ].
  split; [ | split ].
  - intros k v Hlook. rewrite Hsaved in Hlook. unfold latest_of in Hlook.
    apply lookup_latest_from in Hlook as [ Hempty | (p & Hp & Hsku & Hv) ].
    + rewrite lookup_empty in Hempty. discriminate Hempty.
    + pose proof Hp as Horigin. rewrite Hfold in Horigin.
      apply scrape_items_origin in Horigin as [ Hstart | (item & Hitem & Hpage) ].
      * simpl in Hstart. apply elem_of_nil in Hstart. contradiction.
      * exists p, item. repeat split; assumption.
  - intros Hcons. rewrite Hdom, <- Hcurrent, Hfold.
    apply scrape_items_distinct; [ exact Hcons | ].
    simpl. split; [ apply NoDup_nil_2 | unfold ids_of; simpl; set_solver ].
  - intros Hcons Hok. rewrite Hdom, <- Hcurrent, Hfold.
    apply scrape_items_complete; [ exact Hcons | exact Hok | ].
    unfold ids_of. simpl. reflexivity.
Qed.

Lemma identity_store_rewrite_witness :
  exists run,
    @fetch_total_product_counts integer_prices
      (catalog_remote ["A"; "B"; "C"]) (stored ["A"; "B"; "C"]) scrape_BCD = Done run
    /\ dom (saved run) = currentIds scrape_BCD.
Proof.
  eexists. split; [ vm_compute; reflexivity | ].
  match goal with
  | |- dom (saved ?run) = _ =>
      destruct (@identity_store_rewrite integer_prices
                  (catalog_remote ["A"; "B"; "C"]) (stored ["A"; "B"; "C"]) scrape_BCD run
                  ltac:(vm_compute; reflexivity)) as (_ & _ & _ & Hall)
  end.
  apply Hall.
  - repeat constructor.
  - repeat constructor.
Defined.

(** C2, as stated, fails.  The scrape lists A and B and the product page of
    A times out: [currentIds] is {A, B}, the saved store has the key B
    only. *)
Lemma identity_store_rewrite_counterexample :
  exists run,
    @fetch_total_product_counts integer_prices
      (catalog_remote ["A"; "B"; "C"]) (stored ["A"; "B"; "C"]) scrape_A_timed_out
    = Done run
    /\ currentIds scrape_A_timed_out = {[ "A"; "B" ]}
    /\ current_jd_skus (scraped run) = {[ "A"; "B" ]}
    /\ dom (saved run) = {[ "B" ]}
    /\ dom (saved run) <> currentIds scrape_A_timed_out.
Proof.
  eexists. split; [ vm_compute; reflexivity | ].
  split; [ vm_compute; reflexivity | ].
  split; [ vm_compute; reflexivity | ].
  split; [ vm_compute; reflexivity | ].
  intros Heq. apply (f_equal elements) in Heq. vm_compute in Heq. discriminate Heq.
Qed.

(* ===================================================================== *)
(** ** Create/update classification *)
(* ===================================================================== *)

Section Classification.

Context {PF : PyFloat}.
Variable R : Remote.
Variable processed_skus : gmap string Processed.

(** What [classify] returns, by cases on its result. *)
Lemma classify_spec (product : Product) (tr : list Event) :
  match classify R processed_skus product tr with
  | (Update p sid, tr') =>
      p = product
      /\ is_Some (processed_skus !! sku product)
      /\ fst (get_shopify_product_id R (sku product) tr) = Some sid
      /\ truthy sid = true
      /\ tr' = tr ++ [EvLookup (sku product)]
  | (Create p, tr') =>
      p = product
      /\ ((processed_skus !! sku product = None /\ tr' = tr)
          \/ (is_Some (processed_skus !! sku product)
              /\ truthy_opt (fst (get_shopify_product_id R (sku product) tr)) = false
              /\ tr' = tr ++ [EvLookup (sku product)]))
  end.
Proof.
  unfold classify.
  destruct (processed_skus !! sku product) as [ seen | ] eqn:Hkey.
  - pose proof (get_shopify_product_id_trace R (sku product) tr) as Htrace.
    destruct (get_shopify_product_id R (sku product) tr) as [shopify_id tr'].
    simpl in Htrace. subst tr'.
    destruct shopify_id as [ sid | ]; [ destruct (truthy sid) eqn:Htruthy | ]; simpl.
    + repeat split; eauto.
    + split; [ reflexivity | right ]. repeat split; eauto.
    + split; [ reflexivity | right ]. repeat split; eauto.
  - split; [ reflexivity | left; split; reflexivity ].
Qed.

(** The two lists keep the order of [product_list], and together they hold
    every record of it exactly once. *)
Lemma classify_all_ordered (product_list : list Product) : forall tr,
  let result := fst (classify_all R processed_skus product_list tr) in
  List.map fst (fst result) `sublist_of` product_list
  /\ snd result `sublist_of` product_list
  /\ List.map fst (fst result) ++ snd result ≡ₚ product_list.
Proof.
  induction product_list as [ | product rest IH ]; intros tr; simpl.
  - repeat split; constructor.
  - pose proof (classify_spec product tr) as Hspec.
    destruct (classify R processed_skus product tr) as [decision tr1].
    specialize (IH tr1).
    destruct (classify_all R processed_skus rest tr1) as [[us cs] tr2].
    simpl in IH. destruct IH as (Hus & Hcs & Hperm).
    destruct decision as [ p sid | p ]; destruct Hspec as [-> _]; simpl.
    + split; [ apply sublist_skip; exact Hus | ].
      split; [ apply sublist_cons; exact Hcs | ].
      constructor. exact Hperm.
    + split; [ apply sublist_cons; exact Hus | ].
      split; [ apply sublist_skip; exact Hcs | ].
      rewrite <- Permutation_middle. constructor. exact Hperm.
Qed.

(** A record whose identifier is not a key of the store is a create. *)
Lemma classify_all_unknown (product_list : list Product) : forall tr p,
  p ∈ product_list ->
  processed_skus !! sku p = None ->
  p ∈ snd (fst (classify_all R processed_skus product_list tr)).
Proof.
  induction product_list as [ | product rest IH ]; intros tr p Hin Hnone; simpl.
  - apply elem_of_nil in Hin. contradiction.
  - pose proof (classify_spec product tr) as Hspec.
    destruct (classify R processed_skus product tr) as [decision tr1].
    specialize (IH tr1 p).
    destruct (classify_all R processed_skus rest tr1) as [[us cs] tr2]. simpl in IH.
    apply elem_of_cons in Hin as [ -> | Hin ].
    + destruct decision as [ q sid | q ]; simpl.
      * destruct Hspec as (_ & [seen Hseen] & _). congruence.
      * destruct Hspec as [-> _]. apply list_elem_of_here.
    + destruct decision as [ q sid | q ]; simpl.
      * apply IH; assumption.
      * apply list_elem_of_further. apply IH; assumption.
Qed.


End Classification.



(* ===================================================================== *)
(** ** The partition into creates, updates and deletions *)
(* ===================================================================== *)

Lemma ids_of_app (a b : list Product) : ids_of (a ++ b) = ids_of a ∪ ids_of b.
Proof. unfold ids_of. rewrite List.map_app. apply list_to_set_app_L. Qed.

Lemma ids_of_perm (a b : list Product) : a ≡ₚ b -> ids_of a = ids_of b.
Proof.
  intros Hperm. unfold ids_of. apply list_to_set_perm_L.
  apply Permutation_map. exact Hperm.
Qed.

Lemma ids_of_disjoint (a b : list Product) :
  NoDup (List.map sku (a ++ b)) -> ids_of a ## ids_of b.
Proof.
  rewrite List.map_app. intros Hnodup. apply NoDup_app in Hnodup as (_ & Hsep & _).
  unfold ids_of. intros k Ha Hb.
  apply elem_of_list_to_set in Ha. apply elem_of_list_to_set in Hb.
  exact (Hsep k Ha Hb).
Qed.

(** C4.  The partition, as the code does it.  For every run that reaches the
    reconciliation: every deletion identifier lies outside [currentIds];
    every scraped record (every record of [all_product_data]) is classified
    exactly once, as an update or as a create; the identifiers of creates,
    updates and deletions together are those of the scraped records and of
    [previousIds - currentIds].  When every scraped record carries the
    identifier its item is listed under, the three identifier sets are
    pairwise disjoint and creates and updates lie in [currentIds]; when
    moreover no product page was skipped, the three sets cover
    [currentIds ∪ (previousIds - currentIds)].  An identifier whose product
    page was skipped is in [currentIds] and in none of the three sets (see
    the counterexample). *)
Theorem reconciliation_partition `{PF : PyFloat} (R : Remote) (file : StoreFile)
    (urls : list UrlFetch) (run : Run) :
  fetch_total_product_counts R file urls = Done run ->
  let previousIds : gset string := dom (load_processed_skus file) in
  skus_to_delete run = previousIds ∖ currentIds urls
  /\ skus_to_delete run ## currentIds urls
  /\ List.map fst (updates (generated run)) ++ creates (generated run)
     ≡ₚ all_product_data (scraped run)
  /\ update_ids run ∪ create_ids run ∪ skus_to_delete run
     = ids_of (all_product_data (scraped run)) ∪ (previousIds ∖ currentIds urls)
  /\ (Forall consistent (listed_items urls) ->
      update_ids run ## create_ids run
      /\ update_ids run ## skus_to_delete run
      /\ create_ids run ## skus_to_delete run
      /\ update_ids run ∪ create_ids run ⊆ currentIds urls)
  /\ (Forall consistent (listed_items urls) ->
      Forall scraped_ok (listed_items urls) ->
      update_ids run ∪ create_ids run ∪ skus_to_delete run
      = currentIds urls ∪ (previousIds ∖ currentIds urls)).
Proof.
  intros Hrun previousIds.
  destruct (run_fields R file urls run Hrun)
    as (Hscrape & Hloaded & Hdel & _ & _ & Hgen & _).
  pose proof (scrape_urls_current urls _ Hscrape) as Hcurrent.
  pose proof (scrape_urls_fold urls _ _ Hscrape) as Hfold.
  rewrite Hloaded, Hcurrent in Hdel. fold previousIds in Hdel.
  assert (Hperm : List.map fst (updates (generated run)) ++ creates (generated run)
                  ≡ₚ all_product_data (scraped run)).
  { unfold generate_product_jsonl in Hgen.
    pose proof (classify_all_ordered R (pruned run) (all_product_data (scraped run))
                  (deletion_trace run)) as (_ & _ & Hp).
    destruct (classify_all R (pruned run) (all_product_data (scraped run))
                (deletion_trace run)) as [[us cs] tr2].
    injection Hgen as -> _. simpl in *. exact Hp. }
  assert (Hunion : update_ids run ∪ create_ids run = ids_of (all_product_data (scraped run))).
  { unfold update_ids, create_ids. rewrite <- ids_of_app. apply ids_of_perm. exact Hperm. }
  split; [ exact Hdel | ].
  split; [ rewrite Hdel; set_solver | ].
  split; [ exact Hperm | ].
  split; [ rewrite Hunion, Hdel; reflexivity | ].
  split.
  - intros Hcons.
    assert (Hinv : NoDup (List.map sku (all_product_data (scraped run)))
                   /\ ids_of (all_product_data (scraped run)) ⊆ currentIds urls).
    { rewrite <- Hcurrent, Hfold. apply scrape_items_distinct; [ exact Hcons | ].
      simpl. split; [ apply NoDup_nil_2 | unfold ids_of; simpl; set_solver ]. }
    destruct Hinv as [Hnodup Hsub].
    assert (Hsep : update_ids run ## create_ids run).
    { unfold update_ids, create_ids. apply ids_of_disjoint.
      pose proof (Permutation_map sku Hperm) as Hskus.
      rewrite Hskus. exact Hnodup. }
    rewrite <- Hunion in Hsub.
    split; [ exact Hsep | ].
    rewrite Hdel. set_solver.
  - intros Hcons Hok.
    assert (Hall : ids_of (all_product_data (scraped run)) = currentIds urls).
    { rewrite <- Hcurrent, Hfold.
      apply scrape_items_complete; [ exact Hcons | exact Hok | ].
      unfold ids_of. simpl. reflexivity. }
    rewrite Hunion, Hall, Hdel. reflexivity.
Qed.

Lemma reconciliation_partition_witness :
  exists run,
    @fetch_total_product_counts integer_prices
      (catalog_remote ["A"; "B"; "C"]) (stored ["A"; "B"; "C"]) scrape_BCD = Done run
    /\ update_ids run ## create_ids run
    /\ update_ids run ∪ create_ids run ∪ skus_to_delete run
       = currentIds scrape_BCD
         ∪ (dom (load_processed_skus (stored ["A"; "B"; "C"])) ∖ currentIds scrape_BCD).
Proof.
  eexists. split; [ vm_compute; reflexivity | ].
  match goal with
  | |- update_ids ?run ## _ /\ _ =>
      destruct (@reconciliation_partition integer_prices
                  (catalog_remote ["A"; "B"; "C"]) (stored ["A"; "B"; "C"]) scrape_BCD run
                  ltac:(vm_compute; reflexivity)) as (_ & _ & _ & _ & Hsep & Hcover)
  end.
  split.
  - apply Hsep. repeat constructor.
  - apply Hcover; repeat constructor.
Defined.

(** C4, as stated, fails.  Identity store {A, B, C}; the scrape lists A
    and B and the product page of A times out.  Then [currentIds] is {A, B},
    the deletions are {C}, B is an update and nothing is created: A is in
    none of the three sets, which do not cover
    [currentIds ∪ (previousIds - currentIds)] = {A, B, C}. *)
Lemma reconciliation_partition_counterexample :
  exists run,
    @fetch_total_product_counts integer_prices
      (catalog_remote ["A"; "B"; "C"]) (stored ["A"; "B"; "C"]) scrape_A_timed_out
    = Done run
    /\ currentIds scrape_A_timed_out = {[ "A"; "B" ]}
    /\ skus_to_delete run = {[ "C" ]}
    /\ update_ids run = {[ "B" ]}
    /\ create_ids run = ∅
    /\ update_ids run ∪ create_ids run ∪ skus_to_delete run
       <> currentIds scrape_A_timed_out
          ∪ (dom (load_processed_skus (stored ["A"; "B"; "C"]))
             ∖ currentIds scrape_A_timed_out).
Proof.
  eexists. split; [ vm_compute; reflexivity | ].
  split; [ vm_compute; reflexivity | ].
  split; [ vm_compute; reflexivity | ].
  split; [ vm_compute; reflexivity | ].
  split; [ vm_compute; reflexivity | ].
  intros Heq. apply (f_equal elements) in Heq. vm_compute in Heq. discriminate Heq.
Qed.

(* ===================================================================== *)
(** ** The job admission gate *)
(* ===================================================================== *)

Lemma active_not_terminal (s : string) :
  active_status s = true -> terminal_status s = false.
Proof.
  unfold active_status, terminal_status, in_list. simpl.
  destruct (String.eqb_spec s "RUNNING") as [ -> | _ ]; [ reflexivity | ].
  destruct (String.eqb_spec s "CREATED") as [ -> | _ ]; [ reflexivity | ].
  discriminate.
Qed.

Section Gate.

Variable R : Remote.
Variable check_interval : Z.

(** One iteration of the loop. *)
Lemma wait_step (fuel : nat) (tr : list Event) :
  wait_for_bulk_operation_completion (S fuel) R check_interval tr
  = let '(status_info, tr1) := check_bulk_operation_status R tr in
    match status_info with
    | None => Some tr1
    | Some info =>
        if terminal_status (status info) then Some tr1
        else if active_status (status info) then
          wait_for_bulk_operation_completion fuel R check_interval
            (tr1 ++ [EvSleep (check_interval * 1000)])
        else
          wait_for_bulk_operation_completion fuel R check_interval
            (tr1 ++ [EvSleep (check_interval * 1000)])
    end.
Proof. reflexivity. Qed.

(** The slot is free, or the query failed: one query, no sleep. *)
Lemma wait_returns (fuel : nat) (tr : list Event) :
  reports_free (status_reply R tr) \/ query_failed (status_reply R tr) ->
  wait_for_bulk_operation_completion (S fuel) R check_interval tr
  = Some (tr ++ [EvStatus]).
Proof.
  intros Hreply. rewrite wait_step. unfold check_bulk_operation_status.
  destruct Hreply as [ [ Hnone | (op & Hop & Hterminal) ] | [ Hfail | [ Hfail | Hfail ] ] ].
  - rewrite Hnone. reflexivity.
  - rewrite Hop, Hterminal. reflexivity.
  - rewrite Hfail. reflexivity.
  - rewrite Hfail. reflexivity.
  - rewrite Hfail. reflexivity.
Qed.

(** An active job: one query, one sleep of the interval, and again. *)
Lemma wait_sleeps (fuel : nat) (tr : list Event) :
  reports_active (status_reply R tr) ->
  wait_for_bulk_operation_completion (S fuel) R check_interval tr
  = wait_for_bulk_operation_completion fuel R check_interval
      (tr ++ [EvStatus; EvSleep (check_interval * 1000)]).
Proof.
  intros (op & Hop & Hactive). rewrite wait_step. unfold check_bulk_operation_status.
  rewrite Hop, (active_not_terminal _ Hactive), Hactive, <- app_assoc. reflexivity.
Qed.

(** A status the gate does not know is waited on like an active one. *)
Lemma wait_sleeps_unknown (fuel : nat) (tr : list Event) :
  reports_unknown (status_reply R tr) ->
  wait_for_bulk_operation_completion (S fuel) R check_interval tr
  = wait_for_bulk_operation_completion fuel R check_interval
      (tr ++ [EvStatus; EvSleep (check_interval * 1000)]).
Proof.
  intros (op & Hop & Hterminal & Hactive). rewrite wait_step.
  unfold check_bulk_operation_status.
  rewrite Hop, Hterminal, Hactive, <- app_assoc. reflexivity.
Qed.

(** [n] active reports and then a free slot: exactly [n] sleep-poll cycles
    and the final query, for every [n]. *)
Lemma wait_cycles (n : nat) : forall (fuel : nat) (tr : list Event),
  (forall k, (k < n)%nat ->
             reports_active (status_reply R (tr ++ sleep_poll_cycles k check_interval))) ->
  reports_free (status_reply R (tr ++ sleep_poll_cycles n check_interval)) ->
  (n < fuel)%nat ->
  wait_for_bulk_operation_completion fuel R check_interval tr
  = Some (tr ++ sleep_poll_cycles n check_interval ++ [EvStatus]).
Proof.
  induction n as [ | n IH ]; intros fuel tr Hactive Hfree Hfuel;
    (destruct fuel as [ | fuel ]; [ lia | ]).
  - simpl sleep_poll_cycles in *. rewrite app_nil_r in Hfree.
    apply wait_returns. left. exact Hfree.
  - rewrite wait_sleeps.
    + rewrite IH.
      * rewrite <- app_assoc. reflexivity.
      * intros k Hk. rewrite <- app_assoc. apply (Hactive (S k)). lia.
      * rewrite <- app_assoc. exact Hfree.
      * lia.
    + specialize (Hactive O ltac:(lia)). simpl in Hactive.
      rewrite app_nil_r in Hactive. exact Hactive.
Qed.

(** A job that stays active keeps the gate waiting: no number of
    iterations makes it give up. *)
Lemma wait_forever (fuel : nat) : forall tr,
  (forall tr', reports_active (status_reply R tr')) ->
  wait_for_bulk_operation_completion fuel R check_interval tr = None.
Proof.
  induction fuel as [ | fuel IH ]; intros tr Hactive.
  - reflexivity.
  - rewrite wait_sleeps by apply Hactive. apply IH. exact Hactive.
Qed.

End Gate.

(** The submission is posted once, right after the wait has returned, and
    not at all while the wait has not returned. *)
Lemma submit_after_wait (fuel : nat) (R : Remote) (path : string) (tr : list Event) :
  match wait_for_bulk_operation_completion fuel R 120 tr with
  | Some tr' =>
      exists data,
        run_bulk_product_set_with_queue fuel R path tr = Some (data, tr' ++ [EvSubmit path])
  | None => run_bulk_product_set_with_queue fuel R path tr = None
  end.
Proof.
  unfold run_bulk_product_set_with_queue.
  destruct (wait_for_bulk_operation_completion fuel R 120 tr) as [ tr' | ].
  - destruct (submit_reply R tr' path); eexists; reflexivity.
  - reflexivity.
Qed.

Lemma polls_cycles (n : nat) (check_interval : Z) :
  polls (sleep_poll_cycles n check_interval) = n.
Proof.
  unfold polls. induction n as [ | n IH ]; simpl; [ reflexivity | ].
  f_equal. exact IH.
Qed.

(** C5.  The job admission gate.  When the remote reports no current job or a
    job that is COMPLETED, FAILED or CANCELED, the wait returns after that
    single query, without sleeping.  When it reports a job that is CREATED or
    RUNNING, the wait sleeps one interval and queries again, and so it does
    for a status it has no branch for.  This repeats
    without a cap: for every [n], [n] active reports followed by a free slot
    give exactly [n] sleep-poll cycles and one last query, and a job that
    never leaves the active states keeps the wait going for any number of
    iterations.  The submission is posted once, after the wait has returned.
    With a remote that reports an active job three times and then COMPLETED,
    the trace is three sleep-poll cycles, the last query and one
    submission. *)
Theorem admission_gate :
  (forall (R : Remote) (check_interval : Z) (fuel : nat) (tr : list Event),
      reports_free (status_reply R tr) ->
      wait_for_bulk_operation_completion (S fuel) R check_interval tr
      = Some (tr ++ [EvStatus]))
  /\ (forall (R : Remote) (check_interval : Z) (fuel : nat) (tr : list Event),
         reports_active (status_reply R tr) ->
         wait_for_bulk_operation_completion (S fuel) R check_interval tr
         = wait_for_bulk_operation_completion fuel R check_interval
             (tr ++ [EvStatus; EvSleep (check_interval * 1000)]))
  /\ (forall (R : Remote) (check_interval : Z) (fuel : nat) (tr : list Event),
         reports_unknown (status_reply R tr) ->
         wait_for_bulk_operation_completion (S fuel) R check_interval tr
         = wait_for_bulk_operation_completion fuel R check_interval
             (tr ++ [EvStatus; EvSleep (check_interval * 1000)]))
  /\ (forall (R : Remote) (check_interval : Z) (n fuel : nat) (tr : list Event),
         (forall k, (k < n)%nat ->
            reports_active (status_reply R (tr ++ sleep_poll_cycles k check_interval))) ->
         reports_free (status_reply R (tr ++ sleep_poll_cycles n check_interval)) ->
         (n < fuel)%nat ->
         wait_for_bulk_operation_completion fuel R check_interval tr
         = Some (tr ++ sleep_poll_cycles n check_interval ++ [EvStatus]))
  /\ (forall (R : Remote) (check_interval : Z) (fuel : nat) (tr : list Event),
         (forall tr', reports_active (status_reply R tr')) ->
         wait_for_bulk_operation_completion fuel R check_interval tr = None)
  /\ (forall (R : Remote) (fuel : nat) (path : string) (tr tr' : list Event),
         wait_for_bulk_operation_completion fuel R 120 tr = Some tr' ->
         exists data,
           run_bulk_product_set_with_queue fuel R path tr
           = Some (data, tr' ++ [EvSubmit path]))
  /\ (forall (fuel : nat) (path : string),
         (3 < fuel)%nat ->
         exists data,
           run_bulk_product_set_with_queue fuel (busy_remote 3) path []
           = Some (data,
                   [ EvStatus; EvSleep 120000;
                     EvStatus; EvSleep 120000;
                     EvStatus; EvSleep 120000;
                     EvStatus;
                     EvSubmit path ])).
Proof.
  split; [ | split; [ | split; [ | split; [ | split; [ | split ] ] ] ] ].
  - intros R check_interval fuel tr Hfree. apply wait_returns. left. exact Hfree.
  - intros R check_interval fuel tr Hactive. apply wait_sleeps. exact Hactive.
  - intros R check_interval fuel tr Hunknown. apply wait_sleeps_unknown. exact Hunknown.
  - intros R check_interval n fuel tr. apply wait_cycles.
  - intros R check_interval fuel tr. apply wait_forever.
  - intros R fuel path tr tr' Hwait.
    pose proof (submit_after_wait fuel R path tr) as Hsubmit.
    rewrite Hwait in Hsubmit. exact Hsubmit.
  - intros fuel path Hfuel.
    pose proof (submit_after_wait fuel (busy_remote 3) path []) as Hsubmit.
    rewrite (wait_cycles (busy_remote 3) 120 3 fuel []) in Hsubmit.
    + exact Hsubmit.
    + intros k Hk. simpl. unfold reports_active.
      rewrite polls_cycles. apply Nat.ltb_lt in Hk. rewrite Hk.
      eexists. split; reflexivity.
    + right. simpl. eexists. split; reflexivity.
    + exact Hfuel.
Qed.

Lemma admission_gate_witness :
  wait_for_bulk_operation_completion 1 (catalog_remote []) 120 [] = Some [EvStatus]
  /\ wait_for_bulk_operation_completion 2 (busy_remote 1) 120 []
     = wait_for_bulk_operation_completion 1 (busy_remote 1) 120 [EvStatus; EvSleep 120000]
  /\ wait_for_bulk_operation_completion 4 (busy_remote 3) 120 []
     = Some [ EvStatus; EvSleep 120000; EvStatus; EvSleep 120000;
              EvStatus; EvSleep 120000; EvStatus ]
  /\ wait_for_bulk_operation_completion 1000 stuck_remote 120 [] = None
  /\ (exists data,
        run_bulk_product_set_with_queue 1 (catalog_remote []) "tmp/products.jsonl" []
        = Some (data, [EvStatus] ++ [EvSubmit "tmp/products.jsonl"]))
  /\ exists data,
       run_bulk_product_set_with_queue 4 (busy_remote 3) "tmp/products.jsonl" []
       = Some (data,
               [ EvStatus; EvSleep 120000; EvStatus; EvSleep 120000;
                 EvStatus; EvSleep 120000; EvStatus; EvSubmit "tmp/products.jsonl" ]).
Proof.
  destruct admission_gate
    as (Hfree & Hactive & _ & Hcycles & Hforever & Hsubmit & Hexample).
  split; [ | split; [ | split; [ | split; [ | split ] ] ] ].
  - apply (Hfree (catalog_remote []) 120 O []). left. reflexivity.
  - apply (Hactive (busy_remote 1) 120 1%nat []).
    exists (job "RUNNING"). split; reflexivity.
  - apply (Hcycles (busy_remote 3) 120 3%nat 4%nat []).
    + intros k Hk.
      destruct k as [ | [ | [ | k ] ] ]; [ | | | lia ];
        exists (job "RUNNING"); split; reflexivity.
    + right. exists (job "COMPLETED"). split; reflexivity.
    + lia.
  - apply (Hforever stuck_remote 120 1000%nat []).
    intros tr'. exists (job "RUNNING"). split; reflexivity.
  - apply (Hsubmit (catalog_remote []) 1%nat "tmp/products.jsonl" [] [EvStatus]).
    reflexivity.
  - apply (Hexample 4%nat "tmp/products.jsonl"). lia.
Defined.

(** C10.  A failed status query.  When the status query fails (a request
    error, any other exception, or a body with errors), the status checker
    returns [None], the value it returns when the remote reports no current
    job; the wait then returns after that single query without sleeping, and
    the submission is posted next.  Nothing in what the caller gets tells the
    failure from an empty queue. *)
Theorem failed_status_query_frees_slot (R : Remote) (tr : list Event) :
  query_failed (status_reply R tr) ->
  check_bulk_operation_status R tr = (None, tr ++ [EvStatus])
  /\ (forall R' : Remote,
         status_reply R' tr = Json (Data None) ->
         check_bulk_operation_status R' tr = check_bulk_operation_status R tr)
  /\ (forall (fuel : nat) (check_interval : Z),
         wait_for_bulk_operation_completion (S fuel) R check_interval tr
         = Some (tr ++ [EvStatus]))
  /\ (forall (fuel : nat) (path : string),
         exists data,
           run_bulk_product_set_with_queue (S fuel) R path tr
           = Some (data, tr ++ [EvStatus; EvSubmit path])).
Proof.
  intros Hfailed.
  assert (Hcheck : check_bulk_operation_status R tr = (None, tr ++ [EvStatus])).
  { unfold check_bulk_operation_status.
    destruct Hfailed as [ -> | [ -> | -> ] ]; reflexivity. }
  split; [ exact Hcheck | ].
  split; [ | split ].
  - intros R' Hnone. rewrite Hcheck. unfold check_bulk_operation_status.
    rewrite Hnone. reflexivity.
  - intros fuel check_interval. apply wait_returns. right. exact Hfailed.
  - intros fuel path.
    pose proof (submit_after_wait (S fuel) R path tr) as Hsubmit.
    rewrite (wait_returns R 120 fuel tr (or_intror Hfailed)) in Hsubmit.
    destruct Hsubmit as (data & Hrun). exists data.
    rewrite Hrun, <- app_assoc. reflexivity.
Qed.

Lemma failed_status_query_frees_slot_witness :
  check_bulk_operation_status unreachable_remote [] = (None, [EvStatus])
  /\ wait_for_bulk_operation_completion 1 unreachable_remote 120 [] = Some [EvStatus]
  /\ exists data,
       run_bulk_product_set_with_queue 1 unreachable_remote "tmp/products.jsonl" []
       = Some (data, [EvStatus; EvSubmit "tmp/products.jsonl"]).
Proof.
  destruct (failed_status_query_frees_slot unreachable_remote [])
    as (Hcheck & _ & Hwait & Hrun).
  - left. reflexivity.
  - split; [ exact Hcheck | ].
    split; [ exact (Hwait O 120) | exact (Hrun O "tmp/products.jsonl") ].
Defined.

(* ===================================================================== *)
(** ** The batch encoder: order of the lines *)
(* ===================================================================== *)

Lemma update_line_has_id `{PF : PyFloat} (product : Product) (shopify_id : string) :
  is_update_record (update_line product shopify_id) = true.
Proof. reflexivity. Qed.

Lemma create_line_has_no_id `{PF : PyFloat} (product : Product) :
  is_update_record (create_line product) = false.
Proof. reflexivity. Qed.

(** C6.  Order of the batch file.  For every pair of sequences (updates,
    creates) the file has one line per update followed by one line per
    create: its first lines are the update records in the order of the
    updates, the remaining lines are the create records in the order of the
    creates, so every record with a remote id precedes every record without
    one.  In [generate_product_jsonl] the two sequences keep the order of the
    scraped records, and the file has one line per scraped record.  With 2
    updates and 3 creates the file has exactly 5 lines, the 2 updates in
    order and then the 3 creates in order. *)
Theorem batch_encoder_ordering `{PF : PyFloat} :
  (forall (updates : list (Product * string)) (creates : list Product),
      let file := write_jsonl updates creates in
      List.length file = (List.length updates + List.length creates)%nat
      /\ take (List.length updates) file
         = List.map (fun u => update_line (fst u) (snd u)) updates
      /\ drop (List.length updates) file = List.map create_line creates
      /\ List.map is_update_record file
         = repeat true (List.length updates) ++ repeat false (List.length creates))
  /\ (forall (R : Remote) (product_list : list Product)
             (processed_skus : gmap string Processed) (tr : list Event),
         let gen := fst (generate_product_jsonl R product_list processed_skus tr) in
         products_jsonl gen = write_jsonl (updates gen) (creates gen)
         /\ List.map fst (updates gen) `sublist_of` product_list
         /\ creates gen `sublist_of` product_list
         /\ List.length (products_jsonl gen) = List.length product_list)
  /\ (forall (u1 u2 : Product * string) (c1 c2 c3 : Product),
         write_jsonl [u1; u2] [c1; c2; c3]
         = [ update_line (fst u1) (snd u1);
             update_line (fst u2) (snd u2);
             create_line c1;
             create_line c2;
             create_line c3 ])
  /\ (let gen :=
        fst (@generate_product_jsonl integer_prices (catalog_remote ["B"; "C"])
               [ sample_product "D" "250" ""; sample_product "B" "250" "";
                 sample_product "E" "250" ""; sample_product "C" "250" "";
                 sample_product "F" "250" "" ]
               (load_processed_skus (stored ["A"; "B"; "C"])) []) in
      List.map (fun u => sku (fst u)) (updates gen) = ["B"; "C"]
      /\ List.map sku (creates gen) = ["D"; "E"; "F"]
      /\ List.map is_update_record (products_jsonl gen)
         = [true; true; false; false; false]).
Proof.
  split; [ | split; [ | split ] ].
  - intros us cs file. unfold file, write_jsonl.
    split; [ rewrite length_app, !length_map; reflexivity | ].
    split.
    { rewrite take_app_length'; [ reflexivity | rewrite length_map; reflexivity ]. }
    split.
    { rewrite drop_app_length'; [ reflexivity | rewrite length_map; reflexivity ]. }
    rewrite List.map_app, !List.map_map. f_equal.
    + induction us as [ | u rest IH ]; simpl; [ reflexivity | ].
      rewrite IH. reflexivity.
    + induction cs as [ | c rest IH ]; simpl; [ reflexivity | ].
      rewrite IH. reflexivity.
  - intros R product_list processed_skus tr. unfold generate_product_jsonl.
    pose proof (classify_all_ordered R processed_skus product_list tr) as (Hus & Hcs & Hperm).
    destruct (classify_all R processed_skus product_list tr) as [[us cs] tr'].
    simpl in *. split; [ reflexivity | ].
    split; [ exact Hus | ].
    split; [ exact Hcs | ].
    unfold write_jsonl. rewrite length_app, !length_map.
    apply Permutation_length in Hperm. rewrite length_app, length_map in Hperm. exact Hperm.
  - intros u1 u2 c1 c2 c3. reflexivity.
  - vm_compute. repeat split; reflexivity.
Qed.

(* ===================================================================== *)
(** ** The batch encoder: the discount tag *)
(* ===================================================================== *)

Lemma truthy_false (s : string) : truthy s = false -> s = "".
Proof.
  unfold truthy. destruct (String.eqb_spec s "") as [ -> | _ ]; [ reflexivity | discriminate ].
Qed.

Section Discount.

Context {PF : PyFloat}.

Lemma float_or_zero_positive (x : string) (v : float) :
  float_or_zero x = Some v -> float_gt v float_zero = true -> float_of_str x = Some v.
Proof.
  unfold float_or_zero. destruct (truthy x); [ intros Hv _; exact Hv | ].
  intros Hv Hpos. injection Hv as <-.
  rewrite float_zero_not_positive in Hpos. discriminate Hpos.
Qed.

Lemma float_or_zero_parsed (x : string) (v : float) :
  float_of_str x = Some v -> float_or_zero x = Some v.
Proof.
  unfold float_or_zero. intros Hv. destruct (truthy x) eqn:Htruthy; [ exact Hv | ].
  apply truthy_false in Htruthy. subst x. rewrite float_of_empty in Hv. discriminate Hv.
Qed.

(** When [is_discounted] is set. *)
Lemma is_discounted_iff (product : Product) :
  is_discounted product = true <-> reduced_price product.
Proof.
  unfold is_discounted, reduced_price. split.
  - destruct (float_or_zero (price product)) as [ price_val | ] eqn:Hprice; [ | discriminate ].
    destruct (float_or_zero (previousPrice product)) as [ prev_val | ] eqn:Hprev;
      [ | discriminate ].
    intros Hall. apply andb_true_iff in Hall as [Hall Hgt].
    apply andb_true_iff in Hall as [Hprev_pos Hprice_pos].
    exists price_val, prev_val.
    split; [ apply float_or_zero_positive; assumption | ].
    split; [ apply float_or_zero_positive; assumption | ].
    repeat split; assumption.
  - intros (price_val & prev_val & Hprice & Hprev & Hprev_pos & Hprice_pos & Hgt).
    rewrite (float_or_zero_parsed _ _ Hprice), (float_or_zero_parsed _ _ Hprev).
    rewrite Hprev_pos, Hprice_pos, Hgt. reflexivity.
Qed.

(** The tag list of a record is [base_tags], in an update line and in a
    create line alike. *)
Lemma line_tags (product : Product) (shopify_id : string) :
  (get_key "input" (update_line product shopify_id) ≫= get_key "tags")
  = Some (JList (List.map JStr (base_tags product)))
  /\ (get_key "input" (create_line product) ≫= get_key "tags")
     = Some (JList (List.map JStr (base_tags product))).
Proof. split; reflexivity. Qed.

End Discount.

(** C7.  The discount tag, as the code does it.  The tag list of an encoded
    record, update or create, is [base_tags]; the encoder appends
    [discounted] to it if and only if both prices convert to numbers, both
    are strictly positive and the previous price is greater than the price.
    The tag list therefore contains [discounted] if and only if that holds
    or the gender, the product type or the brand of the record is itself the
    string [discounted].  An empty previous price never sets the flag.  For a
    record whose gender, product type and brand are other words: price 100
    and previous price 150 carry the tag; an empty previous price, or a
    previous price of at most the price, do not. *)
Theorem discount_tag `{PF : PyFloat} :
  (forall (product : Product) (shopify_id : string),
      (get_key "input" (update_line product shopify_id) ≫= get_key "tags")
      = Some (JList (List.map JStr (base_tags product)))
      /\ (get_key "input" (create_line product) ≫= get_key "tags")
         = Some (JList (List.map JStr (base_tags product))))
  /\ (forall product : Product,
         is_discounted product = true <-> reduced_price product)
  /\ (forall product : Product,
         In "discounted" (base_tags product)
         <-> reduced_price product
             \/ gender product = "discounted"
             \/ productType product = "discounted"
             \/ brand product = "discounted")
  /\ (forall product : Product,
         previousPrice product = "" -> is_discounted product = false)
  /\ (In "discounted" (@base_tags integer_prices (sample_product "X1" "100" "150"))
      /\ ~ In "discounted" (@base_tags integer_prices (sample_product "X1" "100" ""))
      /\ ~ In "discounted" (@base_tags integer_prices (sample_product "X1" "100" "100"))
      /\ ~ In "discounted" (@base_tags integer_prices (sample_product "X1" "100" "80"))).
Proof.
  split; [ intros product shopify_id; apply line_tags | ].
  split; [ intros product; apply is_discounted_iff | ].
  split; [ | split ].
  - intros product. rewrite <- is_discounted_iff. unfold base_tags.
    rewrite in_app_iff. simpl.
    destruct (is_discounted product); simpl; split.
    + intros _. left. reflexivity.
    + intros _. right. left. reflexivity.
    + intros [ Hbase | [] ].
      destruct Hbase as [ H | [ H | [ H | [ H | [ H | [ H | [ H | [] ] ] ] ] ] ] ];
        try discriminate H; auto.
    + intros [ H | [ H | [ H | H ] ] ]; [ discriminate H | | | ]; left; auto 10.
  - intros product Hempty. unfold is_discounted, float_or_zero.
    rewrite Hempty. simpl.
    destruct (truthy (price product)); [ destruct (float_of_str (price product)) | ];
      try reflexivity; rewrite float_zero_not_positive; reflexivity.
  - vm_compute. split; [ auto 10 | ].
    repeat split; intros H; repeat (destruct H as [ H | H ]; [ discriminate H | ]);
      exact H.
Qed.

Lemma discount_tag_witness :
  @is_discounted integer_prices (sample_product "X1" "100" "") = false.
Proof.
  apply (proj1 (proj2 (proj2 (proj2 (@discount_tag integer_prices))))).
  reflexivity.
Defined.

(** C7, as stated, fails.  A record whose brand is the string [discounted],
    with price 100 and no previous price: its tag list contains [discounted]
    although the previous price does not convert to a number. *)
Lemma discount_tag_counterexample :
  previousPrice branded_discounted = ""
  /\ @float_of_str integer_prices (previousPrice branded_discounted) = None
  /\ @is_discounted integer_prices branded_discounted = false
  /\ In "discounted" (@base_tags integer_prices branded_discounted)
  /\ ~ (In "discounted" (@base_tags integer_prices branded_discounted)
        <-> @reduced_price integer_prices branded_discounted).
Proof.
  split; [ reflexivity | ].
  split; [ reflexivity | ].
  split; [ reflexivity | ].
  assert (Htag : In "discounted" (@base_tags integer_prices branded_discounted)).
  { vm_compute. auto 10. }
  split; [ exact Htag | ].
  intros [Hto _]. destruct (Hto Htag) as (price_val & prev_val & _ & Hprev & _).
  vm_compute in Hprev. discriminate Hprev.
Qed.

(* ===================================================================== *)
(** ** The duplicate resolver: grouping *)
(* ===================================================================== *)

Lemma group_of_append (key : string) (member : Member) (k : string)
    (by_key : list (string * list Member)) :
  group_of k (append_member key member by_key)
  = if String.eqb key k then group_of k by_key ++ [member] else group_of k by_key.
Proof.
  unfold group_of. induction by_key as [ | [k' members] rest IH ]; simpl.
  - destruct (String.eqb key k); reflexivity.
  - destruct (String.eqb_spec k' key) as [ -> | Hne ]; simpl.
    + destruct (String.eqb key k); reflexivity.
    + destruct (String.eqb_spec k' k) as [ -> | Hne' ].
      * destruct (String.eqb_spec key k) as [ -> | _ ]; [ congruence | reflexivity ].
      * exact IH.
Qed.

Lemma append_member_keys (key : string) (member : Member)
    (by_key : list (string * list Member)) :
  NoDup (List.map fst by_key) ->
  NoDup (List.map fst (append_member key member by_key))
  /\ forall k, k ∈ List.map fst (append_member key member by_key)
               -> k = key \/ k ∈ List.map fst by_key.
Proof.
  induction by_key as [ | [k' members] rest IH ]; simpl; intros Hnodup.
  - split; [ apply NoDup_singleton | ].
    intros k Hk. apply list_elem_of_singleton in Hk. left. exact Hk.
  - apply NoDup_cons in Hnodup as [Hfresh Hrest].
    destruct (String.eqb_spec k' key) as [ -> | Hne ]; simpl.
    + split; [ apply NoDup_cons; split; assumption | ].
      intros k Hk. right. exact Hk.
    + destruct (IH Hrest) as [Hnodup' Hkeys].
      split.
      * apply NoDup_cons. split; [ | exact Hnodup' ].
        intros Hin. destruct (Hkeys _ Hin) as [ Heq | Hold ]; [ congruence | contradiction ].
      * intros k Hk. apply elem_of_cons in Hk as [ -> | Hk ].
        -- right. apply list_elem_of_here.
        -- destruct (Hkeys _ Hk) as [ Heq | Hold ]; [ left; exact Heq | ].
           right. apply list_elem_of_further. exact Hold.
Qed.

(** With distinct keys, the group stored under a key is the one [group_of]
    finds. *)
Lemma group_of_elem (by_key : list (string * list Member)) (k : string)
    (members : list Member) :
  NoDup (List.map fst by_key) ->
  (k, members) ∈ by_key ->
  group_of k by_key = members.
Proof.
  unfold group_of. induction by_key as [ | [k' ms] rest IH ]; simpl; intros Hnodup Hin.
  - apply elem_of_nil in Hin. contradiction.
  - apply NoDup_cons in Hnodup as [Hfresh Hrest].
    apply elem_of_cons in Hin as [ Heq | Hin ].
    + injection Heq as <- <-. rewrite String.eqb_refl. reflexivity.
    + destruct (String.eqb_spec k' k) as [ -> | _ ].
      * exfalso. apply Hfresh.
        change k with (fst (k, members)). apply list_elem_of_In, in_map, list_elem_of_In. exact Hin.
      * apply IH; assumption.
Qed.

(** A non-empty group is stored under its key. *)
Lemma group_of_stored (by_key : list (string * list Member)) (k : string) :
  group_of k by_key <> [] -> (k, group_of k by_key) ∈ by_key.
Proof.
  unfold group_of. intros Hne.
  destruct (List.find (fun kv => String.eqb (fst kv) k) by_key) as [ [k' ms] | ] eqn:Hfind;
    [ | congruence ].
  apply find_some in Hfind as [Hin Hkey]. simpl in Hkey.
  apply String.eqb_eq in Hkey. subst k'. simpl. apply list_elem_of_In. exact Hin.
Qed.

(** One step of the grouping loop, seen from a key. *)
Lemma group_node_group (acc : Duplicates) (node : Node) (k : string) :
  group_of k (by_sku_tag (group_node acc node))
  = group_of k (by_sku_tag acc) ++ sharing k [node].
Proof.
  unfold group_node, sharing, tag_value. simpl.
  destruct (sku_from_tag (tags node)) as [ value | ]; simpl.
  - destruct (truthy value); simpl.
    + rewrite group_of_append. destruct (String.eqb value k); simpl.
      * reflexivity.
      * symmetry. apply app_nil_r.
    + symmetry. apply app_nil_r.
  - symmetry. apply app_nil_r.
Qed.

Lemma group_node_keys (acc : Duplicates) (node : Node) :
  NoDup (List.map fst (by_sku_tag acc)) ->
  NoDup (List.map fst (by_sku_tag (group_node acc node))).
Proof.
  intros Hnodup. unfold group_node.
  destruct (sku_from_tag (tags node)) as [ value | ]; simpl; [ | exact Hnodup ].
  destruct (truthy value); simpl; [ | exact Hnodup ].
  apply append_member_keys. exact Hnodup.
Qed.

(** After the loop, the group of a key holds the entities that share the
    key, in catalog order, and the keys are distinct. *)
Lemma grouping (products : list Node) : forall (acc : Duplicates) (k : string),
  NoDup (List.map fst (by_sku_tag acc)) ->
  group_of k (by_sku_tag (fold_left group_node products acc))
  = group_of k (by_sku_tag acc) ++ sharing k products
  /\ NoDup (List.map fst (by_sku_tag (fold_left group_node products acc))).
Proof.
  induction products as [ | node rest IH ]; intros acc k Hnodup; simpl.
  - split; [ symmetry; apply app_nil_r | exact Hnodup ].
  - destruct (IH (group_node acc node) k (group_node_keys acc node Hnodup)) as [Hgroup Hkeys].
    split; [ | exact Hkeys ].
    rewrite Hgroup, group_node_group, <- app_assoc. f_equal.
    unfold sharing. simpl.
    destruct (tag_value node) as [ v | ]; [ destruct (String.eqb v k) | ]; reflexivity.
Qed.

(** The groups [find_duplicates] returns are exactly the sets of two or
    more entities sharing a tag value. *)
Lemma find_duplicates_groups (products : list Node) (k : string) (members : list Member) :
  (k, members) ∈ by_sku_tag (find_duplicates products)
  <-> members = sharing k products /\ (1 < List.length members)%nat.
Proof.
  unfold find_duplicates. simpl.
  set (start := {| by_sku_tag := []; products_without_sku_tag := [] |}).
  destruct (grouping products start k (NoDup_nil_2 : NoDup (List.map fst (by_sku_tag start))))
    as [Hgroup Hkeys].
  simpl in Hgroup.
  rewrite list_elem_of_In, filter_In, <- list_elem_of_In. simpl. rewrite Nat.ltb_lt.
  split.
  - intros [Hin Hsize]. split; [ | exact Hsize ].
    rewrite <- Hgroup. symmetry. apply group_of_elem; assumption.
  - intros [-> Hsize]. split; [ | exact Hsize ].
    rewrite <- Hgroup. apply group_of_stored. rewrite Hgroup.
    intros Hnil. rewrite Hnil in Hsize. simpl in Hsize. lia.
Qed.

(* ===================================================================== *)
(** ** The duplicate resolver: ordering by creation timestamp *)
(* ===================================================================== *)

Lemma ascii_compare_spec (a b : ascii) :
  CompareSpec (a = b) (N_of_ascii a < N_of_ascii b)%N (N_of_ascii b < N_of_ascii a)%N
    (Ascii.compare a b).
Proof.
  unfold Ascii.compare.
  destruct (N.compare_spec (N_of_ascii a) (N_of_ascii b)) as [ Heq | Hlt | Hgt ];
    constructor; try assumption.
  rewrite <- (ascii_N_embedding a), <- (ascii_N_embedding b), Heq. reflexivity.
Qed.

(** The order of Python on strings, as far as [String.leb] gives it, is
    transitive. *)
Lemma string_leb_trans (s1 : string) : forall s2 s3 : string,
  String.leb s1 s2 = true -> String.leb s2 s3 = true -> String.leb s1 s3 = true.
Proof.
  unfold String.leb.
  induction s1 as [ | a s1 IH ]; intros [ | b s2 ] [ | c s3 ]; simpl;
    try reflexivity; try discriminate.
  destruct (ascii_compare_spec a b) as [ <- | Hab | Hab ]; try discriminate.
  - destruct (ascii_compare_spec a c) as [ <- | Hac | Hac ]; try discriminate.
    + apply IH.
    + reflexivity.
  - intros _.
    destruct (ascii_compare_spec b c) as [ <- | Hbc | Hbc ]; try discriminate.
    + destruct (ascii_compare_spec a b) as [ -> | _ | Hba ]; [ lia | reflexivity | lia ].
    + destruct (ascii_compare_spec a c) as [ -> | _ | Hca ]; [ lia | reflexivity | lia ].
Qed.

Lemma not_after_trans (x y z : Member) : not_after x y -> not_after y z -> not_after x z.
Proof. unfold not_after. apply string_leb_trans. Qed.

Lemma not_after_total (x y : Member) : not_after x y \/ not_after y x.
Proof. unfold not_after. apply String.leb_total. Qed.

Lemma insert_by_created_at_perm (x : Member) (l : list Member) :
  insert_by_created_at x l ≡ₚ x :: l.
Proof.
  induction l as [ | y rest IH ]; simpl; [ reflexivity | ].
  destruct (String.leb (created_at x) (created_at y)); [ reflexivity | ].
  rewrite IH. apply perm_swap.
Qed.

(** The sort keeps the members of the group. *)
Lemma sorted_by_created_at_perm (l : list Member) : sorted_by_created_at l ≡ₚ l.
Proof.
  induction l as [ | x rest IH ]; simpl; [ reflexivity | ].
  rewrite insert_by_created_at_perm, IH. reflexivity.
Qed.

Lemma insert_by_created_at_sorted (x : Member) (l : list Member) :
  StronglySorted not_after l -> StronglySorted not_after (insert_by_created_at x l).
Proof.
  induction l as [ | y rest IH ]; simpl; intros Hsorted.
  - constructor; constructor.
  - apply StronglySorted_inv in Hsorted as [Hrest Hy].
    destruct (String.leb (created_at x) (created_at y)) eqn:Hxy.
    + constructor; [ constructor; assumption | ].
      constructor; [ exact Hxy | ].
      eapply Forall_impl; [ exact Hy | ].
      intros z Hz. exact (not_after_trans x y z Hxy Hz).
    + constructor; [ apply IH; exact Hrest | ].
      assert (Hyx : not_after y x).
      { destruct (not_after_total x y) as [ H | H ]; [ | exact H ].
        unfold not_after in H. congruence. }
      rewrite (insert_by_created_at_perm x rest). constructor; assumption.
Qed.

(** The sort is ascending in the creation timestamp. *)
Lemma sorted_by_created_at_sorted (l : list Member) :
  StronglySorted not_after (sorted_by_created_at l).
Proof.
  induction l as [ | x rest IH ]; simpl; [ constructor | ].
  apply insert_by_created_at_sorted. exact IH.
Qed.

(** The sort is stable: members with the same creation timestamp keep the
    order they had in the group. *)
Lemma insert_by_created_at_stable (t : string) (x : Member) (l : list Member) :
  List.filter (fun m => String.eqb (created_at m) t) (insert_by_created_at x l)
  = List.filter (fun m => String.eqb (created_at m) t) (x :: l).
Proof.
  induction l as [ | y rest IH ]; [ reflexivity | ].
  simpl insert_by_created_at.
  destruct (String.leb (created_at x) (created_at y)) eqn:Hxy; [ reflexivity | ].
  simpl in *. rewrite IH.
  destruct (String.eqb_spec (created_at x) t) as [ Hx | _ ]; [ | reflexivity ].
  destruct (String.eqb_spec (created_at y) t) as [ Hy | _ ]; [ | reflexivity ].
  exfalso. rewrite Hx, <- Hy in Hxy.
  destruct (String.leb_total (created_at y) (created_at y)); congruence.
Qed.

Lemma sorted_by_created_at_stable (t : string) (l : list Member) :
  List.filter (fun m => String.eqb (created_at m) t) (sorted_by_created_at l)
  = List.filter (fun m => String.eqb (created_at m) t) l.
Proof.
  induction l as [ | x rest IH ]; [ reflexivity | ].
  simpl sorted_by_created_at. rewrite insert_by_created_at_stable.
  simpl. rewrite IH. reflexivity.
Qed.

(** The last member of an ascending list is not before any member. *)
Lemma sorted_last_latest (earlier : list Member) (kept : Member) :
  StronglySorted not_after (earlier ++ [kept]) ->
  forall m, m ∈ earlier ++ [kept] -> not_after m kept.
Proof.
  induction earlier as [ | x rest IH ]; simpl; intros Hsorted m Hm.
  - apply list_elem_of_singleton in Hm. subst m.
    destruct (not_after_total kept kept); assumption.
  - apply StronglySorted_inv in Hsorted as [Hrest Hx].
    apply elem_of_cons in Hm as [ -> | Hm ].
    + rewrite Forall_forall in Hx. apply Hx.
      apply elem_of_app. right. apply list_elem_of_here.
    + apply IH; assumption.
Qed.

(** What the loop body does with a non-empty group. *)
Lemma group_deletions_spec (sku_value : string) (members : list Member) :
  members <> [] ->
  exists earlier kept,
    sorted_by_created_at members = earlier ++ [kept]
    /\ earlier ++ [kept] ≡ₚ members
    /\ StronglySorted not_after (earlier ++ [kept])
    /\ (forall m, m ∈ members -> not_after m kept)
    /\ group_deletions (sku_value, members) = List.map (to_delete sku_value) earlier.
Proof.
  intros Hne.
  pose proof (sorted_by_created_at_perm members) as Hperm.
  pose proof (sorted_by_created_at_sorted members) as Hsorted.
  destruct (snoc_cases (sorted_by_created_at members)) as [ Hnil | (kept & earlier & Heq) ].
  - rewrite Hnil in Hperm. apply Permutation_nil in Hperm. contradiction.
  - exists earlier, kept. rewrite Heq in Hperm, Hsorted.
    split; [ exact Heq | ].
    split; [ exact Hperm | ].
    split; [ exact Hsorted | ].
    split.
    + intros m Hm. apply (sorted_last_latest earlier kept Hsorted).
      rewrite Hperm. exact Hm.
    + unfold group_deletions. simpl. rewrite Heq, removelast_last. reflexivity.
Qed.

(** C8.  Deletion candidates of the duplicate resolver.  The groups that
    [find_duplicates] returns are the sets of two or more catalog entities
    sharing one sku-tag value.  For each such group, the members sorted by
    creation timestamp ascending are some [earlier] members followed by one
    [kept] member; [kept] is created no earlier than any member of the group
    and is not a deletion candidate of the group; the deletion candidates of
    the group are exactly the [earlier] members, in ascending order, each
    with the reason [Duplicate SKU tag: <value>].  The list written by
    [generate_delete_script] is made of the candidates of the groups.  For
    the group of A (created 2023-01-01) and B (created 2023-06-01) sharing
    [sku:1], the candidates are exactly [A], and B is kept. *)
Theorem duplicate_deletion_candidates :
  (forall (products : list Node) (sku_value : string) (members : list Member),
      (sku_value, members) ∈ by_sku_tag (find_duplicates products) ->
      members = sharing sku_value products
      /\ (1 < List.length members)%nat
      /\ exists earlier kept,
           sorted_by_created_at members = earlier ++ [kept]
           /\ earlier ++ [kept] ≡ₚ members
           /\ StronglySorted not_after (earlier ++ [kept])
           /\ (forall m, m ∈ members -> not_after m kept)
           /\ group_deletions (sku_value, members)
              = List.map (to_delete sku_value) earlier
           /\ List.length (group_deletions (sku_value, members))
              = (List.length members - 1)%nat
           /\ Forall (fun d => reason d = "Duplicate SKU tag: " +:+ sku_value)
                (group_deletions (sku_value, members)))
  /\ (forall (duplicates : Duplicates) (d : ToDelete),
         d ∈ generate_delete_script duplicates
         <-> exists group, group ∈ by_sku_tag duplicates /\ d ∈ group_deletions group)
  /\ (by_sku_tag (find_duplicates catalog_AB)
      = [ ("1", [ member_of "1" {| node_id := "A"; title := "first";
                                    tags := ["new"; "sku:1"];
                                    node_createdAt := "2023-01-01" |};
                  member_of "1" {| node_id := "B"; title := "second";
                                    tags := ["sku:1"];
                                    node_createdAt := "2023-06-01" |} ]) ]
      /\ List.map delete_id (generate_delete_script (find_duplicates catalog_AB)) = ["A"]
      /\ List.map reason (generate_delete_script (find_duplicates catalog_AB))
         = ["Duplicate SKU tag: 1"]
      /\ List.map member_id
           (sorted_by_created_at (sharing "1" catalog_AB)) = ["A"; "B"]).
Proof.
  split; [ | split ].
  - intros products sku_value members Hgroup.
    apply find_duplicates_groups in Hgroup as [Hmembers Hsize].
    split; [ exact Hmembers | ].
    split; [ exact Hsize | ].
    assert (Hne : members <> []).
    { intros Hnil. rewrite Hnil in Hsize. simpl in Hsize. lia. }
    destruct (group_deletions_spec sku_value members Hne)
      as (earlier & kept & Hsorted & Hperm & Hasc & Hlatest & Hdel).
    exists earlier, kept.
    split; [ exact Hsorted | ].
    split; [ exact Hperm | ].
    split; [ exact Hasc | ].
    split; [ exact Hlatest | ].
    split; [ exact Hdel | ].
    split.
    + rewrite Hdel, length_map. apply Permutation_length in Hperm.
      rewrite length_app in Hperm. simpl in Hperm. lia.
    + rewrite Hdel. apply Forall_forall. intros d Hd.
      apply list_elem_of_In in Hd. apply in_map_iff in Hd as (m & <- & _). reflexivity.
  - intros duplicates d. unfold generate_delete_script.
    rewrite list_elem_of_In, in_flat_map. split.
    + intros (group & Hgroup & Hd). exists group.
      split; apply list_elem_of_In; assumption.
    + intros (group & Hgroup & Hd). exists group.
      split; apply list_elem_of_In; assumption.
  - vm_compute. repeat split; reflexivity.
Qed.

Lemma duplicate_deletion_candidates_witness :
  (1 < List.length (sharing "1" catalog_AB))%nat
  /\ exists earlier kept,
       sorted_by_created_at (sharing "1" catalog_AB) = earlier ++ [kept]
       /\ (forall m, m ∈ sharing "1" catalog_AB -> not_after m kept)
       /\ group_deletions ("1", sharing "1" catalog_AB)
          = List.map (to_delete "1") earlier.
Proof.
  destruct (proj1 duplicate_deletion_candidates catalog_AB "1" (sharing "1" catalog_AB))
    as (_ & Hsize & earlier & kept & Hsorted & _ & _ & Hlatest & Hdel & _).
  - vm_compute. apply list_elem_of_here.
  - split; [ exact Hsize | ].
    exists earlier, kept. split; [ exact Hsorted | ].
    split; [ exact Hlatest | exact Hdel ].
Defined.

(* ===================================================================== *)
(** ** The confirmation gate of the bulk delete *)
(* ===================================================================== *)

Lemma written_logs_app (a b : list Event) :
  written_logs (a ++ b) = written_logs a ++ written_logs b.
Proof. unfold written_logs. apply omap_app. Qed.

Section Confirmation.

Variable R : Remote.
Variable now : list Event -> string.

Lemma delete_product_trace (product_id : string) (tr : list Event)
    (result : DeleteResult) (tr1 : list Event) :
  delete_product R product_id tr = Done (result, tr1) ->
  tr1 = tr ++ [EvDelete product_id].
Proof.
  unfold delete_product.
  destruct (delete_reply R tr product_id) as [ | | [ | d ] ]; try discriminate.
  - intros H. injection H as _ <-. reflexivity.
  - intros H. injection H as _ <-. reflexivity.
  - destruct (userErrors d); intros H; injection H as _ <-; reflexivity.
Qed.

Lemma delete_each_cons (total_products idx : nat) (product : Listed)
    (rest : list (nat * Listed)) (log : DeletionLog) (tr : list Event) :
  delete_each R now total_products ((idx, product) :: rest) log tr
  = match delete_product R (listed_id product) tr with
    | Uncaught => Uncaught
    | SysExit code => SysExit code
    | Done (result, tr1) =>
        let log1 :=
          match result with
          | DeleteSuccess _ => record_success log product (now tr1)
          | DeleteFailure error => record_failure log product error (now tr1)
          end in
        let tr2 := if (idx <? total_products)%nat then tr1 ++ [EvSleep 600] else tr1 in
        if (idx mod 50 =? 0)%nat then
          delete_each R now total_products rest (completed log1 (now tr2))
            (tr2 ++ [EvWriteLog (completed log1 (now tr2))])
        else delete_each R now total_products rest log1 tr2
    end.
Proof. reflexivity. Qed.

(** Once confirmed, the loop requests the deletion of every listed product,
    in order. *)
Lemma delete_each_deletes (total_products : nat) (entries : list (nat * Listed)) :
  forall log tr log' tr',
  delete_each R now total_products entries log tr = Done (log', tr') ->
  deletes tr' = deletes tr ++ List.map (fun e => listed_id (snd e)) entries.
Proof.
  induction entries as [ | [idx product] rest IH ]; intros log tr log' tr' Hdone.
  - simpl in Hdone. injection Hdone as _ <-. simpl. symmetry. apply app_nil_r.
  - rewrite delete_each_cons in Hdone.
    destruct (delete_product R (listed_id product) tr) as [ [result tr1] | code | ] eqn:Hdel;
      try discriminate Hdone.
    apply delete_product_trace in Hdel. subst tr1. cbv zeta in Hdone.
    destruct (idx <? total_products)%nat; destruct (idx mod 50 =? 0)%nat;
      apply IH in Hdone; rewrite Hdone, !deletes_app; simpl;
      rewrite ?app_nil_r, <- ?app_assoc; reflexivity.
Qed.

Lemma enumerate_from_ids (products : list Listed) : forall start,
  List.map (fun e => listed_id (snd e)) (enumerate_from start products)
  = List.map listed_id products.
Proof.
  induction products as [ | p rest IH ]; intros start; simpl; [ reflexivity | ].
  rewrite IH. reflexivity.
Qed.

End Confirmation.

(** C9.  The confirmation gate.  For every input file, every remote, every
    clock and every operator response other than the exact token [DELETE],
    [delete_products_from_file] ends with the trace it started with: no
    delete request was issued and no deletion log was written.  The token is
    what opens the gate: with [DELETE], a run that finishes has requested the
    deletion of every listed product, in order, and has ended by writing the
    deletion log.  Responses such as [delete], [DELETE] followed by a space,
    or nothing at all leave remote and log untouched. *)
Theorem confirmation_gate :
  (forall (R : Remote) (now : list Event -> string) (file : InputFile)
          (confirmation : string) (tr : list Event),
      confirmation <> "DELETE" ->
      delete_products_from_file R now file confirmation tr = Done tr)
  /\ (forall (R : Remote) (now : list Event -> string) (products : list Listed)
             (tr tr' : list Event),
         delete_products_from_file R now (InputProducts products) "DELETE" tr = Done tr' ->
         deletes tr' = deletes tr ++ List.map listed_id products
         /\ exists before log, tr' = before ++ [EvWriteLog log])
  /\ (delete_products_from_file (catalog_remote []) frozen_clock two_listed "delete" []
      = Done []
      /\ delete_products_from_file (catalog_remote []) frozen_clock two_listed "DELETE " []
         = Done []
      /\ delete_products_from_file (catalog_remote []) frozen_clock two_listed "" []
         = Done []
      /\ exists tr',
           delete_products_from_file (catalog_remote []) frozen_clock two_listed "DELETE" []
           = Done tr'
           /\ deletes tr' = ["gid://shopify/Product/1"; "gid://shopify/Product/2"]
           /\ List.length (written_logs tr') = 1%nat).
Proof.
  split; [ | split ].
  - intros R now file confirmation tr Hne. unfold delete_products_from_file.
    destruct file as [ | | products ]; try reflexivity.
    destruct (String.eqb_spec confirmation "DELETE") as [ Heq | _ ]; [ contradiction | ].
    reflexivity.
  - intros R now products tr tr' Hrun. unfold delete_products_from_file in Hrun.
    simpl in Hrun.
    destruct (delete_each R now (List.length products) (enumerate_from 1 products) _ tr)
      as [ [log tr1] | code | ] eqn:Hloop; try discriminate Hrun.
    injection Hrun as <-. apply delete_each_deletes in Hloop.
    split.
    + rewrite deletes_app, Hloop, enumerate_from_ids. simpl. apply app_nil_r.
    + eexists. eexists. reflexivity.
  - split; [ reflexivity | ].
    split; [ reflexivity | ].
    split; [ reflexivity | ].
    eexists. split; [ vm_compute; reflexivity | ].
    split; reflexivity.
Qed.

Lemma confirmation_gate_witness :
  delete_products_from_file (catalog_remote []) frozen_clock two_listed "yes" [] = Done []
  /\ exists tr',
       delete_products_from_file (catalog_remote []) frozen_clock two_listed "DELETE" []
       = Done tr'
       /\ deletes tr' = ["gid://shopify/Product/1"; "gid://shopify/Product/2"].
Proof.
  destruct confirmation_gate as (Hgate & Hconfirmed & _).
  split.
  - apply (Hgate (catalog_remote []) frozen_clock two_listed "yes" []).
    discriminate.
  - eexists. split; [ vm_compute; reflexivity | ].
    match goal with
    | |- deletes ?tr' = _ =>
        destruct (Hconfirmed (catalog_remote []) frozen_clock
                    [ {| listed_id := "gid://shopify/Product/1"; listed_title := "first";
                         listed_reason := Some "Duplicate SKU tag: 1" |};
                      {| listed_id := "gid://shopify/Product/2"; listed_title := "second";
                         listed_reason := None |} ]
                    [] tr' ltac:(vm_compute; reflexivity)) as [Hdeletes _]
    end.
    rewrite Hdeletes. reflexivity.
Defined.

(* ===================================================================== *)
(** ** Further properties: the delete calls *)
(* ===================================================================== *)

Lemma sleeps_app (a b : list Event) : sleeps (a ++ b) = sleeps a ++ sleeps b.
Proof. unfold sleeps. apply omap_app. Qed.

Lemma submissions_app (a b : list Event) :
  submissions (a ++ b) = submissions a ++ submissions b.
Proof. unfold submissions. apply omap_app. Qed.

(** What the loop adds to the trace: at most one delete request per SKU, at
    least one per counted success, and no sleep. *)
Lemma delete_loop_requests (R : Remote) (skus : list string) : forall acc tr,
  exists new,
    snd (delete_loop R skus acc tr) = tr ++ new
    /\ (successfully_deleted (fst (delete_loop R skus acc tr))
        <= successfully_deleted acc + List.length (deletes new))%nat
    /\ (List.length (deletes new) <= List.length skus)%nat
    /\ sleeps new = [].
Proof.
  induction skus as [ | s rest IH ]; intros acc tr; simpl.
  - exists []. rewrite app_nil_r. repeat split; simpl; lia.
  - pose proof (get_shopify_product_id_trace R s tr) as Htrace.
    destruct (get_shopify_product_id R s tr) as [product_id tr1]. simpl in Htrace. subst tr1.
    assert (Hskip : forall acc',
               successfully_deleted acc' = successfully_deleted acc ->
               exists new,
                 snd (delete_loop R rest acc' (tr ++ [EvLookup s])) = tr ++ new
                 /\ (successfully_deleted (fst (delete_loop R rest acc' (tr ++ [EvLookup s])))
                     <= successfully_deleted acc + List.length (deletes new))%nat
                 /\ (List.length (deletes new) <= S (List.length rest))%nat
                 /\ sleeps new = []).
    { intros acc' Hacc. destruct (IH acc' (tr ++ [EvLookup s])) as (new & Hnew & Hle & Hlen & Hsl).
      exists (EvLookup s :: new). rewrite Hnew, <- app_assoc. simpl.
      repeat split; [ lia | lia | exact Hsl ]. }
    destruct product_id as [ pid | ]; [ | apply Hskip; reflexivity ].
    destruct (truthy pid); [ | apply Hskip; reflexivity ].
    rewrite <- (app_assoc tr [EvLookup s] [EvDelete pid]). simpl app.
    destruct (delete_succeeded _);
      match goal with
      | |- context [delete_loop R rest ?a ?t] =>
          destruct (IH a t) as (new & Hnew & Hle & Hlen & Hsl)
      end;
      exists (EvLookup s :: EvDelete pid :: new);
      rewrite Hnew, <- !app_assoc; simpl in *;
      (repeat split; [ lia | lia | exact Hsl ]).
Qed.

(** X1.  [delete_products_from_shopify]: an empty set makes no remote call
    and no sleep; otherwise the function ends with its single sleep of 0.1
    seconds, issues at most one delete request per SKU, and counts as
    successfully deleted no more products than it sent delete requests
    for. *)
Theorem deletion_requests_bounded (R : Remote) (skus : list string) (tr : list Event) :
  exists new,
    snd (delete_products_from_shopify R skus tr) = tr ++ new
    /\ (successfully_deleted (fst (delete_products_from_shopify R skus tr))
        <= List.length (deletes new))%nat
    /\ (List.length (deletes new) <= List.length skus)%nat
    /\ match skus with
       | [] => new = []
       | _ :: _ => sleeps new = [100] /\ last new = Some (EvSleep 100)
       end.
Proof.
  unfold delete_products_from_shopify. destruct skus as [ | s rest ].
  - exists []. simpl. rewrite app_nil_r. repeat split; lia.
  - destruct (delete_loop_requests R (s :: rest)
                {| successfully_deleted := 0; failed_deletions := 0 |} tr)
      as (new & Hnew & Hle & Hlen & Hsl).
    destruct (delete_loop R (s :: rest) _ tr) as [summary tr']. simpl in *.
    exists (new ++ [EvSleep 100]). rewrite Hnew, <- app_assoc.
    rewrite deletes_app, sleeps_app, Hsl, last_snoc. simpl. rewrite app_nil_r.
    repeat split; assumption.
Qed.

(** X2.  A delete reply that has neither errors nor user errors nor a deleted
    id is read in two ways: [delete_product] of the bulk-delete script reports
    a success (with no deleted id), while the loop of
    [delete_products_from_shopify] counts the same reply as a failed
    deletion. *)
Theorem missing_deleted_id_is_read_both_ways (R : Remote) (pid : string)
    (d : ProductDelete) :
  (forall tr, delete_reply R tr pid = Json (Data d)) ->
  userErrors d = [] ->
  truthy_opt (deletedProductId d) = false ->
  (forall tr,
      delete_product R pid tr
      = Done (DeleteSuccess (deletedProductId d), tr ++ [EvDelete pid]))
  /\ (forall s tr,
         fst (get_shopify_product_id R s tr) = Some pid ->
         truthy pid = true ->
         delete_products_from_shopify R [s] tr
         = ({| successfully_deleted := 0; failed_deletions := 1 |},
            tr ++ [EvLookup s; EvDelete pid; EvSleep 100])).
Proof.
  intros Hreply Hnone Hid. split.
  - intros tr. unfold delete_product. rewrite Hreply, Hnone. reflexivity.
  - intros s tr Hfound Htruthy. unfold delete_products_from_shopify. simpl.
    pose proof (get_shopify_product_id_trace R s tr) as Htrace.
    destruct (get_shopify_product_id R s tr) as [product_id tr1].
    simpl in Htrace, Hfound. subst tr1 product_id. rewrite Htruthy.
    unfold delete_succeeded. rewrite Hreply, Hnone, Hid. simpl.
    rewrite <- !app_assoc. reflexivity.
Qed.

Lemma missing_deleted_id_is_read_both_ways_witness :
  delete_product silent_remote "gid://shopify/Product/A" []
  = Done (DeleteSuccess None, [EvDelete "gid://shopify/Product/A"])
  /\ delete_products_from_shopify silent_remote ["A"] []
     = ({| successfully_deleted := 0; failed_deletions := 1 |},
        [EvLookup "A"; EvDelete "gid://shopify/Product/A"; EvSleep 100]).
Proof.
  destruct (missing_deleted_id_is_read_both_ways silent_remote "gid://shopify/Product/A"
              {| userErrors := []; deletedProductId := None |})
    as [Hfile Hbulk]; try reflexivity.
  split.
  - exact (Hfile []).
  - apply (Hbulk "A" []); reflexivity.
Defined.

(** X3.  An exception that is not a request error, raised by a delete call:
    the loop of [delete_products_from_shopify] counts a failure and goes on
    with the next SKU, while [delete_products_from_file], whose
    [delete_product] catches request errors only, is ended by it: a listed
    product whose delete call raises so ends the run, wherever it stands in
    the file, and the final log is not written. *)
Theorem other_exception_on_delete :
  (forall (R : Remote) (s pid : string) (rest : list string) acc (tr : list Event),
      fst (get_shopify_product_id R s tr) = Some pid ->
      truthy pid = true ->
      delete_reply R (tr ++ [EvLookup s]) pid = OtherException ->
      delete_loop R (s :: rest) acc tr
      = delete_loop R rest
          {| successfully_deleted := successfully_deleted acc;
             failed_deletions := S (failed_deletions acc) |}
          (tr ++ [EvLookup s; EvDelete pid]))
  /\ (forall (R : Remote) (now : list Event -> string) (before : list Listed)
             (product : Listed) (after : list Listed) (tr : list Event),
         (forall tr', delete_reply R tr' (listed_id product) = OtherException) ->
         delete_products_from_file R now (InputProducts (before ++ product :: after))
           "DELETE" tr
         = Uncaught).
Proof.
  split.
  - intros R s pid rest acc tr Hfound Htruthy Hreply. simpl.
    pose proof (get_shopify_product_id_trace R s tr) as Htrace.
    destruct (get_shopify_product_id R s tr) as [product_id tr1].
    simpl in Htrace, Hfound. subst tr1 product_id. rewrite Htruthy.
    unfold delete_succeeded. rewrite Hreply, <- app_assoc. reflexivity.
  - intros R now before product after tr Hraise.
    unfold delete_products_from_file. simpl.
    generalize (List.length (before ++ product :: after)). intros total.
    generalize {| log_started_at := now tr; log_total_products := total;
                  log_successful_deletions := []; log_failed_deletions := [];
                  log_completed_at := None |}.
    generalize 1%nat. revert tr.
    induction before as [ | p rest IH ]; intros tr start log.
    + simpl enumerate_from. rewrite delete_each_cons. unfold delete_product.
      rewrite Hraise. reflexivity.
    + simpl enumerate_from. rewrite delete_each_cons.
      destruct (delete_product R (listed_id p) tr) as [ [result tr1] | code | ] eqn:Hdel;
        [ | | reflexivity ].
      * cbv zeta.
        destruct (start <? total)%nat; destruct (start mod 50 =? 0)%nat;
          match goal with
          | |- match delete_each R now total _ ?l ?t with _ => _ end = _ =>
              specialize (IH t (S start) l);
              destruct (delete_each R now total
                          (enumerate_from (S start) (rest ++ product :: after)) l t)
                as [ [log' tr'] | code | ];
              try discriminate IH; reflexivity
          end.
      * exfalso. unfold delete_product in Hdel.
        destruct (delete_reply R tr (listed_id p)) as [ | | [ | d ] ];
          try discriminate Hdel.
        destruct (userErrors d); discriminate Hdel.
Qed.

Lemma other_exception_on_delete_witness :
  delete_products_from_file broken_remote frozen_clock two_listed "DELETE" [] = Uncaught
  /\ delete_loop broken_remote ["A"; "B"]
       {| successfully_deleted := 0; failed_deletions := 0 |} []
     = delete_loop broken_remote ["B"]
         {| successfully_deleted := 0; failed_deletions := 1 |}
         ([] ++ [EvLookup "A"; EvDelete "gid://shopify/Product/A"]).
Proof.
  destruct other_exception_on_delete as [Hloop Hfile].
  split.
  - apply (Hfile broken_remote frozen_clock []
             {| listed_id := "gid://shopify/Product/1"; listed_title := "first";
                listed_reason := Some "Duplicate SKU tag: 1" |}
             [ {| listed_id := "gid://shopify/Product/2"; listed_title := "second";
                  listed_reason := None |} ] []).
    intros tr'. reflexivity.
  - apply (Hloop broken_remote "A" "gid://shopify/Product/A" ["B"]
             {| successfully_deleted := 0; failed_deletions := 0 |} []); reflexivity.
Defined.

(* ===================================================================== *)
(** ** Further properties: image sources and variant SKUs of a record *)
(* ===================================================================== *)

Lemma split_head_clean (c : ascii) (s : string) :
  contains_char c (split_head c s) = false.
Proof.
  induction s as [ | a rest IH ]; simpl; [ reflexivity | ].
  destruct (Ascii.eqb a c) eqn:Hac; simpl; [ reflexivity | ].
  rewrite Hac. exact IH.
Qed.

Lemma split_head_unchanged (c : ascii) (s : string) :
  contains_char c s = false -> split_head c s = s.
Proof.
  induction s as [ | a rest IH ]; simpl; [ reflexivity | ].
  destruct (Ascii.eqb a c); simpl; [ discriminate | ].
  intros Hrest. rewrite IH by exact Hrest. reflexivity.
Qed.

Lemma split_head_prefix (c : ascii) (s : string) :
  String.prefix (split_head c s) s = true.
Proof.
  induction s as [ | a rest IH ]; simpl; [ reflexivity | ].
  destruct (Ascii.eqb a c); simpl; [ reflexivity | ].
  destruct (ascii_dec a a) as [ _ | Hne ]; [ exact IH | contradiction ].
Qed.

Section Lines.

Context {PF : PyFloat}.

Lemma update_files_sources (product : Product) (imgs : list string) : forall start,
  omap (json_string "originalSource")
    (List.map (update_file product) (enumerate_from start imgs))
  = List.map (split_head "?") imgs.
Proof.
  induction imgs as [ | img rest IH ]; intros start; simpl; [ reflexivity | ].
  f_equal. apply IH.
Qed.

Lemma create_files_sources (product : Product) (imgs : list string) : forall start,
  omap (json_string "originalSource")
    (List.map (create_file product) (enumerate_from start imgs))
  = List.map (split_head "?") imgs.
Proof.
  induction imgs as [ | img rest IH ]; intros start; simpl; [ reflexivity | ].
  f_equal. apply IH.
Qed.

Lemma update_variants_skus (product : Product) (vs : list Variant) :
  omap (json_string "sku") (List.map (update_variant product) vs)
  = List.map (fun _ => split_head "_" (sku product)) vs.
Proof.
  induction vs as [ | v rest IH ]; simpl; [ reflexivity | ].
  f_equal. apply IH.
Qed.

Lemma create_variants_skus (product : Product) (vs : list Variant) :
  omap (json_string "sku") (List.map (create_variant product) vs)
  = List.map (fun _ => split_head "_" (sku product)) vs.
Proof.
  induction vs as [ | v rest IH ]; simpl; [ reflexivity | ].
  f_equal. apply IH.
Qed.

End Lines.

(** X4.  In an encoded record, update or create alike, the files are the
    images of the product in order, each with its query string removed: no
    [originalSource] contains a question mark, each is a prefix of the image
    URL it comes from, and a URL without a question mark is passed on
    unchanged.  Every variant of the record carries the same [sku], the part
    of the product identifier before its first underscore, which therefore
    contains no underscore. *)
Theorem encoded_sources_and_skus `{PF : PyFloat} (product : Product) (shopify_id : string) :
  file_sources (update_line product shopify_id)
  = List.map (split_head "?") (images product)
  /\ file_sources (create_line product) = List.map (split_head "?") (images product)
  /\ Forall (fun src => contains_char "?" src = false)
       (file_sources (create_line product))
  /\ Forall2 (fun src img =>
                String.prefix src img = true
                /\ (contains_char "?" img = false -> src = img))
       (file_sources (create_line product)) (images product)
  /\ variant_skus (update_line product shopify_id)
     = List.map (fun _ => split_head "_" (sku product)) (variants product)
  /\ variant_skus (create_line product)
     = List.map (fun _ => split_head "_" (sku product)) (variants product)
  /\ contains_char "_" (split_head "_" (sku product)) = false
  /\ String.prefix (split_head "_" (sku product)) (sku product) = true.
Proof.
  assert (Hcreate : file_sources (create_line product)
                    = List.map (split_head "?") (images product)).
  { unfold file_sources, input_list. simpl. apply create_files_sources. }
  split; [ unfold file_sources, input_list; simpl; apply update_files_sources | ].
  split; [ exact Hcreate | ].
  split.
  { rewrite Hcreate. apply Forall_forall. intros src Hsrc.
    apply list_elem_of_In, in_map_iff in Hsrc as (img & <- & _). apply split_head_clean. }
  split.
  { rewrite Hcreate. clear Hcreate.
    induction (images product) as [ | img rest IH ]; simpl; constructor.
    - split; [ apply split_head_prefix | apply split_head_unchanged ].
    - exact IH. }
  split; [ unfold variant_skus, input_list; simpl; apply update_variants_skus | ].
  split; [ unfold variant_skus, input_list; simpl; apply create_variants_skus | ].
  split; [ apply split_head_clean | apply split_head_prefix ].
Qed.

(** X5.  [get_product_images]: the images of the description are returned
    unchanged when there are some and they are not the single placeholder
    [?v=1]; in every other case the images scraped from the page are
    returned, none of which contains a question mark.  The result is never
    the placeholder list. *)
Theorem product_images_fallback (description_images : option (list string))
    (data_srcs : list (option string)) :
  get_product_images description_images data_srcs <> ["?v=1"]
  /\ Forall (fun image => contains_char "?" image = false)
       (scrape_images_from_html data_srcs)
  /\ get_product_images None data_srcs = scrape_images_from_html data_srcs
  /\ get_product_images (Some []) data_srcs = scrape_images_from_html data_srcs
  /\ get_product_images (Some ["?v=1"]) data_srcs = scrape_images_from_html data_srcs
  /\ (forall first second others,
         get_product_images (Some (first :: second :: others)) data_srcs
         = first :: second :: others)
  /\ (forall only,
         only <> "?v=1" -> get_product_images (Some [only]) data_srcs = [only]).
Proof.
  assert (Hclean : Forall (fun image => contains_char "?" image = false)
                     (scrape_images_from_html data_srcs)).
  { unfold scrape_images_from_html. apply Forall_forall. intros image Himage.
    apply list_elem_of_In, in_map_iff in Himage as (src & <- & _).
    destruct (contains_char "?" src) eqn:Hsrc; [ apply split_head_clean | exact Hsrc ]. }
  assert (Hscraped : scrape_images_from_html data_srcs <> ["?v=1"]).
  { intros Heq. rewrite Heq in Hclean. apply Forall_cons in Hclean as [Hbad _].
    discriminate Hbad. }
  split.
  { unfold get_product_images. destruct description_images as [ images | ]; [ | exact Hscraped ].
    destruct (unusable_images images) eqn:Hun; [ exact Hscraped | ].
    intros Heq. rewrite Heq in Hun. discriminate Hun. }
  split; [ exact Hclean | ].
  split; [ reflexivity | ].
  split; [ reflexivity | ].
  split; [ reflexivity | ].
  split; [ intros first second others; reflexivity | ].
  intros only Hne. unfold get_product_images, unusable_images. simpl.
  destruct (String.eqb_spec only "?v=1") as [ Heq | _ ]; [ contradiction | reflexivity ].
Qed.

Lemma product_images_fallback_witness :
  get_product_images (Some ["https://i8.amplience.net/i/jpl/a?w=700"]) [Some "x?y"]
  = ["https://i8.amplience.net/i/jpl/a?w=700"].
Proof.
  apply (proj2 (proj2 (proj2 (proj2 (proj2 (proj2
           (product_images_fallback None [Some "x?y"]))))))).
  discriminate.
Defined.

(* ===================================================================== *)
(** ** Further properties: waiting, submitting, uploading *)
(* ===================================================================== *)

Lemma check_bulk_operation_status_trace (R : Remote) (tr : list Event) :
  snd (check_bulk_operation_status R tr) = tr ++ [EvStatus].
Proof.
  unfold check_bulk_operation_status.
  destruct (status_reply R tr) as [ | | [ | op ] ]; reflexivity.
Qed.

(** What a wait that returns has added to the trace. *)
Lemma wait_shape (R : Remote) (check_interval : Z) (fuel : nat) :
  forall tr tr',
  wait_for_bulk_operation_completion fuel R check_interval tr = Some tr' ->
  exists new,
    tr' = tr ++ new
    /\ Forall (wait_event check_interval) new
    /\ status_queries new = S (List.length (sleeps new))
    /\ last new = Some EvStatus
    /\ deletes new = [] /\ lookups new = [] /\ submissions new = [].
Proof.
  induction fuel as [ | fuel IH ]; intros tr tr' Hwait; [ discriminate Hwait | ].
  rewrite wait_step in Hwait.
  pose proof (check_bulk_operation_status_trace R tr) as Htrace.
  destruct (check_bulk_operation_status R tr) as [status_info tr1].
  simpl in Htrace. subst tr1.
  assert (Hstop : Some (tr ++ [EvStatus]) = Some tr' ->
                  exists new,
                    tr' = tr ++ new
                    /\ Forall (wait_event check_interval) new
                    /\ status_queries new = S (List.length (sleeps new))
                    /\ last new = Some EvStatus
                    /\ deletes new = [] /\ lookups new = [] /\ submissions new = []).
  { intros Heq. injection Heq as <-. exists [EvStatus].
    repeat split; try reflexivity. constructor; [ left; reflexivity | constructor ]. }
  assert (Hgo : wait_for_bulk_operation_completion fuel R check_interval
                  ((tr ++ [EvStatus]) ++ [EvSleep (check_interval * 1000)]) = Some tr' ->
                exists new,
                  tr' = tr ++ new
                  /\ Forall (wait_event check_interval) new
                  /\ status_queries new = S (List.length (sleeps new))
                  /\ last new = Some EvStatus
                  /\ deletes new = [] /\ lookups new = [] /\ submissions new = []).
  { intros Hrest. apply IH in Hrest
      as (new & -> & Hall & Hcount & Hlast & Hdel & Hlook & Hsub).
    exists (EvStatus :: EvSleep (check_interval * 1000) :: new).
    rewrite <- !app_assoc. simpl.
    split; [ reflexivity | ].
    split; [ constructor; [ left; reflexivity | constructor; [ right; reflexivity | exact Hall ] ] | ].
    split; [ unfold status_queries in *; simpl; rewrite Hcount; reflexivity | ].
    split.
    { destruct new as [ | e rest ]; [ discriminate Hlast | exact Hlast ]. }
    repeat split; assumption. }
  destruct status_info as [ info | ]; [ | exact (Hstop Hwait) ].
  destruct (terminal_status (status info)); [ exact (Hstop Hwait) | ].
  destruct (active_status (status info)); exact (Hgo Hwait).
Qed.


(** X6.  Whenever [wait_for_bulk_operation_completion] returns, all it has
    done is query the job status and sleep the interval: it made exactly one
    more status query than sleeps, the last thing it did is a status query,
    and it issued no lookup, no delete and no submission. *)
Theorem wait_only_polls (R : Remote) (check_interval : Z) (fuel : nat)
    (tr tr' : list Event) :
  wait_for_bulk_operation_completion fuel R check_interval tr = Some tr' ->
  exists new,
    tr' = tr ++ new
    /\ Forall (wait_event check_interval) new
    /\ status_queries new = S (List.length (sleeps new))
    /\ last new = Some EvStatus
    /\ deletes new = [] /\ lookups new = [] /\ submissions new = [].
Proof. apply wait_shape. Qed.

Lemma wait_only_polls_witness :
  exists new,
    [ EvStatus; EvSleep 120000; EvStatus; EvSleep 120000; EvStatus; EvSleep 120000; EvStatus ]
    = [] ++ new
    /\ status_queries new = S (List.length (sleeps new)).
Proof.
  destruct (wait_only_polls (busy_remote 3) 120 4 []
              [ EvStatus; EvSleep 120000; EvStatus; EvSleep 120000;
                EvStatus; EvSleep 120000; EvStatus ] eq_refl)
    as (new & Hnew & _ & Hcount & _).
  exists new. split; assumption.
Defined.



Lemma queued_submission_shape (R : Remote) (fuel : nat) (path : string)
    (tr tr' : list Event) (data : option (Graphql BulkOperationRunMutation)) :
  run_bulk_product_set_with_queue fuel R path tr = Some (data, tr') ->
  submissions tr' = submissions tr ++ [path] /\ last tr' = Some (EvSubmit path).
Proof.
  unfold run_bulk_product_set_with_queue. intros Hrun.
  destruct (wait_for_bulk_operation_completion fuel R 120 tr) as [ tr1 | ] eqn:Hwait;
    [ | discriminate Hrun ].
  apply wait_shape in Hwait as (new & -> & _ & _ & _ & _ & _ & Hsub).
  assert (Htrace : tr' = (tr ++ new) ++ [EvSubmit path]).
  { destruct (submit_reply R (tr ++ new) path); injection Hrun as _ <-; reflexivity. }
  subst tr'. rewrite !submissions_app, Hsub, last_snoc. simpl. rewrite app_nil_r.
  split; reflexivity.
Qed.

(** X8.  [run_bulk_product_set_with_queue] that returns has posted the bulk
    mutation exactly once, as the last thing it did, for the path it was
    given; a submission that raises is not repeated (the value is then
    [None]), and no lookup or delete is issued on the way. *)
Theorem queued_submission_is_posted_once (R : Remote) (fuel : nat) (path : string)
    (tr tr' : list Event) (data : option (Graphql BulkOperationRunMutation)) :
  run_bulk_product_set_with_queue fuel R path tr = Some (data, tr') ->
  submissions tr' = submissions tr ++ [path]
  /\ last tr' = Some (EvSubmit path)
  /\ deletes tr' = deletes tr
  /\ lookups tr' = lookups tr
  /\ exists before,
       tr' = before ++ [EvSubmit path]
       /\ (data = None
           <-> submit_reply R before path = RequestException
               \/ submit_reply R before path = OtherException).
Proof.
  unfold run_bulk_product_set_with_queue. intros Hrun.
  destruct (wait_for_bulk_operation_completion fuel R 120 tr) as [ tr1 | ] eqn:Hwait;
    [ | discriminate Hrun ].
  apply wait_shape in Hwait as (new & -> & _ & _ & _ & Hdel & Hlook & Hsub).
  assert (Htrace : tr' = (tr ++ new) ++ [EvSubmit path]).
  { destruct (submit_reply R (tr ++ new) path); injection Hrun as _ <-; reflexivity. }
  subst tr'.
  rewrite !submissions_app, !deletes_app, !lookups_app, Hsub, Hdel, Hlook, last_snoc.
  simpl. rewrite !app_nil_r.
  repeat split.
  exists (tr ++ new). split; [ reflexivity | ].
  destruct (submit_reply R (tr ++ new) path) as [ | | body ];
    injection Hrun as <-; split; intros H; try reflexivity; try discriminate H; auto.
  destruct H as [ H | H ]; discriminate H.
Qed.

Lemma queued_submission_is_posted_once_witness :
  submissions
    [ EvStatus; EvSleep 120000; EvStatus; EvSleep 120000; EvStatus; EvSleep 120000;
      EvStatus; EvSubmit "tmp/products.jsonl" ]
  = submissions [] ++ ["tmp/products.jsonl"].
Proof.
  apply (queued_submission_is_posted_once (busy_remote 3) 4 "tmp/products.jsonl" []
           _ (Some (Data {| run_userErrors := [];
                            bulkOperation := Some (job "CREATED") |}))).
  reflexivity.
Defined.

(** X9.  The end of a run.  A bulk job is submitted only when at least one
    record was scraped, the staged upload was created and the upload gave a
    non-empty key; the path submitted is that key, and it is submitted once.
    In every other finished case nothing is done to the bulk queue: not even
    the status is queried.  A reply of [stagedUploadsCreate] without any
    staged target ends the run with an uncaught exception. *)
Theorem submission_needs_upload (fuel : nat) (R : Remote) (all_products : list Product)
    (staged_reply : Post (Graphql (list StagedTarget))) (upload : Upload)
    (tr : list Event) :
  (forall tr',
      upload_and_submit fuel R all_products staged_reply upload tr = Some (Done tr') ->
      tr' = tr
      \/ exists staged path,
           all_products <> []
           /\ create_staged_upload staged_reply = Done (Some staged)
           /\ upload_to_staged_url staged upload = Some path
           /\ truthy path = true
           /\ submissions tr' = submissions tr ++ [path]
           /\ last tr' = Some (EvSubmit path))
  /\ (all_products = [] ->
      upload_and_submit fuel R all_products staged_reply upload tr = Some (Done tr))
  /\ (all_products <> [] ->
      staged_reply = Json (Data []) ->
      upload_and_submit fuel R all_products staged_reply upload tr = Some Uncaught)
  /\ (forall staged,
         all_products <> [] ->
         create_staged_upload staged_reply = Done (Some staged) ->
         truthy_opt (upload_to_staged_url staged upload) = false ->
         upload_and_submit fuel R all_products staged_reply upload tr = Some (Done tr)).
Proof.
  split; [ | split; [ | split ] ].
  - intros tr' Hrun. unfold upload_and_submit in Hrun.
    destruct all_products as [ | p rest ]; [ injection Hrun as <-; left; reflexivity | ].
    destruct (create_staged_upload staged_reply) as [ [ staged | ] | code | ] eqn:Hstaged;
      try discriminate Hrun; [ | injection Hrun as <-; left; reflexivity ].
    destruct (upload_to_staged_url staged upload) as [ path | ] eqn:Hupload; simpl in Hrun;
      [ | injection Hrun as <-; left; reflexivity ].
    destruct (truthy path) eqn:Htruthy; [ | injection Hrun as <-; left; reflexivity ].
    destruct (run_bulk_product_set_with_queue fuel R path tr) as [ [data tr1] | ] eqn:Hbulk;
      [ | discriminate Hrun ].
    injection Hrun as <-. right. exists staged, path.
    destruct (queued_submission_shape R fuel path tr tr1 data Hbulk) as [Hsub Hlast].
    repeat split; try assumption. discriminate.
  - intros ->. reflexivity.
  - intros Hne ->. unfold upload_and_submit.
    destruct all_products; [ contradiction | reflexivity ].
  - intros staged Hne Hstaged Hkey. unfold upload_and_submit.
    destruct all_products; [ contradiction | ].
    rewrite Hstaged, Hkey. reflexivity.
Qed.

Lemma submission_needs_upload_witness :
  upload_and_submit 4 (busy_remote 3) [] (Json (Data [staged_sample]))
    (UploadResponse 201 (BodyKey (Some "tmp/1/bulk/products.jsonl"))) []
  = Some (Done [])
  /\ upload_and_submit 4 (busy_remote 3) [sample_product "B" "250" ""] (Json (Data []))
       (UploadResponse 201 (BodyKey (Some "tmp/1/bulk/products.jsonl"))) []
     = Some Uncaught
  /\ upload_and_submit 4 (busy_remote 3) [sample_product "B" "250" ""]
       (Json (Data [staged_sample])) (UploadResponse 403 BodyUnparsable) []
     = Some (Done [])
  /\ ([ EvStatus; EvSubmit "tmp/1/bulk/products.jsonl" ] = []
      \/ exists staged path,
           [sample_product "B" "250" ""] <> []
           /\ create_staged_upload (Json (Data [staged_sample])) = Done (Some staged)
           /\ upload_to_staged_url staged (UploadResponse 200 BodyWithoutKey) = Some path
           /\ truthy path = true
           /\ submissions [ EvStatus; EvSubmit "tmp/1/bulk/products.jsonl" ]
              = submissions [] ++ [path]
           /\ last [ EvStatus; EvSubmit "tmp/1/bulk/products.jsonl" ]
              = Some (EvSubmit path)).
Proof.
  split; [ | split; [ | split ] ].
  - apply (proj1 (proj2 (submission_needs_upload 4 (busy_remote 3) [] _ _ []))).
    reflexivity.
  - apply (proj1 (proj2 (proj2 (submission_needs_upload 4 (busy_remote 3)
                                  [sample_product "B" "250" ""] _ _ []))));
      [ discriminate | reflexivity ].
  - apply (proj2 (proj2 (proj2 (submission_needs_upload 4 (busy_remote 3)
                                  [sample_product "B" "250" ""] _ _ []))) staged_sample);
      [ discriminate | reflexivity | reflexivity ].
  - apply (proj1 (submission_needs_upload 1 (catalog_remote [])
                    [sample_product "B" "250" ""] (Json (Data [staged_sample]))
                    (UploadResponse 200 BodyWithoutKey) [])).
    reflexivity.
Defined.

(* ===================================================================== *)
(** ** Further properties: the scrape *)
(* ===================================================================== *)




Lemma scrape_items_count (items : list Item) : forall st,
  (List.length (all_product_data (fold_left scrape_item items st))
   <= List.length (all_product_data st) + List.length items)%nat.
Proof.
  induction items as [ | item rest IH ]; intros st; simpl; [ lia | ].
  etransitivity; [ apply IH | ].
  unfold scrape_item. destruct (plu_seen item (current_jd_skus st)); [ lia | ].
  destruct (page item); simpl; [ lia | rewrite length_app; simpl; lia ].
Qed.

(** X11.  First listing wins.  An item whose PLU was already seen in the
    scrape changes nothing: its product page is not fetched, and no record,
    identifier or failure is added.  There are never more records than listed
    items, and when every scraped record carries the identifier it is listed
    under, the records have pairwise distinct identifiers. *)
Theorem repeated_plu_is_skipped `{PF : PyFloat} :
  (forall (items : list Item) (item : Item) (st : Scrape) (k : string),
      item_id item = Some k ->
      k ∈ current_jd_skus (fold_left scrape_item items st) ->
      fold_left scrape_item (items ++ [item]) st = fold_left scrape_item items st)
  /\ (forall (R : Remote) (file : StoreFile) (urls : list UrlFetch) (run : Run),
         fetch_total_product_counts R file urls = Done run ->
         (List.length (all_product_data (scraped run))
          <= List.length (listed_items urls))%nat
         /\ (Forall consistent (listed_items urls) ->
             NoDup (List.map sku (all_product_data (scraped run))))).
Proof.
  split.
  - intros items item st k Hid Hseen. rewrite fold_left_app. simpl.
    unfold scrape_item, plu_seen. unfold item_id in Hid.
    destruct (plu item) as [ p | ]; [ | discriminate Hid ].
    destruct (truthy p); [ | discriminate Hid ]. injection Hid as ->.
    rewrite bool_decide_eq_true_2 by exact Hseen. reflexivity.
  - intros R file urls run Hrun.
    destruct (run_fields R file urls run Hrun) as (Hscrape & _).
    pose proof (scrape_urls_fold urls _ _ Hscrape) as Hfold.
    split.
    + rewrite Hfold. apply (scrape_items_count (listed_items urls) scrape_start).
    + intros Hcons. rewrite Hfold.
      apply scrape_items_distinct; [ exact Hcons | ].
      simpl. split; [ apply NoDup_nil_2 | unfold ids_of; simpl; set_solver ].
Qed.

Lemma repeated_plu_is_skipped_witness :
  fold_left scrape_item ([listed "B"; listed "C"] ++ [timed_out "B"]) scrape_start
  = fold_left scrape_item [listed "B"; listed "C"] scrape_start
  /\ exists run,
       @fetch_total_product_counts integer_prices
         (catalog_remote []) FileNotFound scrape_B_twice = Done run
       /\ NoDup (List.map sku (all_product_data (scraped run))).
Proof.
  destruct (@repeated_plu_is_skipped integer_prices) as [Hskip Hrun].
  split.
  - apply (Hskip [listed "B"; listed "C"] (timed_out "B") scrape_start "B").
    + reflexivity.
    + rewrite scrape_items_current. apply elem_of_union_r, elem_of_list_to_set.
      simpl. apply list_elem_of_here.
  - eexists. split; [ vm_compute; reflexivity | ].
    match goal with
    | |- NoDup (List.map sku (all_product_data (scraped ?run))) =>
        destruct (Hrun (catalog_remote []) FileNotFound scrape_B_twice run
                    ltac:(vm_compute; reflexivity)) as [_ Hnodup]
    end.
    apply Hnodup. repeat constructor.
Defined.

(** X12.  A listed identifier is never selected for deletion in the run that
    lists it, whatever becomes of its product page: skipped, timed out or
    scraped, the identifier is in [current_jd_skus], and the deletions are
    taken outside that set. *)
Theorem listed_identifier_is_not_deleted `{PF : PyFloat} (R : Remote) (file : StoreFile)
    (urls : list UrlFetch) (run : Run) (item : Item) (k : string) :
  fetch_total_product_counts R file urls = Done run ->
  item ∈ listed_items urls ->
  item_id item = Some k ->
  k ∈ current_jd_skus (scraped run)
  /\ (k ∉ skus_to_delete run)
  /\ (k ∉ lookups (deletion_trace run)).
Proof.
  intros Hrun Hitem Hid.
  destruct (run_fields R file urls run Hrun) as (Hscrape & _ & Hdel & Hdeleted & _).
  pose proof (scrape_urls_current urls _ Hscrape) as Hcurrent.
  assert (Hk : k ∈ current_jd_skus (scraped run)).
  { rewrite Hcurrent. unfold currentIds. apply elem_of_list_to_set.
    apply list_elem_of_omap. exists item. split; assumption. }
  assert (Hnot : k ∉ skus_to_delete run).
  { rewrite Hdel. set_solver. }
  split; [ exact Hk | ].
  split; [ exact Hnot | ].
  pose proof (delete_products_lookups R (elements (skus_to_delete run)) []) as Hlook.
  rewrite <- Hdeleted in Hlook. simpl in Hlook. rewrite Hlook.
  rewrite elem_of_elements. exact Hnot.
Qed.

Lemma listed_identifier_is_not_deleted_witness :
  exists run,
    @fetch_total_product_counts integer_prices
      (catalog_remote ["A"; "B"; "C"]) (stored ["A"; "B"; "C"]) scrape_A_timed_out
    = Done run
    /\ "A" ∉ skus_to_delete run.
Proof.
  eexists. split; [ vm_compute; reflexivity | ].
  match goal with
  | |- _ ∉ skus_to_delete ?run =>
      destruct (@listed_identifier_is_not_deleted integer_prices
                  (catalog_remote ["A"; "B"; "C"]) (stored ["A"; "B"; "C"])
                  scrape_A_timed_out run (timed_out "A") "A"
                  ltac:(vm_compute; reflexivity)) as (_ & Hnot & _)
  end.
  - apply list_elem_of_here.
  - reflexivity.
  - exact Hnot.
Defined.

(* ===================================================================== *)
(** ** Further properties: runs and the identity store *)
(* ===================================================================== *)

Section ClassifyAll.

Variable R : Remote.
Variable processed_skus : gmap string Processed.

(** The classification looks up the records whose identifier is a key of
    the store, once each and in order, and does nothing else. *)
Lemma classify_all_requests (product_list : list Product) : forall tr,
  snd (classify_all R processed_skus product_list tr)
  = tr ++ List.map EvLookup (List.filter (known processed_skus) (List.map sku product_list)).
Proof.
  induction product_list as [ | product rest IH ]; intros tr; simpl.
  - symmetry. apply app_nil_r.
  - pose proof (classify_spec R processed_skus product tr) as Hspec.
    destruct (classify R processed_skus product tr) as [decision tr1].
    specialize (IH tr1).
    destruct (classify_all R processed_skus rest tr1) as [[us cs] tr2]. simpl in IH.
    unfold known at 1.
    destruct decision as [ p sid | p ]; simpl.
    + destruct Hspec as (_ & Hkey & _ & _ & ->).
      rewrite bool_decide_eq_true_2 by exact Hkey. simpl.
      rewrite IH, <- app_assoc. reflexivity.
    + destruct Hspec as (_ & [ [Hnone ->] | (Hkey & _ & ->) ]).
      * rewrite bool_decide_eq_false_2; [ exact IH | ].
        rewrite Hnone. intros [x Hx]. discriminate Hx.
      * rewrite bool_decide_eq_true_2 by exact Hkey. simpl.
        rewrite IH, <- app_assoc. reflexivity.
Qed.

(** When no identifier of the list is a key, everything is created and the
    remote is not consulted. *)
Lemma classify_all_fresh (product_list : list Product) : forall tr,
  (forall p, p ∈ product_list -> processed_skus !! sku p = None) ->
  classify_all R processed_skus product_list tr = ([], product_list, tr).
Proof.
  induction product_list as [ | product rest IH ]; intros tr Hnone; simpl.
  - reflexivity.
  - unfold classify. rewrite (Hnone product (list_elem_of_here _ _)).
    rewrite IH; [ reflexivity | ].
    intros p Hp. apply Hnone. apply list_elem_of_further. exact Hp.
Qed.


End ClassifyAll.


(** X13.  [generate_product_jsonl] consults the remote for exactly the
    records whose identifier is a key of the store it is given: one lookup
    each, in the order of the records, and no other request. *)
Theorem classification_looks_up_known_records `{PF : PyFloat} (R : Remote)
    (product_list : list Product) (processed_skus : gmap string Processed)
    (tr : list Event) :
  snd (generate_product_jsonl R product_list processed_skus tr)
  = tr ++ List.map EvLookup
            (List.filter (known processed_skus) (List.map sku product_list)).
Proof.
  unfold generate_product_jsonl.
  pose proof (classify_all_requests R processed_skus product_list tr) as Hreq.
  destruct (classify_all R processed_skus product_list tr) as [[us cs] tr'].
  exact Hreq.
Qed.

(** X14.  Starting fresh.  When [processed_skus.json] is missing or is not
    valid JSON, the run behaves as with an empty store: nothing is selected
    for deletion, the remote is not consulted at all, and every scraped record
    is written as a create. *)
Theorem unreadable_store_starts_fresh `{PF : PyFloat} (R : Remote) (file : StoreFile)
    (urls : list UrlFetch) (run : Run) :
  file = FileNotFound \/ file = JSONDecodeError ->
  fetch_total_product_counts R file urls = Done run ->
  skus_to_delete run = ∅
  /\ run_trace run = []
  /\ updates (generated run) = []
  /\ creates (generated run) = all_product_data (scraped run)
  /\ products_jsonl (generated run)
     = List.map create_line (all_product_data (scraped run))
  /\ saved run = latest_of (all_product_data (scraped run)).
Proof.
  intros Hfile Hrun.
  destruct (run_fields R file urls run Hrun)
    as (_ & Hloaded & Hdel & Hdeleted & Hpruned & Hgen & Hsaved).
  assert (Hempty : loaded run = ∅).
  { rewrite Hloaded. destruct Hfile as [ -> | -> ]; reflexivity. }
  assert (Hnone : skus_to_delete run = ∅).
  { rewrite Hdel, Hempty, dom_empty_L. set_solver. }
  rewrite Hnone, elements_empty in Hdeleted, Hpruned. simpl in Hdeleted, Hpruned.
  injection Hdeleted as _ Htrace.
  unfold generate_product_jsonl in Hgen.
  rewrite classify_all_fresh in Hgen.
  - injection Hgen as Hgenerated Hrun_trace.
    rewrite Hgenerated, Hrun_trace, Htrace. simpl.
    repeat split; try reflexivity; assumption.
  - intros p _. rewrite Hpruned, Hempty. apply lookup_empty.
Qed.

Lemma unreadable_store_starts_fresh_witness :
  exists run,
    @fetch_total_product_counts integer_prices unreachable_remote JSONDecodeError scrape_BCD
    = Done run
    /\ run_trace run = []
    /\ creates (generated run) = all_product_data (scraped run).
Proof.
  eexists. split; [ vm_compute; reflexivity | ].
  match goal with
  | |- run_trace ?run = _ /\ _ =>
      destruct (@unreadable_store_starts_fresh integer_prices unreachable_remote
                  JSONDecodeError scrape_BCD run (or_intror eq_refl)
                  ltac:(vm_compute; reflexivity)) as (_ & Htrace & _ & Hcreates & _)
  end.
  split; assumption.
Defined.



(** X16.  An identifier that a run did not save (no record with it was
    scraped, for instance because its product page was skipped) is new to the
    next run: a record scraped under it is written as a create, and the
    remote catalog is not asked about it, neither for a deletion nor for
    an update, even when the product exists there. *)
Theorem unsaved_identifier_is_created_again `{PF : PyFloat} (R1 R2 : Remote)
    (file : StoreFile) (urls1 urls2 : list UrlFetch) (run1 run2 : Run) (p : Product) :
  fetch_total_product_counts R1 file urls1 = Done run1 ->
  sku p ∉ ids_of (all_product_data (scraped run1)) ->
  fetch_total_product_counts R2 (saved_file run1) urls2 = Done run2 ->
  p ∈ all_product_data (scraped run2) ->
  p ∈ creates (generated run2) /\ (sku p ∉ lookups (run_trace run2)).
Proof.
  intros Hrun1 Hunsaved Hrun2 Hp.
  destruct (run_fields R1 file urls1 run1 Hrun1) as (_ & _ & _ & _ & _ & _ & Hsaved1).
  destruct (run_fields R2 (saved_file run1) urls2 run2 Hrun2)
    as (_ & Hloaded2 & Hdel2 & Hdeleted2 & Hpruned2 & Hgen2 & _).
  assert (Hdom : dom (loaded run2) = ids_of (all_product_data (scraped run1))).
  { rewrite Hloaded2. unfold saved_file. simpl. rewrite Hsaved1.
    unfold latest_of. rewrite dom_latest_from, dom_empty_L. set_solver. }
  assert (Hnone : pruned run2 !! sku p = None).
  { apply not_elem_of_dom. rewrite Hpruned2, dom_delete_all, Hdom. set_solver. }
  pose proof (classify_all_unknown R2 (pruned run2) (all_product_data (scraped run2))
                (deletion_trace run2) p Hp Hnone) as Hcreate.
  pose proof (classify_all_requests R2 (pruned run2) (all_product_data (scraped run2))
                (deletion_trace run2)) as Hreq.
  pose proof (delete_products_lookups R2 (elements (skus_to_delete run2)) []) as Hlook.
  rewrite <- Hdeleted2 in Hlook. simpl in Hlook.
  unfold generate_product_jsonl in Hgen2.
  destruct (classify_all R2 (pruned run2) (all_product_data (scraped run2))
              (deletion_trace run2)) as [[us cs] tr2].
  injection Hgen2 as -> ->. simpl in *.
  split; [ exact Hcreate | ].
  rewrite Hreq, lookups_app, Hlook. intros Hin.
  apply elem_of_app in Hin as [ Hin | Hin ].
  - apply elem_of_elements in Hin. rewrite Hdel2, Hdom in Hin. set_solver.
  - assert (Hself : forall l, lookups (List.map EvLookup l) = l).
    { induction l as [ | x l IH ]; simpl; [ reflexivity | ]. f_equal. exact IH. }
    rewrite Hself in Hin.
    apply list_elem_of_In, filter_In in Hin as [_ Hknown].
    unfold known in Hknown. apply bool_decide_eq_true_1 in Hknown.
    rewrite Hnone in Hknown. destruct Hknown as [x Hx]. discriminate Hx.
Qed.

Lemma unsaved_identifier_is_created_again_witness :
  exists run1 run2,
    @fetch_total_product_counts integer_prices
      (catalog_remote ["A"; "B"]) (stored ["A"; "B"]) scrape_A_timed_out = Done run1
    /\ @fetch_total_product_counts integer_prices
         (catalog_remote ["A"; "B"]) (saved_file run1) scrape_AB = Done run2
    /\ sample_product "A" "250" "" ∈ creates (generated run2).
Proof.
  eexists. eexists. split; [ vm_compute; reflexivity | ].
  match goal with
  | |- fetch_total_product_counts _ (saved_file ?r1) _ = _ /\ _ => set (run1 := r1)
  end.
  split; [ vm_compute; reflexivity | ].
  match goal with
  | |- _ ∈ creates (generated ?r2) => set (run2 := r2)
  end.
  assert (Hrun1 : @fetch_total_product_counts integer_prices
                    (catalog_remote ["A"; "B"]) (stored ["A"; "B"]) scrape_A_timed_out
                  = Done run1)
    by (vm_compute; reflexivity).
  assert (Hrun2 : @fetch_total_product_counts integer_prices
                    (catalog_remote ["A"; "B"]) (saved_file run1) scrape_AB = Done run2)
    by (vm_compute; reflexivity).
  apply (@unsaved_identifier_is_created_again integer_prices
           (catalog_remote ["A"; "B"]) (catalog_remote ["A"; "B"]) (stored ["A"; "B"])
           scrape_A_timed_out scrape_AB run1 run2 (sample_product "A" "250" "")
           Hrun1).
  - unfold ids_of. simpl. set_solver.
  - exact Hrun2.
  - simpl. apply list_elem_of_here.
Defined.

(* ===================================================================== *)
(** ** Further properties: the duplicate finder *)
(* ===================================================================== *)

Lemma group_node_untagged (acc : Duplicates) (n : Node) :
  products_without_sku_tag (group_node acc n)
  = products_without_sku_tag acc ++ List.filter untagged [n].
Proof.
  unfold group_node, untagged, tag_value. simpl.
  destruct (sku_from_tag (tags n)) as [ value | ]; simpl; [ | reflexivity ].
  destruct (truthy value); simpl; [ symmetry; apply app_nil_r | reflexivity ].
Qed.

Lemma grouping_untagged (products : list Node) : forall acc,
  products_without_sku_tag (fold_left group_node products acc)
  = products_without_sku_tag acc ++ List.filter untagged products.
Proof.
  induction products as [ | n rest IH ]; intros acc; simpl fold_left.
  - simpl. symmetry. apply app_nil_r.
  - rewrite IH, group_node_untagged, <- app_assoc. f_equal.
    simpl. destruct (untagged n); reflexivity.
Qed.

Lemma elem_of_sharing (v : string) (products : list Node) (m : Member) :
  m ∈ sharing v products
  <-> exists n, n ∈ products /\ tag_value n = Some v /\ m = member_of v n.
Proof.
  unfold sharing. rewrite list_elem_of_omap. split.
  - intros (n & Hn & Hm). exists n. split; [ exact Hn | ].
    destruct (tag_value n) as [ v' | ]; [ | discriminate Hm ].
    destruct (String.eqb_spec v' v) as [ Heq | _ ]; [ | discriminate Hm ].
    subst v'. injection Hm as <-. split; reflexivity.
  - intros (n & Hn & Htag & ->). exists n. split; [ exact Hn | ].
    rewrite Htag, String.eqb_refl. reflexivity.
Qed.

(** X17.  [find_duplicates] puts under [products_without_sku_tag] exactly the
    catalog products without a tag starting with [sku:] and those whose first
    such tag is [sku:] alone (an empty value), in catalog order; none of them
    is a member of any group. *)
Theorem untagged_products_are_set_aside (products : list Node) :
  products_without_sku_tag (find_duplicates products) = List.filter untagged products
  /\ (forall n, List.find (String.prefix "sku:") (tags n) = None -> untagged n = true)
  /\ (forall n, List.find (String.prefix "sku:") (tags n) = Some "sku:" -> untagged n = true)
  /\ (forall n v members m,
         untagged n = true ->
         (v, members) ∈ by_sku_tag (find_duplicates products) ->
         m ∈ members ->
         forall n', n' ∈ products -> m = member_of v n' -> n' <> n).
Proof.
  split; [ | split; [ | split ] ].
  - unfold find_duplicates. simpl. rewrite grouping_untagged. reflexivity.
  - intros n Hfind. unfold untagged, tag_value, sku_from_tag. rewrite Hfind. reflexivity.
  - intros n Hfind. unfold untagged, tag_value, sku_from_tag. rewrite Hfind. reflexivity.
  - intros n v members m Hun Hgroup Hm n' Hn' Heq ->.
    apply find_duplicates_groups in Hgroup as [-> _].
    apply elem_of_sharing in Hm as (n0 & _ & Htag & Hm0).
    rewrite Heq in Hm0.
    assert (Htags : tags n = tags n0).
    { apply (f_equal member_tags) in Hm0. exact Hm0. }
    unfold untagged, tag_value in Hun. unfold tag_value in Htag.
    rewrite Htags, Htag in Hun. discriminate Hun.
Qed.

Lemma untagged_products_are_set_aside_witness :
  untagged {| node_id := "C"; title := "third"; tags := ["new"; "sku:"; "sku:9"];
              node_createdAt := "2023-07-01" |} = true.
Proof.
  apply (proj1 (proj2 (proj2 (untagged_products_are_set_aside [])))).
  reflexivity.
Defined.

Lemma group_deletions_count (group : string * list Member) :
  snd group <> [] ->
  S (List.length (group_deletions group)) = List.length (snd group).
Proof.
  destruct group as [v members]. simpl. intros Hne.
  destruct (group_deletions_spec v members Hne)
    as (earlier & kept & _ & Hperm & _ & _ & Hdel).
  rewrite Hdel, length_map. apply Permutation_length in Hperm.
  rewrite length_app in Hperm. simpl in Hperm. lia.
Qed.

Lemma deletions_count (groups : list (string * list Member)) :
  Forall (fun g => snd g <> []) groups ->
  (List.length (List.flat_map group_deletions groups) + List.length groups
   = List.length (List.concat (List.map snd groups)))%nat.
Proof.
  induction groups as [ | g rest IH ]; intros Hne; simpl; [ reflexivity | ].
  apply Forall_cons in Hne as [Hg Hrest].
  rewrite !length_app. specialize (IH Hrest).
  pose proof (group_deletions_count g Hg). lia.
Qed.

(** X18.  What the finder lists for deletion.  Every entry of the deletion
    list is a catalog product that has an identifying tag value, shares it
    with at least one other catalog product, and was created no later than a
    product of its group that is not in the group's part of the list; its
    reason names that value.  A product without tag value, or whose tag value
    no other product has, is never listed.  Each group spares exactly one
    member: the list has as many entries as the groups have members, less one
    per group. *)
Theorem deletion_list_is_safe (products : list Node) :
  (forall d,
      d ∈ generate_delete_script (find_duplicates products) ->
      exists n v,
        n ∈ products
        /\ delete_id d = node_id n
        /\ delete_title d = title n
        /\ delete_created_at d = node_createdAt n
        /\ tag_value n = Some v
        /\ reason d = "Duplicate SKU tag: " +:+ v
        /\ (1 < List.length (sharing v products))%nat
        /\ exists kept,
             last (sorted_by_created_at (sharing v products)) = Some kept
             /\ String.leb (node_createdAt n) (created_at kept) = true)
  /\ (List.length (generate_delete_script (find_duplicates products))
      + List.length (by_sku_tag (find_duplicates products))
      = List.length (List.concat (List.map snd (by_sku_tag (find_duplicates products)))))%nat.
Proof.
  split.
  - intros d Hd. unfold generate_delete_script in Hd.
    apply list_elem_of_In, in_flat_map in Hd as ([v members] & Hgroup & Hd).
    apply list_elem_of_In, find_duplicates_groups in Hgroup as [Hmembers Hsize].
    assert (Hne : members <> []).
    { intros Hnil. rewrite Hnil in Hsize. simpl in Hsize. lia. }
    destruct (group_deletions_spec v members Hne)
      as (earlier & kept & Hsorted & Hperm & _ & Hlatest & Hdel).
    rewrite Hdel in Hd. apply in_map_iff in Hd as (m & <- & Hm).
    assert (Hmem : m ∈ members).
    { rewrite <- Hperm. apply elem_of_app. left. apply list_elem_of_In. exact Hm. }
    pose proof (Hlatest m Hmem) as Hle.
    rewrite Hmembers in Hmem. apply elem_of_sharing in Hmem as (n & Hn & Htag & ->).
    exists n, v. simpl. repeat split; try assumption; try reflexivity.
    + rewrite <- Hmembers. exact Hsize.
    + exists kept. rewrite <- Hmembers, Hsorted, last_snoc. split; [ reflexivity | exact Hle ].
  - apply deletions_count. apply Forall_forall. intros [v members] Hgroup.
    apply find_duplicates_groups in Hgroup as [_ Hsize]. simpl.
    intros Hnil. rewrite Hnil in Hsize. simpl in Hsize. lia.
Qed.

Lemma deletion_list_is_safe_witness :
  exists n v,
    n ∈ catalog_AB
    /\ node_id n = "A"
    /\ tag_value n = Some v
    /\ (1 < List.length (sharing v catalog_AB))%nat.
Proof.
  destruct (proj1 (deletion_list_is_safe catalog_AB)
              {| delete_id := "A"; delete_title := "first";
                 reason := "Duplicate SKU tag: 1"; delete_created_at := "2023-01-01" |})
    as (n & v & Hn & Hid & _ & _ & Htag & _ & Hsize & _).
  - vm_compute. apply list_elem_of_here.
  - exists n, v. simpl in Hid. repeat split; auto.
Defined.

(** X19.  Ties.  The sort by creation timestamp keeps members with equal
    timestamps in the order of the group, so of the members that share the
    latest timestamp the one fetched last is kept and all the others are
    listed for deletion. *)
Theorem latest_fetched_wins_ties (sku_value : string) (members : list Member) :
  members <> [] ->
  exists earlier kept,
    sorted_by_created_at members = earlier ++ [kept]
    /\ (forall t,
           List.filter (fun m => String.eqb (created_at m) t) (earlier ++ [kept])
           = List.filter (fun m => String.eqb (created_at m) t) members)
    /\ last (List.filter (fun m => String.eqb (created_at m) (created_at kept)) members)
       = Some kept
    /\ group_deletions (sku_value, members) = List.map (to_delete sku_value) earlier.
Proof.
  intros Hne.
  destruct (group_deletions_spec sku_value members Hne)
    as (earlier & kept & Hsorted & _ & _ & _ & Hdel).
  exists earlier, kept.
  assert (Hstable : forall t,
             List.filter (fun m => String.eqb (created_at m) t) (earlier ++ [kept])
             = List.filter (fun m => String.eqb (created_at m) t) members).
  { intros t. rewrite <- Hsorted. apply sorted_by_created_at_stable. }
  split; [ exact Hsorted | ].
  split; [ exact Hstable | ].
  split; [ | exact Hdel ].
  rewrite <- Hstable, List.filter_app. simpl. rewrite String.eqb_refl. apply last_snoc.
Qed.

Lemma latest_fetched_wins_ties_witness :
  exists earlier kept,
    sorted_by_created_at
      [ member_of "1" (node "A" "1" "2023-01-01"); member_of "1" (node "B" "1" "2023-01-01") ]
    = earlier ++ [kept]
    /\ last (List.filter (fun m => String.eqb (created_at m) (created_at kept))
               [ member_of "1" (node "A" "1" "2023-01-01");
                 member_of "1" (node "B" "1" "2023-01-01") ])
       = Some kept.
Proof.
  destruct (latest_fetched_wins_ties "1"
              [ member_of "1" (node "A" "1" "2023-01-01");
                member_of "1" (node "B" "1" "2023-01-01") ])
    as (earlier & kept & Hsorted & _ & Hlast & _).
  - discriminate.
  - exists earlier, kept. split; assumption.
Defined.

Lemma injective_on_nodup {A B : Type} (f : A -> B) (l : list A) (x y : A) :
  NoDup (List.map f l) -> x ∈ l -> y ∈ l -> f x = f y -> x = y.
Proof.
  induction l as [ | a rest IH ]; simpl; intros Hnodup Hx Hy Hxy.
  - apply elem_of_nil in Hx. contradiction.
  - apply NoDup_cons in Hnodup as [Hfresh Hrest].
    apply elem_of_cons in Hx as [ -> | Hx ]; apply elem_of_cons in Hy as [ -> | Hy ].
    + reflexivity.
    + exfalso. apply Hfresh. rewrite Hxy.
      apply list_elem_of_In, in_map, list_elem_of_In. exact Hy.
    + exfalso. apply Hfresh. rewrite <- Hxy.
      apply list_elem_of_In, in_map, list_elem_of_In. exact Hx.
    + apply IH; assumption.
Qed.

Lemma sharing_nodup (v : string) (products : list Node) :
  NoDup (List.map node_id products) -> NoDup (sharing v products).
Proof.
  unfold sharing. induction products as [ | n rest IH ]; simpl; intros Hnodup.
  - apply NoDup_nil_2.
  - apply NoDup_cons in Hnodup as [Hfresh Hrest]. specialize (IH Hrest).
    destruct (tag_value n) as [ v' | ]; [ | exact IH ].
    destruct (String.eqb v' v); [ | exact IH ].
    apply NoDup_cons. split; [ | exact IH ].
    intros Hin. apply list_elem_of_omap in Hin as (n' & Hn' & Heq).
    destruct (tag_value n') as [ v'' | ]; [ | discriminate Heq ].
    destruct (String.eqb v'' v); [ | discriminate Heq ].
    assert (Hid : node_id n' = node_id n).
    { apply (f_equal (fun o => match o with Some m => member_id m | None => "" end)) in Heq.
      exact Heq. }
    apply Hfresh. rewrite <- Hid.
    apply list_elem_of_In, in_map, list_elem_of_In. exact Hn'.
Qed.

(** X20.  The product retained for a duplicate group is never on the
    deletion list, provided the catalog products have pairwise distinct ids:
    no entry of the list, of its own group or of another, carries the id
    of a retained product. *)
Theorem retained_product_is_not_listed (products : list Node) (sku_value : string)
    (members : list Member) (kept : Member) :
  NoDup (List.map node_id products) ->
  (sku_value, members) ∈ by_sku_tag (find_duplicates products) ->
  last (sorted_by_created_at members) = Some kept ->
  member_id kept ∉ List.map delete_id (generate_delete_script (find_duplicates products)).
Proof.
  intros Hids Hgroup Hkept Hlisted.
  apply find_duplicates_groups in Hgroup as [Hmembers Hsize].
  apply list_elem_of_In, in_map_iff in Hlisted as (d & Hid & Hd).
  unfold generate_delete_script in Hd.
  apply in_flat_map in Hd as ([v' members'] & Hgroup' & Hd).
  apply list_elem_of_In, find_duplicates_groups in Hgroup' as [Hmembers' Hsize'].
  assert (Hne' : members' <> []).
  { intros Hnil. rewrite Hnil in Hsize'. simpl in Hsize'. lia. }
  destruct (group_deletions_spec v' members' Hne')
    as (earlier' & kept' & Hsorted' & Hperm' & _ & _ & Hdel').
  rewrite Hdel' in Hd. apply in_map_iff in Hd as (m & <- & Hm). simpl in Hid.
  assert (Hm' : m ∈ members').
  { rewrite <- Hperm'. apply elem_of_app. left. apply list_elem_of_In. exact Hm. }
  assert (Hk : kept ∈ members).
  { rewrite <- (sorted_by_created_at_perm members).
    destruct (snoc_cases (sorted_by_created_at members)) as [ Hnil | (x & front & Heq) ].
    - rewrite Hnil in Hkept. discriminate Hkept.
    - rewrite Heq, last_snoc in Hkept. injection Hkept as ->.
      rewrite Heq. apply elem_of_app. right. apply list_elem_of_here. }
  rewrite Hmembers' in Hm'. apply elem_of_sharing in Hm' as (n & Hn & Htag & Hmn).
  rewrite Hmembers in Hk. apply elem_of_sharing in Hk as (n0 & Hn0 & Htag0 & Hkn).
  assert (Hsame : n = n0).
  { apply (injective_on_nodup node_id products n n0 Hids Hn Hn0).
    rewrite Hmn, Hkn in Hid. exact Hid. }
  subst n0. rewrite Htag in Htag0. injection Htag0 as ->.
  assert (Hmk : m = kept) by congruence.
  assert (Heq : earlier' ++ [kept'] = sorted_by_created_at members).
  { rewrite <- Hsorted', Hmembers', Hmembers. reflexivity. }
  assert (Hkept' : kept' = kept).
  { rewrite <- Heq, last_snoc in Hkept. injection Hkept as ->. reflexivity. }
  subst kept'. rewrite Hmk in Hm.
  assert (Hnodup : NoDup (earlier' ++ [kept])).
  { rewrite Hperm', Hmembers'. apply sharing_nodup. exact Hids. }
  apply NoDup_app in Hnodup as (_ & Hsep & _).
  apply (Hsep kept); [ apply list_elem_of_In; exact Hm | apply list_elem_of_here ].
Qed.

Lemma retained_product_is_not_listed_witness :
  "B" ∉ List.map delete_id (generate_delete_script (find_duplicates catalog_AB)).
Proof.
  apply (retained_product_is_not_listed catalog_AB "1" (sharing "1" catalog_AB)
           (member_of "1" {| node_id := "B"; title := "second"; tags := ["sku:1"];
                             node_createdAt := "2023-06-01" |})).
  - vm_compute. repeat constructor; set_solver.
  - vm_compute. apply list_elem_of_here.
  - reflexivity.
Defined.

(* ===================================================================== *)
(** ** Further properties: fetching the catalog *)
(* ===================================================================== *)

Lemma page_requests_app (a b : list FinderEvent) :
  page_requests (a ++ b) = page_requests a ++ page_requests b.
Proof. unfold page_requests. apply omap_app. Qed.

Lemma cursors_length (script : list (Post (Graphql ProductsPage))) (cursor : option string) :
  (1 <= List.length (cursors script cursor))%nat.
Proof. destruct script; simpl; lia. Qed.

(** The pagination against a scripted API, from any point of the script. *)
Lemma fetch_pages_scripted (script : list (Post (Graphql ProductsPage))) :
  forall (served_before : list (Post (Graphql ProductsPage))) (all_products : list Node)
         (cursor : option string) (tr : list FinderEvent) (fuel : nat),
  List.length (page_requests tr) = List.length served_before ->
  (List.length (cursors script cursor) <= fuel)%nat ->
  exists new,
    fetch_pages fuel (scripted_api (served_before ++ script)) all_products cursor tr
    = Some (all_products ++ served script, tr ++ new)
    /\ page_requests new = cursors script cursor
    /\ pauses new = repeat 500 (List.length (cursors script cursor) - 1).
Proof.
  induction script as [ | reply rest IH ];
    intros served_before all_products cursor tr fuel Hpos Hfuel.
  - destruct fuel as [ | fuel ]; [ simpl in Hfuel; lia | ].
    exists [EvProducts cursor]. simpl. unfold scripted_api at 1.
    rewrite Hpos, app_nil_r, nth_overflow by lia. rewrite app_nil_r.
    repeat split.
  - destruct fuel as [ | fuel ]; [ simpl in Hfuel; lia | ].
    assert (Hreply : scripted_api (served_before ++ reply :: rest) tr cursor = reply).
    { unfold scripted_api. rewrite Hpos. apply nth_middle. }
    simpl fetch_pages. rewrite Hreply.
    destruct reply as [ | | [ | page ] ];
      try (exists [EvProducts cursor]; simpl; rewrite app_nil_r; repeat split; fail).
    simpl served. simpl cursors in *.
    destruct (hasNextPage page) eqn:Hnext.
    + specialize (IH (served_before ++ [Json (Data page)]) (all_products ++ page_nodes page)
                    (endCursor page) ((tr ++ [EvProducts cursor]) ++ [EvPause 500]) fuel).
      assert (Happ : (served_before ++ [Json (Data page)]) ++ rest
                     = served_before ++ Json (Data page) :: rest).
      { rewrite <- app_assoc. reflexivity. }
      rewrite Happ in IH.
      destruct IH as (new & Hrun & Hreq & Hpause).
      * rewrite !page_requests_app, !length_app. simpl. rewrite Hpos. lia.
      * simpl in Hfuel. lia.
      * exists (EvProducts cursor :: EvPause 500 :: new).
        rewrite Hrun. simpl.
        split; [ rewrite <- !app_assoc; reflexivity | ].
        split; [ rewrite Hreq; reflexivity | ].
        rewrite Hpause. pose proof (cursors_length rest (endCursor page)) as Hlen.
        destruct (List.length (cursors rest (endCursor page))) as [ | k ]; [ lia | ].
        simpl. rewrite Nat.sub_0_r. reflexivity.
    + exists [EvProducts cursor]. simpl. rewrite app_nil_r. repeat split.
Qed.

(** X21.  [fetch_all_products] against an API that answers the successive
    page requests with given replies: it returns the nodes of the pages in
    order, up to the first page that has no next page; a page request that
    fails ends the pagination silently with the products fetched so far, none
    when it is the first one, and [main] then writes no file.  Every request
    carries the end cursor of the page before it (none for the first), and
    requests are half a second apart. *)
Theorem pagination_collects_until_failure (script : list (Post (Graphql ProductsPage)))
    (fuel : nat) :
  (List.length (cursors script None) <= fuel)%nat ->
  exists tr,
    fetch_all_products fuel (scripted_api script) = Some (served script, tr)
    /\ page_requests tr = cursors script None
    /\ pauses tr = repeat 500 (List.length (cursors script None) - 1)
    /\ finder_main fuel (scripted_api script)
       = Some match served script with
              | [] => None
              | _ :: _ =>
                  Some (find_duplicates (served script),
                        generate_delete_script (find_duplicates (served script)))
              end.
Proof.
  intros Hfuel.
  destruct (fetch_pages_scripted script [] [] None [] fuel eq_refl Hfuel)
    as (tr & Hrun & Hreq & Hpause).
  simpl in Hrun. exists tr.
  split; [ exact Hrun | ].
  split; [ exact Hreq | ].
  split; [ exact Hpause | ].
  unfold finder_main. unfold fetch_all_products in Hrun |- *. rewrite Hrun.
  destruct (served script); reflexivity.
Qed.

Lemma pagination_collects_until_failure_witness :
  exists tr,
    fetch_all_products 5
      (scripted_api [ more [node "A" "1" "2023-01-01"] "c1";
                      more [node "B" "1" "2023-06-01"] "c2";
                      Json Errors;
                      final [node "C" "1" "2023-07-01"] ])
    = Some ([node "A" "1" "2023-01-01"; node "B" "1" "2023-06-01"], tr)
    /\ page_requests tr = [None; Some "c1"; Some "c2"]
    /\ pauses tr = [500; 500].
Proof.
  destruct (pagination_collects_until_failure
              [ more [node "A" "1" "2023-01-01"] "c1";
                more [node "B" "1" "2023-06-01"] "c2";
                Json Errors;
                final [node "C" "1" "2023-07-01"] ] 5)
    as (tr & Hrun & Hreq & Hpause & _).
  - simpl. lia.
  - exists tr. split; [ exact Hrun | split; [ exact Hreq | exact Hpause ] ].
Defined.

(* ===================================================================== *)
(** ** Further properties: the deletion log *)
(* ===================================================================== *)

Lemma enumerate_from_length {A : Type} (items : list A) :
  forall start, List.length (enumerate_from start items) = List.length items.
Proof. induction items as [ | item rest IH ]; intros start; simpl; [ | rewrite IH ]; reflexivity. Qed.

Section DeletionLog.

Variable R : Remote.
Variable now : list Event -> string.

(** What the loop does to the log. *)
Lemma delete_each_log (total_products : nat) (entries : list (nat * Listed)) :
  forall log tr log' tr',
  delete_each R now total_products entries log tr = Done (log', tr') ->
  log_total_products log' = log_total_products log
  /\ (List.length (log_successful_deletions log') + List.length (log_failed_deletions log')
      = List.length (log_successful_deletions log) + List.length (log_failed_deletions log)
        + List.length entries)%nat
  /\ List.map attempt_id (log_successful_deletions log' ++ log_failed_deletions log')
     ≡ₚ List.map attempt_id (log_successful_deletions log ++ log_failed_deletions log)
        ++ List.map (fun e => listed_id (snd e)) entries
  /\ (Forall (fun a => attempt_error a = None) (log_successful_deletions log) ->
      Forall (fun a => attempt_error a = None) (log_successful_deletions log'))
  /\ (Forall (fun a => attempt_error a <> None) (log_failed_deletions log) ->
      Forall (fun a => attempt_error a <> None) (log_failed_deletions log')).
Proof.
  induction entries as [ | [idx product] rest IH ]; intros log tr log' tr' Hdone.
  - simpl in Hdone. injection Hdone as <- _. simpl.
    rewrite app_nil_r. repeat split; auto; lia.
  - rewrite delete_each_cons in Hdone.
    destruct (delete_product R (listed_id product) tr) as [ [result tr1] | code | ];
      try discriminate Hdone.
    cbv zeta in Hdone.
    assert (Hstep : forall log1 tr2,
               delete_each R now total_products rest log1 tr2 = Done (log', tr') ->
               log_total_products log1 = log_total_products log ->
               (log_successful_deletions log1 = log_successful_deletions log
                                                ++ [ {| attempt_id := listed_id product;
                                                        attempt_title := listed_title product;
                                                        attempt_reason :=
                                                          default "N/A" (listed_reason product);
                                                        attempt_error := None;
                                                        attempt_at := now tr1 |} ]
                /\ log_failed_deletions log1 = log_failed_deletions log)
               \/ (exists error,
                     log_successful_deletions log1 = log_successful_deletions log
                     /\ log_failed_deletions log1
                        = log_failed_deletions log
                          ++ [ {| attempt_id := listed_id product;
                                  attempt_title := listed_title product;
                                  attempt_reason := default "N/A" (listed_reason product);
                                  attempt_error := Some error;
                                  attempt_at := now tr1 |} ]) ->
               log_total_products log' = log_total_products log
               /\ (List.length (log_successful_deletions log')
                   + List.length (log_failed_deletions log')
                   = List.length (log_successful_deletions log)
                     + List.length (log_failed_deletions log)
                     + List.length ((idx, product) :: rest))%nat
               /\ List.map attempt_id (log_successful_deletions log' ++ log_failed_deletions log')
                  ≡ₚ List.map attempt_id
                       (log_successful_deletions log ++ log_failed_deletions log)
                     ++ List.map (fun e => listed_id (snd e)) ((idx, product) :: rest)
               /\ (Forall (fun a => attempt_error a = None) (log_successful_deletions log) ->
                   Forall (fun a => attempt_error a = None) (log_successful_deletions log'))
               /\ (Forall (fun a => attempt_error a <> None) (log_failed_deletions log) ->
                   Forall (fun a => attempt_error a <> None) (log_failed_deletions log'))).
    { intros log1 tr2 Hrest Htotal Hlists.
      apply IH in Hrest as (Htotal' & Hcount & Hperm & Hok & Hbad).
      split; [ congruence | ].
      destruct Hlists as [ [Hs Hf] | (error & Hs & Hf) ]; rewrite Hs, Hf in *.
      - split; [ rewrite length_app in Hcount; simpl in *; lia | ].
        split.
        + rewrite Hperm, !List.map_app. simpl.
          rewrite <- !app_assoc. apply Permutation_app_head.
          simpl. apply Permutation_middle.
        + split; [ | exact Hbad ].
          intros Hall. apply Hok. apply Forall_app. split; [ exact Hall | ].
          constructor; [ reflexivity | constructor ].
      - split; [ rewrite length_app in Hcount; simpl in *; lia | ].
        split.
        + rewrite Hperm, !List.map_app. simpl.
          rewrite <- !app_assoc. reflexivity.
        + split; [ exact Hok | ].
          intros Hall. apply Hbad. apply Forall_app. split; [ exact Hall | ].
          constructor; [ discriminate | constructor ]. }
    destruct result as [ deleted_id | error ];
      destruct (idx <? total_products)%nat; destruct (idx mod 50 =? 0)%nat;
      (eapply Hstep; [ exact Hdone | reflexivity | ]);
      solve [ left; split; reflexivity | right; exists error; split; reflexivity ].
Qed.

(** The sleeps of the loop: one after every product but the last. *)
Lemma delete_each_sleeps (total_products : nat) (products : list Listed) :
  forall start log tr log' tr',
  (start + List.length products = S total_products)%nat ->
  delete_each R now total_products (enumerate_from start products) log tr = Done (log', tr') ->
  sleeps tr' = sleeps tr ++ repeat 600 (List.length products - 1).
Proof.
  induction products as [ | product rest IH ]; intros start log tr log' tr' Hpos Hdone.
  - simpl in Hdone. injection Hdone as _ <-. simpl. symmetry. apply app_nil_r.
  - simpl enumerate_from in Hdone. rewrite delete_each_cons in Hdone.
    destruct (delete_product R (listed_id product) tr) as [ [result tr1] | code | ] eqn:Hdel;
      try discriminate Hdone.
    apply delete_product_trace in Hdel. subst tr1. cbv zeta in Hdone. simpl in Hpos.
    destruct rest as [ | next rest ].
    + simpl in Hpos. assert (Hlast : (start <? total_products)%nat = false).
      { apply Nat.ltb_ge. lia. }
      rewrite Hlast in Hdone. simpl enumerate_from in Hdone.
      destruct (start mod 50 =? 0)%nat; simpl in Hdone; injection Hdone as _ <-;
        rewrite ?sleeps_app; simpl; rewrite ?app_nil_r; reflexivity.
    + assert (Hmore : (start <? total_products)%nat = true).
      { apply Nat.ltb_lt. simpl in Hpos. lia. }
      rewrite Hmore in Hdone.
      destruct (start mod 50 =? 0)%nat;
        apply (IH (S start)) in Hdone; try (simpl in *; lia);
        rewrite Hdone, !sleeps_app; simpl; rewrite ?app_nil_r, <- app_assoc;
        simpl; rewrite Nat.sub_0_r; reflexivity.
Qed.

(** The checkpoints of the loop: one log write after every product whose
    number is a multiple of 50. *)
Lemma delete_each_checkpoints (total_products : nat) (products : list Listed) :
  forall start log tr log' tr',
  (1 <= start)%nat ->
  delete_each R now total_products (enumerate_from start products) log tr = Done (log', tr') ->
  (List.length (written_logs tr') + (start - 1) / 50
   = List.length (written_logs tr) + (start + List.length products - 1) / 50)%nat.
Proof.
  induction products as [ | product rest IH ]; intros start log tr log' tr' Hstart Hdone.
  - simpl in Hdone. injection Hdone as _ <-. simpl. rewrite Nat.add_0_r. reflexivity.
  - simpl enumerate_from in Hdone. rewrite delete_each_cons in Hdone.
    destruct (delete_product R (listed_id product) tr) as [ [result tr1] | code | ] eqn:Hdel;
      try discriminate Hdone.
    apply delete_product_trace in Hdel. subst tr1. cbv zeta in Hdone.
    assert (Hdiv : (if start mod 50 =? 0 then S ((start - 1) / 50) else (start - 1) / 50)%nat
                   = (start / 50)%nat).
    { pose proof (Nat.div_mod_eq start 50) as H1.
      pose proof (Nat.div_mod_eq (start - 1) 50) as H2.
      pose proof (Nat.mod_upper_bound start 50 ltac:(lia)) as H3.
      pose proof (Nat.mod_upper_bound (start - 1) 50 ltac:(lia)) as H4.
      destruct (Nat.eqb_spec (start mod 50) 0) as [ Hz | Hnz ]; lia. }
    simpl List.length. replace (start + S (List.length rest) - 1)%nat
      with (S start + List.length rest - 1)%nat by lia.
    assert (Hsleep : forall tr0 ms,
               List.length (written_logs (tr0 ++ [EvSleep ms])) = List.length (written_logs tr0)).
    { intros tr0 ms. rewrite written_logs_app, length_app. simpl. lia. }
    assert (Hdelete : forall tr0 pid,
               List.length (written_logs (tr0 ++ [EvDelete pid])) = List.length (written_logs tr0)).
    { intros tr0 pid. rewrite written_logs_app, length_app. simpl. lia. }
    assert (Hwrite : forall tr0 saved,
               List.length (written_logs (tr0 ++ [EvWriteLog saved]))
               = S (List.length (written_logs tr0))).
    { intros tr0 saved. rewrite written_logs_app, length_app. simpl. lia. }
    destruct (start <? total_products)%nat; destruct (start mod 50 =? 0)%nat;
      apply (IH (S start)) in Hdone; try lia;
      rewrite ?Hwrite, ?Hsleep, ?Hdelete in Hdone;
      replace (S start - 1)%nat with start in Hdone by lia; lia.
Qed.

End DeletionLog.

(** X22.  The final deletion log.  A confirmed run that finishes ends by
    writing a log that accounts for every listed product exactly once:
    [total_products] is the number of listed products, the successful and
    failed entries together are as many and carry the ids of the listed
    products, successful entries have no error and failed ones have one, and
    [completed_at] is set.  The run sleeps 0.6 seconds after every product but
    the last. *)
Theorem final_log_accounts_for_every_product (R : Remote) (now : list Event -> string)
    (products : list Listed) (tr tr' : list Event) :
  delete_products_from_file R now (InputProducts products) "DELETE" tr = Done tr' ->
  exists before final,
    tr' = before ++ [EvWriteLog final]
    /\ log_total_products final = List.length products
    /\ (List.length (log_successful_deletions final)
        + List.length (log_failed_deletions final)
        = List.length products)%nat
    /\ List.map attempt_id (log_successful_deletions final ++ log_failed_deletions final)
       ≡ₚ List.map listed_id products
    /\ Forall (fun a => attempt_error a = None) (log_successful_deletions final)
    /\ Forall (fun a => attempt_error a <> None) (log_failed_deletions final)
    /\ is_Some (log_completed_at final)
    /\ sleeps tr' = sleeps tr ++ repeat 600 (List.length products - 1).
Proof.
  unfold delete_products_from_file. simpl. intros Hrun.
  destruct (delete_each R now (List.length products) (enumerate_from 1 products) _ tr)
    as [ [log tr1] | code | ] eqn:Hloop; try discriminate Hrun.
  injection Hrun as <-.
  pose proof (delete_each_log R now _ _ _ _ _ _ Hloop) as (Htotal & Hcount & Hperm & Hok & Hbad).
  pose proof (delete_each_sleeps R now (List.length products) products 1 _ _ _ _
                ltac:(lia) Hloop) as Hsleeps.
  simpl in Htotal, Hcount, Hperm, Hok, Hbad.
  exists tr1, (completed log (now tr1)). simpl.
  split; [ reflexivity | ].
  split; [ exact Htotal | ].
  split; [ rewrite enumerate_from_length in Hcount; exact Hcount | ].
  split; [ rewrite Hperm, enumerate_from_ids; reflexivity | ].
  split; [ apply Hok; constructor | ].
  split; [ apply Hbad; constructor | ].
  split; [ eexists; reflexivity | ].
  rewrite sleeps_app, Hsleeps. simpl. apply app_nil_r.
Qed.

Lemma final_log_accounts_for_every_product_witness :
  exists before final,
    [ EvDelete "gid://shopify/Product/1"; EvSleep 600; EvDelete "gid://shopify/Product/2";
      EvWriteLog
        (completed
           (record_success
              (record_success
                 {| log_started_at := "2024-01-01T00:00:00"; log_total_products := 2;
                    log_successful_deletions := []; log_failed_deletions := [];
                    log_completed_at := None |}
                 {| listed_id := "gid://shopify/Product/1"; listed_title := "first";
                    listed_reason := Some "Duplicate SKU tag: 1" |} "2024-01-01T00:00:00")
              {| listed_id := "gid://shopify/Product/2"; listed_title := "second";
                 listed_reason := None |} "2024-01-01T00:00:00")
           "2024-01-01T00:00:00") ]
    = before ++ [EvWriteLog final]
    /\ log_total_products final = 2%nat.
Proof.
  destruct (final_log_accounts_for_every_product (catalog_remote []) frozen_clock
              [ {| listed_id := "gid://shopify/Product/1"; listed_title := "first";
                   listed_reason := Some "Duplicate SKU tag: 1" |};
                {| listed_id := "gid://shopify/Product/2"; listed_title := "second";
                   listed_reason := None |} ] [] _ eq_refl)
    as (before & final & Htrace & Htotal & _).
  exists before, final. split; assumption.
Defined.

(** X23.  Checkpoints.  A confirmed run that finishes has written the log
    once after every fiftieth product and once at the end: with [n] listed
    products it has written the log [n / 50 + 1] times, so a run over fewer
    than 50 products writes the log only when it is over. *)
Theorem log_is_saved_every_fifty_products (R : Remote) (now : list Event -> string)
    (products : list Listed) (tr tr' : list Event) :
  delete_products_from_file R now (InputProducts products) "DELETE" tr = Done tr' ->
  List.length (written_logs tr')
  = (List.length (written_logs tr) + List.length products / 50 + 1)%nat.
Proof.
  unfold delete_products_from_file. simpl. intros Hrun.
  destruct (delete_each R now (List.length products) (enumerate_from 1 products) _ tr)
    as [ [log tr1] | code | ] eqn:Hloop; try discriminate Hrun.
  injection Hrun as <-.
  pose proof (delete_each_checkpoints R now (List.length products) products 1 _ _ _ _
                ltac:(lia) Hloop) as Hcount.
  simpl in Hcount. rewrite Nat.sub_0_r in Hcount.
  rewrite written_logs_app, length_app. simpl. lia.
Qed.

Lemma log_is_saved_every_fifty_products_witness :
  List.length
    (written_logs
       [ EvDelete "gid://shopify/Product/1"; EvSleep 600; EvDelete "gid://shopify/Product/2";
         EvWriteLog
           (completed
              (record_success
                 (record_success
                    {| log_started_at := "2024-01-01T00:00:00"; log_total_products := 2;
                       log_successful_deletions := []; log_failed_deletions := [];
                       log_completed_at := None |}
                    {| listed_id := "gid://shopify/Product/1"; listed_title := "first";
                       listed_reason := Some "Duplicate SKU tag: 1" |} "2024-01-01T00:00:00")
                 {| listed_id := "gid://shopify/Product/2"; listed_title := "second";
                    listed_reason := None |} "2024-01-01T00:00:00")
              "2024-01-01T00:00:00") ])
  = (List.length (written_logs []) + 2 / 50 + 1)%nat.
Proof.
  apply (log_is_saved_every_fifty_products (catalog_remote []) frozen_clock
           [ {| listed_id := "gid://shopify/Product/1"; listed_title := "first";
                listed_reason := Some "Duplicate SKU tag: 1" |};
             {| listed_id := "gid://shopify/Product/2"; listed_title := "second";
                listed_reason := None |} ] []).
  reflexivity.
Defined.
